(** * gcp-anomaly-detector: the baseline statistics engine and the z-score test

    A shallow embedding of [main.go]: the detector state
    ([SimpleAnomalyDetector], [MetricStats]), and the three methods
    [GetBaseline], [UpdateCurrentStats] and [DetectAnomalies].

    Go's [float64] is IEEE 754 binary64 with round-to-nearest-even.  It is
    modelled by the standard library's [spec_float] at precision 53 and
    maximal exponent 1024, so that division by zero, infinities and NaN
    behave as they do in the program.  Go maps are [gmap]s from stdpp, with
    the nil map kept apart from the empty one, since storing into a nil map
    panics. *)

From Stdlib Require Import ZArith Lia Bool List.
From Stdlib Require Import SpecFloat.
From stdpp Require Import base option list strings pretty gmap.

Local Open Scope Z_scope.

(** ** float64 *)

Module F64.

Definition prec : Z := 53.
Definition emax : Z := 1024.

Definition float64 : Type := spec_float.

(** The zero value of a [float64] variable ([var sum float64]). *)
Definition zero : float64 := S754_zero false.

Definition add : float64 -> float64 -> float64 := SFadd prec emax.
Definition sub : float64 -> float64 -> float64 := SFsub prec emax.
Definition mul : float64 -> float64 -> float64 := SFmul prec emax.
Definition div : float64 -> float64 -> float64 := SFdiv prec emax.

(** Each operation is rounded on its own, as in the builds that do not fuse
    [x*y + z] into one instruction. *)

(** [math.Sqrt] and [math.Abs]. *)
Definition Sqrt : float64 -> float64 := SFsqrt prec emax.
Definition Abs : float64 -> float64 := SFabs.

(** The comparisons [==], [<], [<=], [>] and [>=] of Go: all of them are
    false as soon as one operand is NaN. *)
Definition eqb : float64 -> float64 -> bool := SFeqb.
Definition ltb : float64 -> float64 -> bool := SFltb.
Definition leb : float64 -> float64 -> bool := SFleb.
Definition gtb (x y : float64) : bool := SFltb y x.
Definition geb (x y : float64) : bool := SFleb y x.

(** Conversion of an integer, [float64(n)]: the nearest float. *)
Definition of_Z (n : Z) : float64 := binary_normalize prec emax n 0 false.

(** The constant [1] of [count++]. *)
Definition one : float64 := of_Z 1.

Definition is_nan (x : float64) : bool :=
  match x with S754_nan => true | _ => false end.

Definition is_inf (x : float64) : bool :=
  match x with S754_infinity _ => true | _ => false end.

(** A real number: neither NaN nor an infinity. *)
Definition is_finite (x : float64) : bool :=
  match x with S754_zero _ | S754_finite _ _ _ => true | _ => false end.

(** [x] is a float64 bit pattern: its mantissa and exponent are the
    canonical ones of binary64. *)
Definition valid (x : float64) : bool := valid_binary prec emax x.

(** A value a sample can carry when it is a real number. *)
Definition real (x : float64) : bool := is_finite x && valid x.

(** [x] is a zero, a finite number or an infinity of sign [s]. *)
Definition signed (s : bool) (x : float64) : bool :=
  match x with
  | S754_zero s' | S754_finite s' _ _ | S754_infinity s' => Bool.eqb s s'
  | S754_nan => false
  end.

(** [x] is a finite number other than zero, or an infinity. *)
Definition nonzero (x : float64) : bool :=
  match x with
  | S754_finite _ _ _ | S754_infinity _ => true
  | _ => false
  end.

End F64.

Import F64.

(** ** Data model *)

(** [time.Time], as the protobuf timestamp it is read from
    ([point.Interval.EndTime.AsTime()]). *)
Record Time : Type := { seconds : Z; nanos : Z }.

(** One point of a series: [DoubleValue] is what
    [point.Value.GetDoubleValue()] returns, [EndTime] is
    [point.Interval.EndTime]. *)
Record Point : Type := { DoubleValue : float64; EndTime : Time }.

(** [monitoringpb.TimeSeries], reduced to the two fields the detector
    reads: [metric.Metric.Type] and [metric.Points]. *)
Record TimeSeries : Type := { MetricType : string; Points : list Point }.

Record Anomaly : Type := {
  MetricName : string;
  Value : float64;
  Timestamp : Time;
  Message : string
}.

Record MetricStats : Type := {
  mean : float64;
  stddev : float64;
  currentMean : float64;
  currentStdDev : float64
}.

(** A Go map with string keys: the nil map, or an allocated one. *)
Inductive GoMap (V : Type) : Type :=
  | NilMap
  | Map (m : gmap string V).
Arguments NilMap {V}.
Arguments Map {V} m.

Record SimpleAnomalyDetector : Type := {
  metricsStats : GoMap MetricStats;
  initialised : bool;
  zScores : GoMap float64
}.

(** A Go call either returns or panics (nothing here recovers). *)
Inductive result (A : Type) : Type :=
  | Returns (a : A)
  | Panics (msg : string).
Arguments Returns {A} a.
Arguments Panics {A} msg.

(** The value of Go's [error]: [None] is [nil]. *)
Definition error : Type := option string.

(** [v, ok := m[k]]: a nil map has no key. *)
Definition map_lookup {V} (m : GoMap V) (k : string) : option V :=
  match m with
  | NilMap => None
  | Map g => g !! k
  end.

(** [m[k] = v]: panics on the nil map. *)
Definition map_store {V} (m : GoMap V) (k : string) (v : V) : result (GoMap V) :=
  match m with
  | NilMap => Panics "assignment to entry in nil map"
  | Map g => Returns (Map (<[k := v]> g))
  end.

(** The zero value of [MetricStats], which [m[k]] yields for a missing key. *)
Definition zeroMetricStats : MetricStats :=
  {| mean := zero; stddev := zero; currentMean := zero; currentStdDev := zero |}.

(** [&SimpleAnomalyDetector{}], the detector [main] starts from. *)
Definition newDetector : SimpleAnomalyDetector :=
  {| metricsStats := NilMap; initialised := false; zScores := NilMap |}.

(** The two formatting functions of the Go library the detector calls:
    [fmt.Sprintf("%.2f", z)] and [Time.String], the latter through the
    verb [%s].  They are not part of the repository: the detector is
    verified for any such pair. *)
Class GoFmt : Type := {
  Sprintf_2f : float64 -> string;
  Time_String : Time -> string
}.

(** ** The three methods *)

Section Detector.

Context {fmt : GoFmt}.

(** One turn of [for _, metric := range metrics] in [GetBaseline]
    (logging left out). *)
Definition GetBaseline_metric (stats : gmap string MetricStats)
    (metric : TimeSeries) : gmap string MetricStats :=
  let metricType := MetricType metric in
  let '(sum, count) :=
    fold_left (fun '(sum, count) point =>
                 let value := DoubleValue point in
                 (add sum value, add count one))
              (Points metric) (zero, zero) in
  if eqb count zero then stats
  else
    let mean := div sum count in
    let sumOfSquares :=
      fold_left (fun sumOfSquares point =>
                   let value := DoubleValue point in
                   let deviation := sub value mean in
                   add sumOfSquares (mul deviation deviation))
                (Points metric) zero in
    let stddev := Sqrt (div sumOfSquares count) in
    <[metricType := {| mean := mean; stddev := stddev;
                       currentMean := zero; currentStdDev := zero |}]> stats.

Definition GetBaseline (d : SimpleAnomalyDetector)
    (metrics : list TimeSeries) : SimpleAnomalyDetector :=
  {| metricsStats := Map (fold_left GetBaseline_metric metrics ∅);
     initialised := true;
     zScores := zScores d |}.

(** One turn of [for _, point := range metric.Points] in
    [DetectAnomalies]. *)
Definition DetectAnomalies_point (metricType : string) (stats : MetricStats)
    (zScoreThreshold : float64)
    (acc : list Anomaly * gmap string float64) (point : Point)
    : list Anomaly * gmap string float64 :=
  let '(anomalies, zs) := acc in
  let value := DoubleValue point in
  let zScore := div (sub value (mean stats)) (stddev stats) in
  let zs := <[(metricType +:+ " at " +:+ Time_String (EndTime point))%string := zScore]> zs in
  if gtb (Abs zScore) zScoreThreshold then
    let anomaly :=
      {| MetricName := metricType;
         Value := value;
         Timestamp := EndTime point;
         Message := ("Value deviates significantly from the mean (Z-score: "
                     +:+ Sprintf_2f zScore +:+ ")")%string |} in
    (anomalies ++ [anomaly], zs)
  else (anomalies, zs).

(** One turn of [for _, metric := range metrics] in [DetectAnomalies]. *)
Definition DetectAnomalies_metric (metricsStats : GoMap MetricStats)
    (zScoreThreshold : float64)
    (acc : list Anomaly * gmap string float64) (metric : TimeSeries)
    : list Anomaly * gmap string float64 :=
  let metricType := MetricType metric in
  match map_lookup metricsStats metricType with
  | None => acc
  | Some stats =>
      fold_left (DetectAnomalies_point metricType stats zScoreThreshold)
                (Points metric) acc
  end.

Definition DetectAnomalies (d : SimpleAnomalyDetector)
    (metrics : list TimeSeries) (zScoreThreshold : float64)
    : SimpleAnomalyDetector * (list Anomaly * error) :=
  if negb (initialised d) then (d, ([], Some "baseline not initialised"%string))
  else
    let '(anomalies, zs) :=
      fold_left (DetectAnomalies_metric (metricsStats d) zScoreThreshold)
                metrics ([], ∅) in
    ({| metricsStats := metricsStats d;
        initialised := initialised d;
        zScores := Map zs |},
     (anomalies, None)).

(** One turn of [for _, metric := range metrics] in [UpdateCurrentStats]. *)
Definition UpdateCurrentStats_metric (stats : GoMap MetricStats)
    (metric : TimeSeries) : result (GoMap MetricStats) :=
  let metricType := MetricType metric in
  let '(sum, count) :=
    fold_left (fun '(sum, count) point =>
                 let value := DoubleValue point in
                 (add sum value, add count one))
              (Points metric) (zero, zero) in
  if eqb count zero then Returns stats
  else
    let currentMean := div sum count in
    let sumOfSquares :=
      fold_left (fun sumOfSquares point =>
                   let value := DoubleValue point in
                   let deviation := sub value currentMean in
                   add sumOfSquares (mul deviation deviation))
                (Points metric) zero in
    let currentStdDev := Sqrt (div sumOfSquares count) in
    let stats0 := default zeroMetricStats (map_lookup stats metricType) in
    let stats1 :=
      {| mean := mean stats0; stddev := stddev stats0;
         currentMean := currentMean; currentStdDev := currentStdDev |} in
    map_store stats metricType stats1.

(** The loop of [UpdateCurrentStats]: a panic ends it. *)
Fixpoint UpdateCurrentStats_loop (stats : GoMap MetricStats)
    (metrics : list TimeSeries) : result (GoMap MetricStats) :=
  match metrics with
  | [] => Returns stats
  | metric :: metrics' =>
      match UpdateCurrentStats_metric stats metric with
      | Returns stats' => UpdateCurrentStats_loop stats' metrics'
      | Panics msg => Panics msg
      end
  end.

Definition UpdateCurrentStats (d : SimpleAnomalyDetector)
    (metrics : list TimeSeries) : result SimpleAnomalyDetector :=
  match UpdateCurrentStats_loop (metricsStats d) metrics with
  | Returns stats =>
      Returns {| metricsStats := stats;
                 initialised := initialised d;
                 zScores := zScores d |}
  | Panics msg => Panics msg
  end.

(** ** The statistics and the test, in the words of the specification *)

(** The sum of the values, added from left to right. *)
Definition float_sum (xs : list float64) : float64 := fold_left add xs zero.

(** The arithmetic mean: the sum over the number of values. *)
Definition arithmetic_mean (xs : list float64) : float64 :=
  div (float_sum xs) (of_Z (Z.of_nat (length xs))).

(** The population standard deviation [sqrt(mean((x_i - mean)^2))]: the
    divisor is the number of values. *)
Definition population_stddev (xs : list float64) : float64 :=
  let m := arithmetic_mean xs in
  Sqrt (arithmetic_mean (map (fun x => mul (sub x m) (sub x m)) xs)).

(** [zScore = (value - baselineMean) / baselineStdDev]. *)
Definition zScore (stats : MetricStats) (value : float64) : float64 :=
  div (sub value (mean stats)) (stddev stats).

(** [|zScore| > threshold]. *)
Definition exceeds (stats : MetricStats) (threshold value : float64) : bool :=
  gtb (Abs (zScore stats value)) threshold.

(** [exceeds], with the non-finite z-scores all counted as exceeding. *)
Definition exceeds_or_not_finite (stats : MetricStats) (threshold value : float64)
    : bool :=
  negb (is_finite (zScore stats value)) || exceeds stats threshold value.

(** The anomaly reported for a point of the metric [metricId]. *)
Definition anomaly_of (metricId : string) (stats : MetricStats)
    (point : Point) : Anomaly :=
  {| MetricName := metricId;
     Value := DoubleValue point;
     Timestamp := EndTime point;
     Message := ("Value deviates significantly from the mean (Z-score: "
                 +:+ Sprintf_2f (zScore stats (DoubleValue point)) +:+ ")")%string |}.

(** The anomalies of a batch: for each metric with an entry, in order, the
    points whose z-score exceeds the threshold. *)
Definition anomalies_of (stats : GoMap MetricStats)
    (metrics : list TimeSeries) (threshold : float64) : list Anomaly :=
  flat_map (fun metric =>
              match map_lookup stats (MetricType metric) with
              | None => []
              | Some st =>
                  map (anomaly_of (MetricType metric) st)
                      (List.filter (fun point => exceeds st threshold (DoubleValue point))
                                   (Points metric))
              end) metrics.

(** The z-score report of a batch: every z-score computed, under the key
    ["<metricId> at <timestamp>"], a later point replacing an earlier one
    with the same key. *)
Definition zScores_point (k : string) (st : MetricStats)
    (zs : gmap string float64) (point : Point) : gmap string float64 :=
  <[(k +:+ " at " +:+ Time_String (EndTime point))%string
    := zScore st (DoubleValue point)]> zs.

Definition zScores_metric (stats : GoMap MetricStats)
    (zs : gmap string float64) (metric : TimeSeries) : gmap string float64 :=
  match map_lookup stats (MetricType metric) with
  | None => zs
  | Some st => fold_left (zScores_point (MetricType metric) st) (Points metric) zs
  end.

Definition zScores_of (stats : GoMap MetricStats)
    (metrics : list TimeSeries) : gmap string float64 :=
  fold_left (zScores_metric stats) metrics ∅.

(** The values of a window. *)
Definition values (points : list Point) : list float64 := map DoubleValue points.

(** Every window of the batch satisfies [Q]. *)
Definition windows_satisfy (Q : list Point -> Prop) (metrics : list TimeSeries) : Prop :=
  Forall (fun metric => Q (Points metric)) metrics.

(** Every sample of the window is a number (no NaN, no infinity). *)
Definition finite_window (w : list Point) : Prop :=
  Forall (fun point => is_finite (DoubleValue point) = true) w.

(** Every sample of the batch is a number. *)
Definition finite_samples (metrics : list TimeSeries) : Prop :=
  windows_satisfy finite_window metrics.

(** The metric [k] has no sample in the batch. *)
Definition no_samples (k : string) (metrics : list TimeSeries) : Prop :=
  Forall (fun metric => MetricType metric = k -> Points metric = []) metrics.

(** ** Sequences of calls *)

Inductive call : Type :=
  | CallGetBaseline (metrics : list TimeSeries)
  | CallUpdateCurrentStats (metrics : list TimeSeries)
  | CallDetectAnomalies (metrics : list TimeSeries) (zScoreThreshold : float64).

Definition call_metrics (c : call) : list TimeSeries :=
  match c with
  | CallGetBaseline metrics
  | CallUpdateCurrentStats metrics
  | CallDetectAnomalies metrics _ => metrics
  end.

Definition run_call (d : SimpleAnomalyDetector) (c : call)
    : result SimpleAnomalyDetector :=
  match c with
  | CallGetBaseline metrics => Returns (GetBaseline d metrics)
  | CallUpdateCurrentStats metrics => UpdateCurrentStats d metrics
  | CallDetectAnomalies metrics threshold =>
      Returns (fst (DetectAnomalies d metrics threshold))
  end.

Fixpoint run_calls (d : SimpleAnomalyDetector) (cs : list call)
    : result SimpleAnomalyDetector :=
  match cs with
  | [] => Returns d
  | c :: cs' =>
      match run_call d c with
      | Returns d' => run_calls d' cs'
      | Panics msg => Panics msg
      end
  end.

(** ** Helpers for the proofs *)

(** The series is of type [k] and has points. *)
Definition has_window (k : string) (metric : TimeSeries) : bool :=
  bool_decide (MetricType metric = k)
  && match Points metric with [] => false | _ :: _ => true end.

(** The points of the last such series of the batch: the window that
    decides the entry of [k]. *)
Definition last_window (k : string) (metrics : list TimeSeries)
    : option (list Point) :=
  Points <$> last (List.filter (has_window k) metrics).

(** The counter of the loops after [n] points: a float64, so it stops
    at [2^53]. *)
Definition counted (n : nat) : float64 := of_Z (Z.min (Z.of_nat n) (2 ^ 53)).

(** Mean and standard deviation as the loops compute them. *)
Definition window_mean (points : list Point) : float64 :=
  div (float_sum (values points)) (counted (length points)).

Definition window_stddev (points : list Point) : float64 :=
  let m := window_mean points in
  Sqrt (div (float_sum (map (fun x => mul (sub x m) (sub x m)) (values points)))
            (counted (length points))).

(** The entry [GetBaseline] stores for a window, and the one
    [UpdateCurrentStats] stores over the entry [old]. *)
Definition baseline_entry (w : list Point) : MetricStats :=
  {| mean := window_mean w; stddev := window_stddev w;
     currentMean := zero; currentStdDev := zero |}.

Definition current_entry (old : option MetricStats) (w : list Point) : MetricStats :=
  {| mean := mean (default zeroMetricStats old);
     stddev := stddev (default zeroMetricStats old);
     currentMean := window_mean w; currentStdDev := window_stddev w |}.

(** Every entry of the mapping satisfies [R]. *)
Definition entries_satisfy (R : MetricStats -> Prop) (d : SimpleAnomalyDetector) : Prop :=
  forall k st, map_lookup (metricsStats d) k = Some st -> R st.

(** The mapping is allocated only once the flag is up. *)
Definition allocated_initialised (d : SimpleAnomalyDetector) : Prop :=
  metricsStats d = NilMap \/ initialised d = true.

(** The baseline mean is a float64, and it is not NaN when the baseline
    standard deviation is zero. *)
Definition mean_well_formed (st : MetricStats) : Prop :=
  valid (mean st) = true
  /\ (eqb (stddev st) zero = true -> is_nan (mean st) = false).

Definition is_GetBaseline (c : call) : bool :=
  match c with CallGetBaseline _ => true | _ => false end.

End Detector.

(** ** Sample data for the worked examples *)

(** A stand-in for the two formatting functions. *)
Definition sample_fmt : GoFmt :=
  {| Sprintf_2f := fun z =>
       match z with
       | S754_nan => "NaN"
       | S754_infinity false => "+Inf"
       | S754_infinity true => "-Inf"
       | _ => "finite"
       end%string;
     Time_String := fun t => pretty (seconds t) |}.

(** The series of type [k] whose points carry the integers [vs]. *)
Definition series (k : string) (vs : list Z) : TimeSeries :=
  {| MetricType := k;
     Points := map (fun v => {| DoubleValue := of_Z v;
                                EndTime := {| seconds := 0; nanos := 0 |} |}) vs |}.

(** A detector whose only entry is a baseline [mean], [stddev] for ["cpu"]. *)
Definition sample_detector (mean stddev : Z) : SimpleAnomalyDetector :=
  {| metricsStats :=
       Map {[ "cpu"%string := {| mean := of_Z mean; stddev := of_Z stddev;
                                 currentMean := zero; currentStdDev := zero |} ]};
     initialised := true;
     zScores := NilMap |}.

(** Three calls in a row, on batches of numbers. *)
Definition sample_calls : list call :=
  [CallGetBaseline [series "cpu" [10; 20; 30]];
   CallUpdateCurrentStats [series "cpu" [11; 12]; series "mem" [7]];
   CallDetectAnomalies [series "cpu" [50]] (of_Z 3)].

(** ** The driver: configuration, the metrics source, the polling cycle *)

(** [Config], with Go's [int] as a 64-bit integer. *)
Record Config : Type := {
  Metrics : list string;
  PollingTime : Z;
  ProjectID : string;
  BaselineDuration : Z;
  RecentDuration : Z;
  Filters : GoMap string;
  ZScoreThreshold : float64
}.

(** Arithmetic of [int64], which [time.Duration] is: it wraps around. *)
Definition wrap64 (z : Z) : Z := (z + 2 ^ 63) mod 2 ^ 64 - 2 ^ 63.
Definition neg64 (x : Z) : Z := wrap64 (- x).
Definition mul64 (x y : Z) : Z := wrap64 (x * y).

(** [time.Duration]: nanoseconds. *)
Definition Duration : Type := Z.
Definition Second : Duration := 1000000000.
Definition Minute : Duration := 60 * Second.
Definition Hour : Duration := 60 * Minute.

(** A [time.Time] that [time.Now] returns: the nanoseconds since the
    epoch.  [Add] is [Time.Add], [Unix] is [Time.Unix], the seconds since
    the epoch. *)
Definition Instant : Type := Z.
Definition Add (t : Instant) (d : Duration) : Instant := t + d.
Definition Unix (t : Instant) : Z := t / Second.

(** [monitoringpb.ListTimeSeriesRequest]: [Name], [Filter] and the seconds
    of [Interval.StartTime] and [Interval.EndTime]. *)
Record ListTimeSeriesRequest : Type := {
  Name : string;
  Filter : string;
  IntervalStart : Z;
  IntervalEnd : Z
}.

(** The metrics backend behind [client.ListTimeSeries]: for a request, the
    series the iterator yields and then [iterator.Done] ([None]) or an
    error. *)
Definition MetricClient : Type := ListTimeSeriesRequest -> list TimeSeries * error.

(** The double quote around the metric type in the filter, and the newline
    that ends a printed line. *)
Definition dquote : string := String (Ascii.ascii_of_nat 34) EmptyString.
Definition newline : string := String (Ascii.ascii_of_nat 10) EmptyString.

(** The loop of [fetchHistoricalMetrics] over the metric names.  Besides
    what the function returns, [sent] records the requests handed to the
    client, in order. *)
Fixpoint fetchHistoricalMetrics_loop (client : MetricClient) (projectID : string)
    (filters : GoMap string) (startTime endTime : Instant)
    (metrics : list string) (allTimeSeries : list TimeSeries)
    (sent : list ListTimeSeriesRequest)
    : (list TimeSeries * error) * list ListTimeSeriesRequest :=
  match metrics with
  | [] => ((allTimeSeries, None), sent)
  | metric :: metrics' =>
      let filterString := ("metric.type=" +:+ dquote +:+ metric +:+ dquote)%string in
      let filterString :=
        match map_lookup filters metric with
        | Some filter => (filterString +:+ " AND " +:+ filter)%string
        | None => filterString
        end in
      let req := {| Name := ("projects/" +:+ projectID)%string;
                    Filter := filterString;
                    IntervalStart := Unix startTime;
                    IntervalEnd := Unix endTime |} in
      match client req with
      | (_, Some err) =>
          (([], Some ("could not list time series: " +:+ err)%string), sent ++ [req])
      | (series, None) =>
          fetchHistoricalMetrics_loop client projectID filters startTime endTime
            metrics' (allTimeSeries ++ series) (sent ++ [req])
      end
  end.

Definition fetchHistoricalMetrics (client : MetricClient) (now : Instant)
    (projectID : string) (metrics : list string) (baselineDuration : Z)
    (filters : GoMap string)
    : (list TimeSeries * error) * list ListTimeSeriesRequest :=
  let endTime := now in
  let startTime := Add endTime (mul64 (mul64 (neg64 baselineDuration) 24) Hour) in
  fetchHistoricalMetrics_loop client projectID filters startTime endTime metrics [] [].

(** The loop of [fetchRecentMetrics]. *)
Fixpoint fetchRecentMetrics_loop (client : MetricClient) (projectID : string)
    (filters : GoMap string) (startTime endTime : Instant)
    (metrics : list string) (allTimeSeries : list TimeSeries)
    (sent : list ListTimeSeriesRequest)
    : (list TimeSeries * error) * list ListTimeSeriesRequest :=
  match metrics with
  | [] => ((allTimeSeries, None), sent)
  | metric :: metrics' =>
      let filterString := ("metric.type=" +:+ dquote +:+ metric +:+ dquote)%string in
      let filterString :=
        match map_lookup filters metric with
        | Some filter => (filterString +:+ " AND " +:+ filter)%string
        | None => filterString
        end in
      let req := {| Name := ("projects/" +:+ projectID)%string;
                    Filter := filterString;
                    IntervalStart := Unix startTime;
                    IntervalEnd := Unix endTime |} in
      match client req with
      | (_, Some err) =>
          (([], Some ("could not list time series: " +:+ err)%string), sent ++ [req])
      | (series, None) =>
          fetchRecentMetrics_loop client projectID filters startTime endTime
            metrics' (allTimeSeries ++ series) (sent ++ [req])
      end
  end.

Definition fetchRecentMetrics (client : MetricClient) (now : Instant)
    (projectID : string) (metrics : list string) (recentDuration : Z)
    (filters : GoMap string)
    : (list TimeSeries * error) * list ListTimeSeriesRequest :=
  let endTime := now in
  let startTime := Add endTime (mul64 (neg64 recentDuration) Minute) in
  fetchRecentMetrics_loop client projectID filters startTime endTime metrics [] [].

(** What one fetch meets: the clock and the backend at that moment. *)
Record World : Type := { now : Instant; backend : MetricClient }.

(** How far [main] got: [log.Fatalf] ended it, a panic did, or it is
    polling, with the detector and the lines printed so far. *)
Inductive outcome : Type :=
  | Fatal (msg : string)
  | Panicked (msg : string)
  | Polling (detector : SimpleAnomalyDetector) (printed : list string).

Section Driver.

Context {fmt : GoFmt}.

(** The key of a point in the z-score report. *)
Definition report_key (metricType : string) (point : Point) : string :=
  (metricType +:+ " at " +:+ Time_String (EndTime point))%string.

(** The report entry [key], [z] is the z-score of a point of the batch
    whose metric has an entry, under the key of that point. *)
Definition scored (stats : GoMap MetricStats) (ms : list TimeSeries)
    (key : string) (z : float64) : Prop :=
  exists series st point,
    series ∈ ms /\ map_lookup stats (MetricType series) = Some st
    /\ point ∈ Points series
    /\ key = report_key (MetricType series) point
    /\ z = zScore st (DoubleValue point).

(** The line [processMetrics] prints for an anomaly. *)
Definition anomaly_line (anomaly : Anomaly) : string :=
  ("Anomaly detected: " +:+ MetricName anomaly +:+ " at "
   +:+ Time_String (Timestamp anomaly) +:+ " with value "
   +:+ Sprintf_2f (Value anomaly) +:+ " - " +:+ Message anomaly +:+ newline)%string.

(** [processMetrics]: the detector after the cycle and the lines printed
    (logging left out). *)
Definition processMetrics (w : World) (config : Config)
    (detector : SimpleAnomalyDetector)
    : result (SimpleAnomalyDetector * list string) :=
  let '(recentMetrics, err) :=
    fst (fetchRecentMetrics (backend w) (now w) (ProjectID config) (Metrics config)
           (RecentDuration config) (Filters config)) in
  match err with
  | Some _ => Returns (detector, [])
  | None =>
      match UpdateCurrentStats detector recentMetrics with
      | Panics msg => Panics msg
      | Returns detector =>
          let '(detector, (anomalies, err)) :=
            DetectAnomalies detector recentMetrics (ZScoreThreshold config) in
          match err with
          | Some _ => Returns (detector, [])
          | None => Returns (detector, map anomaly_line anomalies)
          end
      end
  end.

(** The loop [for range ticker.C] of [main], over the ticks given. *)
Fixpoint main_loop (ticks : list World) (config : Config)
    (detector : SimpleAnomalyDetector) (printed : list string) : outcome :=
  match ticks with
  | [] => Polling detector printed
  | w :: ticks' =>
      match processMetrics w config detector with
      | Panics msg => Panicked msg
      | Returns (detector, lines) => main_loop ticks' config detector (printed ++ lines)
      end
  end.

(** [main]: [load] is what [LoadConfig] returns, [newClient] the error of
    [monitoring.NewMetricClient], [startup] the world of the historical
    fetch, [first] that of the first cycle and [ticks] those of the ticks
    that follow.  [time.NewTicker] panics on an interval that is not
    positive. *)
Definition main (load : Config + string) (newClient : error)
    (startup first : World) (ticks : list World) : outcome :=
  match load with
  | inr err => Fatal ("Failed to load configuration: " +:+ err)
  | inl config =>
      let baselineDuration :=
        if BaselineDuration config =? 0 then 7 else BaselineDuration config in
      match newClient with
      | Some err => Fatal ("Failed to create client: " +:+ err)
      | None =>
          let '(historicalMetrics, err) :=
            fst (fetchHistoricalMetrics (backend startup) (now startup)
                   (ProjectID config) (Metrics config) baselineDuration
                   (Filters config)) in
          match err with
          | Some err => Fatal ("Failed to fetch historical metrics: " +:+ err)
          | None =>
              let detector := GetBaseline newDetector historicalMetrics in
              match processMetrics first config detector with
              | Panics msg => Panicked msg
              | Returns (detector, lines) =>
                  let pollingInterval := mul64 (PollingTime config) Second in
                  if pollingInterval <=? 0
                  then Panicked "non-positive interval for NewTicker"
                  else main_loop ticks config detector lines
              end
          end
      end
  end.

End Driver.

(** ** Helpers for the properties of the driver *)

(** The request for one metric over the window from [startTime] to
    [endTime]. *)
Definition window_request (projectID : string) (filters : GoMap string)
    (startTime endTime : Instant) (metric : string) : ListTimeSeriesRequest :=
  {| Name := ("projects/" +:+ projectID)%string;
     Filter := match map_lookup filters metric with
               | Some filter =>
                   (("metric.type=" +:+ dquote +:+ metric +:+ dquote)
                    +:+ " AND " +:+ filter)%string
               | None => ("metric.type=" +:+ dquote +:+ metric +:+ dquote)%string
               end;
     IntervalStart := Unix startTime;
     IntervalEnd := Unix endTime |}.

(** The start of the historical and of the recent window. *)
Definition historical_start (now : Instant) (baselineDuration : Z) : Instant :=
  Add now (mul64 (mul64 (neg64 baselineDuration) 24) Hour).

Definition recent_start (now : Instant) (recentDuration : Z) : Instant :=
  Add now (mul64 (neg64 recentDuration) Minute).

(** The listing of the metric succeeds. *)
Definition lists (client : MetricClient) (req : string -> ListTimeSeriesRequest)
    (metric : string) : Prop :=
  snd (client (req metric)) = None.

(** Some series of the batch has points. *)
Definition has_points (metrics : list TimeSeries) : Prop :=
  Exists (fun metric => Points metric <> []) metrics.

(** No series of the batch has points. *)
Definition no_points (metrics : list TimeSeries) : Prop :=
  Forall (fun metric => Points metric = []) metrics.

(** All the samples of the metric type [k] in the batch, whatever the
    series they came in. *)
Definition metric_samples (k : string) (metrics : list TimeSeries) : list Point :=
  flat_map (fun metric =>
              if bool_decide (MetricType metric = k) then Points metric else [])
           metrics.

(** The recent fetch of the cycle. *)
Definition recent_fetch (w : World) (config : Config) : list TimeSeries * error :=
  fst (fetchRecentMetrics (backend w) (now w) (ProjectID config) (Metrics config)
         (RecentDuration config) (Filters config)).

(** The baseline duration [main] uses. *)
Definition effective_baseline (config : Config) : Z :=
  if BaselineDuration config =? 0 then 7 else BaselineDuration config.

(** The historical fetch of [main]. *)
Definition historical_fetch (w : World) (config : Config) : list TimeSeries * error :=
  fst (fetchHistoricalMetrics (backend w) (now w) (ProjectID config) (Metrics config)
         (effective_baseline config) (Filters config)).

(** ** Sample data for the driver *)

(** A backend with one series of three points per metric, except for the
    metric ["down"], whose listing fails. *)
Definition sample_backend : MetricClient :=
  fun req =>
    if bool_decide (Filter req = ("metric.type=" +:+ dquote +:+ "down" +:+ dquote)%string)
    then ([], Some "unavailable"%string)
    else if bool_decide (Filter req = ("metric.type=" +:+ dquote +:+ "cpu" +:+ dquote)%string)
    then ([series "cpu" [10; 20; 30]], None)
    else ([series "mem" [7; 7; 8]], None).

Definition sample_world : World :=
  {| now := 1700000000500000000; backend := sample_backend |}.

Definition sample_config : Config :=
  {| Metrics := ["cpu"; "mem"]%string;
     PollingTime := 60;
     ProjectID := "demo";
     BaselineDuration := 0;
     RecentDuration := 60;
     Filters := NilMap;
     ZScoreThreshold := of_Z 3 |}.

(** The same configuration without a polling time. *)
Definition sample_config_no_polling : Config :=
  {| Metrics := ["cpu"; "mem"]%string;
     PollingTime := 0;
     ProjectID := "demo";
     BaselineDuration := 0;
     RecentDuration := 60;
     Filters := NilMap;
     ZScoreThreshold := of_Z 3 |}.

(** The same configuration with a polling time so far below zero that
    its product with [Second] leaves the range of [int64]. *)
Definition sample_config_wrapping : Config :=
  {| Metrics := ["cpu"; "mem"]%string;
     PollingTime := -9223372037;
     ProjectID := "demo";
     BaselineDuration := 0;
     RecentDuration := 60;
     Filters := NilMap;
     ZScoreThreshold := of_Z 3 |}.

(** A world in which the backend is down. *)
Definition sample_world_down : World :=
  {| now := 1700000060000000000;
     backend := fun _ => ([], Some "unavailable"%string) |}.

(** * Facts about float64

    The sign and the exactness facts that the properties of the detector
    rest on, proved from the definitions of rounding. *)

Module F64Facts.

Lemma digits2_bounds (p : positive) :
  2 ^ (Z.pos (digits2_pos p) - 1) <= Z.pos p < 2 ^ Z.pos (digits2_pos p).
Proof.
  induction p as [p IH|p IH|]; cbn [digits2_pos]; [| |cbn; lia].
  all: rewrite Pos2Z.inj_succ;
    replace (Z.succ (Z.pos (digits2_pos p)) - 1)
      with (Z.succ (Z.pos (digits2_pos p) - 1)) by lia;
    rewrite !Z.pow_succ_r by lia; lia.
Qed.

Lemma iter_pos_nat {A : Type} (f : A -> A) (n : positive) (x : A) :
  SpecFloat.iter_pos f n x = Nat.iter (Pos.to_nat n) f x.
Proof.
  revert x; induction n as [n IH|n IH|]; intros x; cbn [SpecFloat.iter_pos].
  - rewrite !IH, Pos2Nat.inj_xI.
    replace (S (2 * Pos.to_nat n)) with (Pos.to_nat n + (Pos.to_nat n + 1))%nat by lia.
    rewrite !Nat.iter_add. reflexivity.
  - rewrite !IH, Pos2Nat.inj_xO.
    replace (2 * Pos.to_nat n)%nat with (Pos.to_nat n + Pos.to_nat n)%nat by lia.
    rewrite Nat.iter_add. reflexivity.
  - reflexivity.
Qed.

Lemma shr_1_m (r : shr_record) : 0 <= shr_m r -> shr_m (shr_1 r) = shr_m r / 2.
Proof.
  destruct r as [m r s]; cbn [shr_m]; intros Hm.
  rewrite <- Z.div2_div.
  destruct m as [|[p|p|]|p]; try reflexivity; lia.
Qed.

Lemma shr_nat_m (k : nat) (r : shr_record) :
  0 <= shr_m r -> shr_m (Nat.iter k shr_1 r) = shr_m r / 2 ^ Z.of_nat k.
Proof.
  intros Hm; induction k as [|k IH].
  - cbn. now rewrite Z.div_1_r.
  - change (Nat.iter (S k) shr_1 r) with (shr_1 (Nat.iter k shr_1 r)).
    rewrite shr_1_m; rewrite IH.
    + rewrite Nat2Z.inj_succ, Z.pow_succ_r by lia.
      rewrite Z.div_div by lia. f_equal; lia.
    + apply Z.div_pos; lia.
Qed.

Lemma shr_m_shr (r : shr_record) (e n : Z) :
  0 <= shr_m r -> shr_m (fst (shr r e n)) = shr_m r / 2 ^ Z.max 0 n.
Proof.
  intros Hm; destruct n as [|p|p]; cbn [shr fst].
  - cbn. now rewrite Z.div_1_r.
  - rewrite iter_pos_nat, shr_nat_m by exact Hm.
    rewrite positive_nat_Z. f_equal; f_equal; lia.
  - cbn. now rewrite Z.div_1_r.
Qed.

Lemma shr_m_of_loc (m : Z) (l : location) : shr_m (shr_record_of_loc m l) = m.
Proof. destruct l as [|[]]; reflexivity. Qed.

Lemma shr_m_shr_fexp (m e : Z) (l : location) :
  0 <= m ->
  shr_m (fst (shr_fexp prec emax m e l))
  = m / 2 ^ Z.max 0 (fexp prec emax (Zdigits2 m + e) - e).
Proof.
  intros Hm. unfold shr_fexp.
  rewrite shr_m_shr; rewrite shr_m_of_loc; [reflexivity|exact Hm].
Qed.

Lemma shr_e_shr_fexp (m e : Z) (l : location) :
  snd (shr_fexp prec emax m e l) = e + Z.max 0 (fexp prec emax (Zdigits2 m + e) - e).
Proof.
  unfold shr_fexp, shr.
  destruct (fexp prec emax (Zdigits2 m + e) - e); cbn [snd]; lia.
Qed.

Lemma round_nearest_even_bounds (m : Z) (l : location) :
  m <= round_nearest_even m l <= m + 1.
Proof.
  unfold round_nearest_even.
  destruct l as [|[]]; try destruct (Z.even m); lia.
Qed.

Lemma binary_round_aux_signed (s : bool) (m e : Z) (l : location) :
  0 <= m -> signed s (binary_round_aux prec emax s m e l) = true.
Proof.
  intros Hm. unfold binary_round_aux.
  destruct (shr_fexp prec emax m e l) as [r1 e1] eqn:E1.
  assert (H1 : 0 <= shr_m r1).
  { change r1 with (fst (r1, e1)). rewrite <- E1, shr_m_shr_fexp by exact Hm.
    apply Z.div_pos; lia. }
  pose proof (round_nearest_even_bounds (shr_m r1) (loc_of_shr_record r1)) as Hr.
  destruct (shr_fexp prec emax _ e1 loc_Exact) as [r2 e2] eqn:E2.
  assert (H2 : 0 <= shr_m r2).
  { change r2 with (fst (r2, e2)). rewrite <- E2, shr_m_shr_fexp by lia.
    apply Z.div_pos; lia. }
  destruct (shr_m r2) as [|p|p]; [| |lia]; cbn.
  - apply eqb_reflx.
  - destruct (e2 <=? emax - prec); cbn; apply eqb_reflx.
Qed.

(** Shifting a positive mantissa right within the format never loses all
    of it: above the smallest exponent there is no underflow to zero. *)
Lemma shr_fexp_pos (m e : Z) (l : location) :
  0 < m -> SpecFloat.emin prec emax <= e ->
  0 < shr_m (fst (shr_fexp prec emax m e l))
  /\ SpecFloat.emin prec emax <= snd (shr_fexp prec emax m e l).
Proof.
  intros Hm He. rewrite shr_m_shr_fexp, shr_e_shr_fexp by lia.
  destruct m as [|p|p]; try lia. cbn [Zdigits2].
  pose proof (digits2_bounds p) as [Hlo _].
  set (d := Z.pos (digits2_pos p)) in *.
  assert (Hd : 1 <= d) by (unfold d; lia).
  set (n := Z.max 0 (fexp prec emax (d + e) - e)).
  assert (Hn : 0 <= n <= d - 1).
  { unfold n, fexp, SpecFloat.emin, prec, emax in *. lia. }
  split; [|lia].
  apply Z.div_str_pos. split; [apply Z.pow_pos_nonneg; lia|].
  transitivity (2 ^ (d - 1)); [apply Z.pow_le_mono_r; lia|exact Hlo].
Qed.

Lemma binary_round_aux_nonzero (s : bool) (m e : Z) (l : location) :
  0 < m -> SpecFloat.emin prec emax <= e ->
  nonzero (binary_round_aux prec emax s m e l) = true.
Proof.
  intros Hm He. unfold binary_round_aux.
  pose proof (shr_fexp_pos m e l Hm He) as [H1 H1e].
  destruct (shr_fexp prec emax m e l) as [r1 e1]; cbn [fst snd] in *.
  pose proof (round_nearest_even_bounds (shr_m r1) (loc_of_shr_record r1)) as Hr.
  pose proof (shr_fexp_pos (round_nearest_even (shr_m r1) (loc_of_shr_record r1))
                e1 loc_Exact ltac:(lia) H1e) as [H2 _].
  destruct (shr_fexp prec emax _ e1 loc_Exact) as [r2 e2]; cbn [fst snd] in *.
  destruct (shr_m r2) as [|p|p]; try lia.
  destruct (e2 <=? emax - prec); reflexivity.
Qed.

Lemma shl_align_fst (m : positive) (e e' : Z) :
  Z.pos (fst (shl_align m e e')) = Z.pos m * 2 ^ Z.max 0 (e - e')
  /\ snd (shl_align m e e') = Z.min e e'.
Proof.
  unfold shl_align. destruct (e' - e) as [|p|p] eqn:E; cbn [fst snd].
  - replace (Z.max 0 (e - e')) with 0 by lia. cbn. lia.
  - replace (Z.max 0 (e - e')) with 0 by lia. cbn. lia.
  - replace (Z.max 0 (e - e')) with (Z.pos p) by lia.
    split; [|lia].
    rewrite Pos2Nat.inj_iter.
    rewrite <- (positive_nat_Z p).
    induction (Pos.to_nat p) as [|k IH]; cbn [nat_rect].
    + cbn. lia.
    + rewrite Nat2Z.inj_succ, Z.pow_succ_r by lia.
      rewrite Pos2Z.inj_xO, IH. ring.
Qed.

Lemma binary_round_signed (s : bool) (m : positive) (e : Z) :
  signed s (binary_round prec emax s m e) = true.
Proof.
  unfold binary_round. destruct (shl_align m e _) as [mz ez].
  apply binary_round_aux_signed; lia.
Qed.

Lemma binary_round_nonzero (s : bool) (m : positive) (e : Z) :
  SpecFloat.emin prec emax <= e ->
  nonzero (binary_round prec emax s m e) = true.
Proof.
  intros He. unfold binary_round.
  pose proof (shl_align_fst m e (fexp prec emax (Z.pos (digits2_pos m) + e))) as [_ H].
  destruct (shl_align m e _) as [mz ez]; cbn [snd] in H.
  apply binary_round_aux_nonzero; [lia|].
  subst ez. unfold fexp, SpecFloat.emin, prec, emax in *. lia.
Qed.

Lemma digits2_unique (p : positive) (d : Z) :
  2 ^ (d - 1) <= Z.pos p < 2 ^ d -> Z.pos (digits2_pos p) = d.
Proof.
  intros [Hlo Hhi]. pose proof (digits2_bounds p) as [Hlo' Hhi'].
  set (d' := Z.pos (digits2_pos p)) in *.
  assert (Hd' : 1 <= d') by (unfold d'; lia).
  assert (Hd : 1 <= d).
  { destruct (Z_lt_le_dec d 1) as [Hlt|]; [|assumption].
    assert (2 ^ d <= 2 ^ 0) by (destruct (Z_lt_le_dec d 0);
      [rewrite Z.pow_neg_r by lia; cbn; lia | apply Z.pow_le_mono_r; lia]).
    cbn in *; lia. }
  destruct (Z.lt_trichotomy d' d) as [Hlt|[Heq|Hgt]]; [|exact Heq|].
  - assert (2 ^ d' <= 2 ^ (d - 1)) by (apply Z.pow_le_mono_r; lia). lia.
  - assert (2 ^ d <= 2 ^ (d' - 1)) by (apply Z.pow_le_mono_r; lia). lia.
Qed.

Lemma digits2_shift (p q : positive) (k : Z) :
  0 <= k -> Z.pos q = Z.pos p * 2 ^ k ->
  Z.pos (digits2_pos q) = Z.pos (digits2_pos p) + k.
Proof.
  intros Hk Hq. apply digits2_unique. rewrite Hq.
  pose proof (digits2_bounds p) as [Hlo Hhi].
  replace (Z.pos (digits2_pos p) + k - 1) with (Z.pos (digits2_pos p) - 1 + k) by lia.
  rewrite !Z.pow_add_r by lia.
  assert (0 < 2 ^ k) by (apply Z.pow_pos_nonneg; lia).
  split; nia.
Qed.

(** A mantissa already in canonical position is left as it is. *)
Lemma binary_round_aux_exact (s : bool) (m : positive) (e : Z) :
  bounded prec emax m e = true ->
  binary_round_aux prec emax s (Z.pos m) e loc_Exact = S754_finite s m e.
Proof.
  unfold bounded, canonical_mantissa. intros [Hc He]%andb_true_iff.
  apply Z.eqb_eq in Hc.
  assert (Hs : shr_fexp prec emax (Z.pos m) e loc_Exact
               = ({| shr_m := Z.pos m; shr_r := false; shr_s := false |}, e)).
  { unfold shr_fexp. cbn [Zdigits2]. rewrite Hc, Z.sub_diag. reflexivity. }
  unfold binary_round_aux. rewrite Hs. cbn [shr_m loc_of_shr_record round_nearest_even].
  rewrite Hs. cbn [shr_m]. now rewrite He.
Qed.

(** Rounding is exact when the canonical mantissa is the given one shifted
    left ... *)
Lemma binary_round_shl (s : bool) (m m' : positive) (e k : Z) :
  0 <= k -> Z.pos m' = Z.pos m * 2 ^ k ->
  bounded prec emax m' (e - k) = true ->
  binary_round prec emax s m e = S754_finite s m' (e - k).
Proof.
  intros Hk Hm Hb.
  pose proof Hb as [Hc _]%andb_true_iff. unfold canonical_mantissa in Hc.
  apply Z.eqb_eq in Hc.
  rewrite (digits2_shift m m' k Hk Hm) in Hc.
  replace (Z.pos (digits2_pos m) + k + (e - k)) with (Z.pos (digits2_pos m) + e) in Hc by lia.
  unfold binary_round. rewrite Hc.
  pose proof (shl_align_fst m e (e - k)) as [H1 H2].
  destruct (shl_align m e (e - k)) as [mz ez]; cbn [fst snd] in *.
  replace (Z.max 0 (e - (e - k))) with k in H1 by lia.
  assert (mz = m') by lia. subst mz.
  replace ez with (e - k) by lia.
  now apply binary_round_aux_exact.
Qed.

Lemma shr_1_exact (j : nat) (p : positive) :
  Nat.iter j shr_1 {| shr_m := Z.pos (Nat.iter j xO p); shr_r := false; shr_s := false |}
  = {| shr_m := Z.pos p; shr_r := false; shr_s := false |}.
Proof.
  induction j as [|j IH]; [reflexivity|].
  rewrite Nat.iter_succ_r.
  change (Nat.iter (S j) xO p) with (xO (Nat.iter j xO p)).
  cbn [shr_1 orb]. exact IH.
Qed.

Lemma iter_xO_eq (j : nat) (p q : positive) :
  Z.pos q = Z.pos p * 2 ^ Z.of_nat j -> q = Nat.iter j xO p.
Proof.
  intros H. apply Pos2Z.inj. rewrite H. clear H.
  induction j as [|j IH]; [cbn; lia|].
  change (Nat.iter (S j) xO p) with (xO (Nat.iter j xO p)).
  rewrite (Pos2Z.inj_xO (Nat.iter j xO p)), <- IH, Nat2Z.inj_succ, Z.pow_succ_r by lia. ring.
Qed.

(** ... or shifted right, when the bits shifted out are all zero. *)
Lemma binary_round_shr (s : bool) (m m' : positive) (e' k : Z) :
  0 <= k -> Z.pos m = Z.pos m' * 2 ^ k ->
  bounded prec emax m' e' = true ->
  binary_round prec emax s m (e' - k) = S754_finite s m' e'.
Proof.
  intros Hk Hm Hb.
  pose proof Hb as [Hc Hle]%andb_true_iff. unfold canonical_mantissa in Hc.
  apply Z.eqb_eq in Hc.
  pose proof (digits2_shift m' m k Hk Hm) as Hd.
  unfold binary_round.
  replace (Z.pos (digits2_pos m) + (e' - k)) with (Z.pos (digits2_pos m') + e') by lia.
  rewrite Hc.
  pose proof (shl_align_fst m (e' - k) e') as [H1 H2].
  destruct (shl_align m (e' - k) e') as [mz ez]; cbn [fst snd] in *.
  replace (Z.max 0 (e' - k - e')) with 0 in H1 by lia.
  assert (mz = m) by (cbn in H1; lia). subst mz.
  replace ez with (e' - k) by lia.
  destruct (Z.eq_dec k 0) as [->|Hk0].
  { assert (m = m') by (cbn in Hm; lia). subst m.
    rewrite Z.sub_0_r. now apply binary_round_aux_exact. }
  assert (Hs : shr_fexp prec emax (Z.pos m) (e' - k) loc_Exact
               = ({| shr_m := Z.pos m'; shr_r := false; shr_s := false |}, e')).
  { unfold shr_fexp. cbn [Zdigits2 shr_record_of_loc].
    replace (Z.pos (digits2_pos m) + (e' - k)) with (Z.pos (digits2_pos m') + e') by lia.
    rewrite Hc. replace (e' - (e' - k)) with k by lia.
    destruct k as [|kp|kp]; try lia. cbn [shr].
    rewrite iter_pos_nat. f_equal; [|lia].
    rewrite <- (positive_nat_Z kp) in Hm.
    rewrite (iter_xO_eq _ _ _ Hm). apply shr_1_exact. }
  unfold binary_round_aux. rewrite Hs.
  cbn [shr_m loc_of_shr_record round_nearest_even].
  assert (Hs2 : shr_fexp prec emax (Z.pos m') e' loc_Exact
               = ({| shr_m := Z.pos m'; shr_r := false; shr_s := false |}, e')).
  { unfold shr_fexp. cbn [Zdigits2]. rewrite Hc, Z.sub_diag. reflexivity. }
  rewrite Hs2. cbn [shr_m].
  now rewrite Hle.
Qed.

(** The integers below [2^53] are floats: [of_Z] is exact on them. *)
Lemma of_Z_small (n : Z) :
  1 <= n < 2 ^ 53 ->
  exists (m : positive) (e : Z),
    of_Z n = S754_finite false m e /\ bounded prec emax m e = true
    /\ -52 <= e <= 0 /\ Z.pos m * 2 ^ (e + 52) = n * 2 ^ 52.
Proof.
  intros Hn. destruct n as [|p|p]; try lia.
  pose proof (digits2_bounds p) as [Hlo Hhi].
  set (d := Z.pos (digits2_pos p)) in *.
  assert (Hd : 1 <= d <= 53).
  { split; [unfold d; lia|].
    destruct (Z_lt_le_dec 53 d) as [Hlt|]; [|assumption].
    assert (2 ^ 53 <= 2 ^ (d - 1)) by (apply Z.pow_le_mono_r; lia). lia. }
  set (k := 53 - d).
  assert (Hpos : 0 < Z.pos p * 2 ^ k) by (apply Z.mul_pos_pos; [lia|apply Z.pow_pos_nonneg; lia]).
  exists (Z.to_pos (Z.pos p * 2 ^ k)), (0 - k).
  assert (Hm : Z.pos (Z.to_pos (Z.pos p * 2 ^ k)) = Z.pos p * 2 ^ k) by (apply Z2Pos.id; exact Hpos).
  assert (Hb : bounded prec emax (Z.to_pos (Z.pos p * 2 ^ k)) (0 - k) = true).
  { unfold bounded, canonical_mantissa.
    rewrite (digits2_shift p _ k ltac:(lia) Hm). fold d.
    apply andb_true_iff; split; [apply Z.eqb_eq|apply Z.leb_le];
      unfold fexp, SpecFloat.emin, prec, emax, k; lia. }
  split; [|split; [exact Hb|split; [unfold k; lia|]]].
  - unfold of_Z. cbn [binary_normalize].
    apply binary_round_shl; [unfold k; lia|exact Hm|exact Hb].
  - rewrite Hm, <- Z.mul_assoc, <- Z.pow_add_r by (unfold k; lia).
    do 2 f_equal. unfold k; lia.
Qed.

Lemma add_one_small (n : Z) :
  1 <= n -> n + 1 < 2 ^ 53 -> add (of_Z n) one = of_Z (n + 1).
Proof.
  intros Hn Hn1.
  destruct (of_Z_small n ltac:(lia)) as (m & e & HN & Hb & He & Hm).
  destruct (of_Z_small (n + 1) ltac:(lia)) as (m' & e' & HN' & Hb' & He' & Hm').
  rewrite HN, HN'.
  change one with (S754_finite false 4503599627370496 (-52)).
  unfold add, SFadd. replace (Z.min e (-52)) with (-52) by lia.
  pose proof (shl_align_fst m e (-52)) as [Ha _].
  pose proof (shl_align_fst 4503599627370496 (-52) (-52)) as [Hb1 _].
  destruct (shl_align m e (-52)) as [a ?], (shl_align 4503599627370496 (-52) (-52)) as [b ?].
  cbn [fst cond_Zopp] in *.
  replace (Z.max 0 (e - -52)) with (e + 52) in Ha by lia.
  change (Z.pos a + Z.pos b) with (Z.pos (a + b)). cbn [binary_normalize].
  replace (-52) with (e' - (e' + 52)) at 1 by lia.
  apply binary_round_shr; [lia| |exact Hb'].
  rewrite Pos2Z.inj_add, Ha, Hb1, Hm, Hm'.
  change (2 ^ Z.max 0 (-52 - -52)) with 1.
  change (2 ^ 52) with 4503599627370496. lia.
Qed.

(** [count++] on a float64 counts exactly up to [2^53] and stays there. *)
Lemma add_one_sat (n : Z) :
  0 <= n <= 2 ^ 53 -> add (of_Z n) one = of_Z (Z.min (n + 1) (2 ^ 53)).
Proof.
  intros Hn.
  destruct (Z.eq_dec n 0) as [->|H0]; [reflexivity|].
  destruct (Z.eq_dec n (2 ^ 53)) as [->|H1]; [vm_compute; reflexivity|].
  destruct (Z.eq_dec n (2 ^ 53 - 1)) as [->|H2]; [vm_compute; reflexivity|].
  rewrite Z.min_l by lia. apply add_one_small; lia.
Qed.

Lemma signed_not_nan (s : bool) (x : float64) : signed s x = true -> is_nan x = false.
Proof. destruct x; cbn; congruence. Qed.

Lemma signed_nonneg (x : float64) : signed false x = true -> geb x zero = true.
Proof. destruct x as [[]|[]| |[] m e]; cbn; congruence. Qed.

Lemma binary_normalize_not_nan (z e : Z) (s : bool) :
  is_nan (binary_normalize prec emax z e s) = false.
Proof.
  destruct z; cbn [binary_normalize]; [reflexivity| |];
    eapply signed_not_nan, binary_round_signed.
Qed.

Lemma add_not_nan (x y : float64) :
  is_nan x = false -> is_finite y = true -> is_nan (add x y) = false.
Proof.
  destruct x as [[]|[]| |sx mx ex], y as [[]|[]| |sy my ey]; cbn; try congruence.
  all: intros _ _; apply binary_normalize_not_nan.
Qed.

Lemma sub_not_nan (x y : float64) :
  is_finite x = true -> is_nan y = false -> is_nan (sub x y) = false.
Proof.
  destruct x as [[]|[]| |sx mx ex], y as [[]|[]| |sy my ey]; cbn; try congruence.
  all: intros _ _; apply binary_normalize_not_nan.
Qed.

Lemma SFdiv_core_nonneg (m1 m2 : positive) (e1 e2 : Z) :
  0 <= fst (fst (SFdiv_core_binary prec emax (Z.pos m1) e1 (Z.pos m2) e2)).
Proof.
  unfold SFdiv_core_binary.
  set (s := _ - _ - _).
  set (m' := match s with 0 => Z.pos m1 | Z.pos _ => Z.shiftl (Z.pos m1) s | Z.neg _ => 0 end).
  assert (Hm' : 0 <= m').
  { unfold m'. destruct s; try lia. apply Z.shiftl_nonneg. lia. }
  pose proof (Z_div_mod m' (Z.pos m2) ltac:(lia)) as H.
  destruct (Z.div_eucl m' (Z.pos m2)) as [q r]. cbn [fst]. nia.
Qed.

Lemma SFsqrt_core_nonneg (m : positive) (e : Z) :
  0 <= fst (fst (SFsqrt_core_binary prec emax (Z.pos m) e)).
Proof.
  unfold SFsqrt_core_binary.
  set (s := e - _).
  set (m' := match s with 0 => Z.pos m | Z.pos _ => Z.shiftl (Z.pos m) s | Z.neg _ => 0 end).
  assert (Hm' : 0 <= m').
  { unfold m'. destruct s; try lia. apply Z.shiftl_nonneg. lia. }
  pose proof (Z.sqrtrem_spec m' Hm') as H.
  destruct (Z.sqrtrem m') as [q r]. cbn [fst]. lia.
Qed.

Lemma div_finite_signed (sx sy : bool) (mx my : positive) (ex ey : Z) :
  signed (xorb sx sy)
    (div (S754_finite sx mx ex) (S754_finite sy my ey)) = true.
Proof.
  unfold div, SFdiv. pose proof (SFdiv_core_nonneg mx my ex ey) as H.
  destruct (SFdiv_core_binary prec emax (Z.pos mx) ex (Z.pos my) ey) as [[mz ez] lz].
  cbn [fst] in H. now apply binary_round_aux_signed.
Qed.

(** Dividing by a positive number keeps a number a number ... *)
Lemma div_pos_not_nan (x : float64) (m : positive) (e : Z) :
  is_nan x = false -> is_nan (div x (S754_finite false m e)) = false.
Proof.
  destruct x as [s|s| |s mx ex]; cbn; try congruence.
  intros _. eapply signed_not_nan, div_finite_signed.
Qed.

(** ... and a non-negative one non-negative. *)
Lemma div_pos_nonneg (x : float64) (m : positive) (e : Z) :
  geb x zero = true -> geb (div x (S754_finite false m e)) zero = true.
Proof.
  destruct x as [[]|[]| |[] mx ex]; cbn; try congruence.
  intros _. apply signed_nonneg.
  exact (div_finite_signed false false mx m ex e).
Qed.

Lemma mul_self_nonneg (x : float64) :
  is_nan x = false -> geb (mul x x) zero = true.
Proof.
  destruct x as [[]|[]| |s m e]; cbn; try congruence.
  intros _. apply signed_nonneg. unfold mul, SFmul.
  replace (xorb s s) with false by (now destruct s).
  apply binary_round_aux_signed; lia.
Qed.

Lemma add_nonneg (x y : float64) :
  geb x zero = true -> geb y zero = true -> geb (add x y) zero = true.
Proof.
  destruct x as [[]|[]| |[] mx ex], y as [[]|[]| |[] my ey]; cbn; try congruence.
  intros _ _. apply signed_nonneg.
  unfold add, SFadd. cbn [cond_Zopp].
  change (Z.pos ?a + Z.pos ?b) with (Z.pos (a + b)). cbn [binary_normalize].
  apply binary_round_signed.
Qed.

Lemma Sqrt_nonneg (x : float64) : geb x zero = true -> geb (Sqrt x) zero = true.
Proof.
  destruct x as [[]|[]| |[] m e]; cbn; try congruence.
  intros _. apply signed_nonneg. unfold Sqrt, SFsqrt.
  pose proof (SFsqrt_core_nonneg m e) as H.
  destruct (SFsqrt_core_binary prec emax (Z.pos m) e) as [[mz ez] lz].
  cbn [fst] in H. now apply binary_round_aux_signed.
Qed.

Lemma nonneg_not_nan (x : float64) : geb x zero = true -> is_nan x = false.
Proof. destruct x; cbn; congruence. Qed.

Lemma eqb_finite_iff (sx sy : bool) (mx my : positive) (ex ey : Z) :
  eqb (S754_finite sx mx ex) (S754_finite sy my ey) = true
  <-> sx = sy /\ mx = my /\ ex = ey.
Proof.
  unfold eqb, SFeqb, SFcompare. fold (Pos.compare mx my).
  destruct sx, sy, (Z.compare_spec ex ey), (Pos.compare_spec mx my); cbn;
    split; try discriminate; try tauto; intros (? & ? & ?); subst; lia.
Qed.

Lemma valid_canonical (s : bool) (m : positive) (e : Z) :
  valid (S754_finite s m e) = true ->
  fexp prec emax (Z.pos (digits2_pos m) + e) = e.
Proof.
  unfold valid, valid_binary, bounded, canonical_mantissa.
  intros [H _]%andb_true_iff. now apply Z.eqb_eq.
Qed.

(** Two float64 numbers with the same value have the same mantissa and
    exponent. *)
Lemma canonical_inj (sx sy : bool) (mx my : positive) (ex ey : Z) :
  valid (S754_finite sx mx ex) = true -> valid (S754_finite sy my ey) = true ->
  Z.pos (fst (shl_align mx ex (Z.min ex ey)))
  = Z.pos (fst (shl_align my ey (Z.min ex ey))) ->
  mx = my /\ ex = ey.
Proof.
  intros Hx%valid_canonical Hy%valid_canonical Heq.
  pose proof (shl_align_fst mx ex (Z.min ex ey)) as [Ha _].
  pose proof (shl_align_fst my ey (Z.min ex ey)) as [Hb _].
  set (a := fst (shl_align mx ex (Z.min ex ey))) in *.
  set (b := fst (shl_align my ey (Z.min ex ey))) in *.
  pose proof (digits2_shift mx a _ (Z.le_max_l 0 _) Ha) as Hda.
  pose proof (digits2_shift my b _ (Z.le_max_l 0 _) Hb) as Hdb.
  assert (Hab : a = b) by lia. rewrite Hab in Hda.
  assert (Hd : Z.pos (digits2_pos mx) + ex = Z.pos (digits2_pos my) + ey) by lia.
  rewrite Hd in Hx. assert (He : ex = ey) by lia. subst ey.
  split; [|reflexivity].
  rewrite Z.min_id, Z.sub_diag, Z.max_id in Ha, Hb. cbn in Ha, Hb. lia.
Qed.

Lemma valid_emin (s : bool) (m : positive) (e : Z) :
  valid (S754_finite s m e) = true -> SpecFloat.emin prec emax <= e.
Proof.
  intros H%valid_canonical. unfold fexp in H. lia.
Qed.

Lemma binary_normalize_nonzero (z e : Z) (s : bool) :
  z <> 0 -> SpecFloat.emin prec emax <= e ->
  nonzero (binary_normalize prec emax z e s) = true.
Proof.
  intros Hz He. destruct z; [congruence| |]; cbn [binary_normalize];
    now apply binary_round_nonzero.
Qed.

(** Gradual underflow: the difference of two distinct float64 numbers is
    never zero. *)
Lemma sub_nonzero (x y : float64) :
  real x = true -> real y = true -> eqb x y = false ->
  nonzero (sub x y) = true.
Proof.
  unfold real.
  intros [Hfx Hvx]%andb_true_iff [Hfy Hvy]%andb_true_iff Hne.
  destruct x as [sx|sx| |sx mx ex], y as [sy|sy| |sy my ey];
    try discriminate; try reflexivity.
  unfold sub, SFsub. apply binary_normalize_nonzero.
  - intros Hz.
    assert (Hs : sx = sy).
    { destruct sx, sy; cbn [cond_Zopp] in Hz; try reflexivity; lia. }
    subst sy.
    assert (Heq : Z.pos (fst (shl_align mx ex (Z.min ex ey)))
                  = Z.pos (fst (shl_align my ey (Z.min ex ey)))).
    { destruct sx; cbn [cond_Zopp] in Hz; lia. }
    destruct (canonical_inj _ _ _ _ _ _ Hvx Hvy Heq) as [-> ->].
    assert (eqb (S754_finite sx my ey) (S754_finite sx my ey) = true)
      by (apply eqb_finite_iff; auto).
    congruence.
  - pose proof (valid_emin _ _ _ Hvx). pose proof (valid_emin _ _ _ Hvy). lia.
Qed.

Lemma eqb_zero (x : float64) : eqb x zero = true -> exists s, x = S754_zero s.
Proof. destruct x as [s|[]| |[] m e]; cbn; try discriminate. eauto. Qed.

(** A zero deviation over a zero standard deviation is NaN. *)
Lemma zscore_zero_stddev_eq (value mean stddev : float64) :
  eqb stddev zero = true -> eqb value mean = true ->
  div (sub value mean) stddev = S754_nan.
Proof.
  intros [s ->]%eqb_zero Heq.
  destruct value as [sx|sx| |sx mx ex], mean as [sy|sy| |sy my ey].
  all: try (apply eqb_finite_iff in Heq as (-> & -> & ->);
            unfold sub, SFsub; rewrite Z.sub_diag; reflexivity).
  all: repeat match goal with b : bool |- _ => destruct b end.
  all: cbn in Heq; try discriminate Heq; reflexivity.
Qed.

Lemma gtb_inf_finite (t : float64) :
  is_finite t = true -> gtb (S754_infinity false) t = true.
Proof. destruct t as [s|s| |[] m e]; cbn; congruence. Qed.

Lemma gtb_nan (t : float64) : gtb (Abs S754_nan) t = false.
Proof. destruct t as [s|[]| |[] m e]; reflexivity. Qed.

Lemma Zdigits2_nonneg (m : Z) : 0 <= Zdigits2 m.
Proof. destruct m; cbn; lia. Qed.

Lemma Zdigits2_bounds (m : Z) :
  0 < m -> 2 ^ (Zdigits2 m - 1) <= m < 2 ^ Zdigits2 m.
Proof. destruct m as [|p|p]; try lia. intros _. apply digits2_bounds. Qed.

Lemma Zdigits2_unique (m d : Z) :
  2 ^ (d - 1) <= m < 2 ^ d -> 0 < m -> Zdigits2 m = d.
Proof. destruct m as [|p|p]; try lia. intros H _. now apply digits2_unique. Qed.

Lemma pow2_lt_inv (a b : Z) : 0 <= b -> 2 ^ a < 2 ^ b -> a < b.
Proof.
  intros Hb H. destruct (Z_lt_le_dec a b) as [|Hle]; [assumption|].
  assert (2 ^ b <= 2 ^ a) by (apply Z.pow_le_mono_r; lia). lia.
Qed.

(** Dividing by [2^n] takes [n] digits off. *)
Lemma div_pow2_bounds (m n d : Z) :
  0 <= n < d -> 2 ^ (d - 1) <= m < 2 ^ d ->
  2 ^ (d - n - 1) <= m / 2 ^ n < 2 ^ (d - n).
Proof.
  intros Hn [Hlo Hhi].
  assert (Hp : 0 < 2 ^ n) by (apply Z.pow_pos_nonneg; lia).
  replace (2 ^ (d - 1)) with (2 ^ (d - n - 1) * 2 ^ n) in Hlo
    by (rewrite <- Z.pow_add_r by lia; f_equal; lia).
  replace (2 ^ d) with (2 ^ (d - n) * 2 ^ n) in Hhi
    by (rewrite <- Z.pow_add_r by lia; f_equal; lia).
  split.
  - apply Z.div_le_lower_bound; lia.
  - apply Z.div_lt_upper_bound; lia.
Qed.

(** After the shift, the rounding and the second shift of
    [binary_round_aux], the mantissa is in canonical position. *)
Lemma canonical_after_round (m e m1 : Z) :
  0 <= m -> e <= fexp prec emax (Zdigits2 m + e) ->
  let n0 := fexp prec emax (Zdigits2 m + e) - e in
  let e1 := e + n0 in
  m / 2 ^ n0 <= m1 <= m / 2 ^ n0 + 1 ->
  let n1 := Z.max 0 (fexp prec emax (Zdigits2 m1 + e1) - e1) in
  0 < m1 / 2 ^ n1 ->
  fexp prec emax (Zdigits2 (m1 / 2 ^ n1) + (e1 + n1)) = e1 + n1.
Proof.
  intros Hm He n0 e1 Hm1 n1 Hpos.
  assert (Hn0 : 0 <= n0) by (unfold n0; lia).
  assert (Hp0 : 0 < 2 ^ n0) by (apply Z.pow_pos_nonneg; lia).
  pose proof (Zdigits2_nonneg m) as Hd.
  set (d := Zdigits2 m) in *.
  assert (Hm0 : 0 <= m / 2 ^ n0) by (apply Z.div_pos; lia).
  assert (Hm1pos : 0 < m1).
  { destruct (Z_lt_le_dec 0 m1) as [|Hle]; [assumption|].
    assert (m1 = 0) by lia. subst m1. rewrite Zdiv_0_l in Hpos. lia. }
  destruct (Z.eq_dec (m / 2 ^ n0) 0) as [Hz|Hnz].
  - (* everything was shifted out: the result is the smallest subnormal *)
    assert (Hm1' : m1 = 1) by lia. subst m1.
    assert (Hemin : e1 = SpecFloat.emin prec emax).
    { assert (Hlt : m < 2 ^ n0).
      { apply Z.div_small_iff in Hz; [|lia]. lia. }
      assert (d <= n0).
      { destruct (Z.eq_dec m 0) as [->|Hne]; [unfold d; cbn; lia|].
        pose proof (Zdigits2_bounds m ltac:(lia)) as [Hlo _]. fold d in Hlo.
        assert (d - 1 < n0) by (apply pow2_lt_inv; lia). lia. }
      unfold e1, n0, fexp, SpecFloat.emin, prec, emax in *. lia. }
    assert (Hn1 : n1 = 0).
    { unfold n1. cbn [Zdigits2 digits2_pos]. rewrite Hemin.
      unfold fexp, SpecFloat.emin, prec, emax. lia. }
    rewrite Hn1, Z.pow_0_r, Z.div_1_r, Z.add_0_r. cbn [Zdigits2 digits2_pos].
    rewrite Hemin. unfold fexp, SpecFloat.emin, prec, emax. lia.
  - assert (Hmpos : 0 < m).
    { destruct (Z.eq_dec m 0) as [->|]; [|lia]. now rewrite Zdiv_0_l in Hnz. }
    pose proof (Zdigits2_bounds m Hmpos) as Hb. fold d in Hb.
    assert (Hn0d : n0 < d).
    { apply pow2_lt_inv; [lia|].
      assert (2 ^ n0 <= m); [|lia].
      destruct (Z_lt_le_dec m (2 ^ n0)) as [Hlt|]; [|assumption].
      rewrite Z.div_small in Hnz; lia. }
    pose proof (div_pow2_bounds m n0 d ltac:(lia) Hb) as Hb0.
    set (m0 := m / 2 ^ n0) in *. set (d0 := d - n0) in *.
    assert (Hd0 : 1 <= d0) by (unfold d0; lia).
    assert (He1 : fexp prec emax (d0 + e1) = e1).
    { replace (d0 + e1) with (d + e) by (unfold d0, e1; lia).
      unfold e1, n0. lia. }
    replace (d - n0 - 1) with (d0 - 1) in Hb0 by (unfold d0; lia).
    assert (Hpow : 2 ^ d0 = 2 * 2 ^ (d0 - 1)).
    { rewrite <- Z.pow_succ_r by lia. f_equal. lia. }
    destruct (Z_lt_le_dec m1 (2 ^ d0)) as [Hlt|Hge].
    + assert (Hd1 : Zdigits2 m1 = d0) by (apply Zdigits2_unique; lia).
      assert (Hn1 : n1 = 0) by (unfold n1; rewrite Hd1, He1; lia).
      rewrite Hn1, Z.pow_0_r, Z.div_1_r, Z.add_0_r, Hd1. exact He1.
    + assert (Hm1' : m1 = 2 ^ d0) by lia.
      assert (Hd1 : Zdigits2 m1 = d0 + 1).
      { apply Zdigits2_unique; [|lia].
        replace (d0 + 1 - 1) with d0 by lia.
        rewrite Z.pow_add_r by lia. lia. }
      assert (Hstep : fexp prec emax (d0 + 1 + e1) = e1
                      \/ fexp prec emax (d0 + 1 + e1) = e1 + 1).
      { unfold fexp in *. lia. }
      destruct Hstep as [Hs|Hs].
      * assert (Hn1 : n1 = 0) by (unfold n1; rewrite Hd1, Hs; lia).
        rewrite Hn1, Z.pow_0_r, Z.div_1_r, Z.add_0_r, Hd1. exact Hs.
      * assert (Hn1 : n1 = 1) by (unfold n1; rewrite Hd1, Hs; lia).
        rewrite Hn1, Z.pow_1_r, Hm1', Hpow.
        replace (2 * 2 ^ (d0 - 1) / 2) with (2 ^ (d0 - 1))
          by (rewrite Z.mul_comm, Z.div_mul; lia).
        assert (Hd2 : Zdigits2 (2 ^ (d0 - 1)) = d0).
        { apply Zdigits2_unique; [|apply Z.pow_pos_nonneg; lia]. lia. }
        rewrite Hd2. replace (d0 + (e1 + 1)) with (d0 + 1 + e1) by lia. exact Hs.
Qed.

Lemma binary_round_aux_valid (s : bool) (m e : Z) (l : location) :
  0 <= m -> e <= fexp prec emax (Zdigits2 m + e) ->
  valid (binary_round_aux prec emax s m e l) = true.
Proof.
  intros Hm He. unfold binary_round_aux.
  pose proof (shr_m_shr_fexp m e l Hm) as Hm0.
  pose proof (shr_e_shr_fexp m e l) as He1.
  destruct (shr_fexp prec emax m e l) as [r1 e1]. cbn [fst snd] in Hm0, He1.
  rewrite Z.max_r in Hm0, He1 by lia.
  pose proof (round_nearest_even_bounds (shr_m r1) (loc_of_shr_record r1)) as Hr.
  set (m1 := round_nearest_even (shr_m r1) (loc_of_shr_record r1)) in *.
  assert (Hm1 : 0 <= m1).
  { assert (0 <= shr_m r1); [|lia]. rewrite Hm0. apply Z.div_pos; lia. }
  pose proof (shr_m_shr_fexp m1 e1 loc_Exact Hm1) as Hm2.
  pose proof (shr_e_shr_fexp m1 e1 loc_Exact) as He2.
  destruct (shr_fexp prec emax m1 e1 loc_Exact) as [r2 e2]. cbn [fst snd] in Hm2, He2.
  destruct (shr_m r2) as [|p|p] eqn:Ep; try reflexivity.
  destruct (e2 <=? emax - prec) eqn:Ele; [|reflexivity].
  unfold valid, valid_binary, bounded, canonical_mantissa. rewrite Ele, andb_true_r.
  apply Z.eqb_eq.
  pose proof (canonical_after_round m e m1 Hm He) as H. cbn zeta in H.
  rewrite <- He1 in H. rewrite Hm0 in Hr. specialize (H Hr).
  rewrite <- Hm2, <- He2 in H. cbn [Zdigits2] in H. apply H. lia.
Qed.

Lemma Zdigits2_ge (q k : Z) : 0 <= k -> 2 ^ k <= q -> k + 1 <= Zdigits2 q.
Proof.
  intros Hk Hq.
  assert (0 < 2 ^ k) by (apply Z.pow_pos_nonneg; lia).
  pose proof (Zdigits2_bounds q ltac:(lia)) as [_ Hhi].
  assert (k < Zdigits2 q); [|lia].
  apply pow2_lt_inv; [apply Zdigits2_nonneg|lia].
Qed.

(** The quotient that [SFdiv] rounds has digits enough. *)
Lemma SFdiv_core_canonical (mx my : positive) (ex ey : Z) :
  let '(q, e', _) := SFdiv_core_binary prec emax (Z.pos mx) ex (Z.pos my) ey in
  0 <= q /\ e' <= fexp prec emax (Zdigits2 q + e').
Proof.
  pose proof (SFdiv_core_nonneg mx my ex ey) as Hq.
  unfold SFdiv_core_binary in *. cbn [Zdigits2] in *.
  pose proof (digits2_bounds mx) as [Hx _]. pose proof (digits2_bounds my) as [_ Hy].
  set (d1 := Z.pos (digits2_pos mx)) in *. set (d2 := Z.pos (digits2_pos my)) in *.
  set (e' := Z.min (fexp prec emax (d1 + ex - (d2 + ey))) (ex - ey)) in *.
  set (s := ex - ey - e') in *.
  assert (Hs : 0 <= s) by (unfold s, e'; lia).
  set (m' := match s with 0 => Z.pos mx | Z.pos _ => Z.shiftl (Z.pos mx) s | Z.neg _ => 0 end) in *.
  assert (Hm' : m' = Z.pos mx * 2 ^ s).
  { unfold m'. destruct s as [|p|p] eqn:Es; try lia.
    now rewrite Z.shiftl_mul_pow2 by lia. }
  destruct (Z.div_eucl m' (Z.pos my)) as [q r] eqn:E. cbn [fst] in Hq.
  split; [exact Hq|].
  assert (Hdiv : q = m' / Z.pos my) by (unfold Z.div; now rewrite E).
  destruct (Z_le_gt_dec e' (SpecFloat.emin prec emax)) as [Hle|Hgt].
  { unfold fexp. lia. }
  assert (Hk : 52 <= d1 - 1 + s - d2).
  { unfold s, e', fexp, SpecFloat.emin, prec, emax in *. lia. }
  assert (Hd1 : 1 <= d1) by (unfold d1; lia).
  assert (Hd2 : 1 <= d2) by (unfold d2; lia).
  assert (Hq2 : 2 ^ (d1 - 1 + s - d2) <= q).
  { rewrite Hdiv. apply Z.div_le_lower_bound; [lia|].
    rewrite Hm'.
    assert (0 < 2 ^ (d1 - 1 + s - d2)) by (apply Z.pow_pos_nonneg; lia).
    assert (0 < 2 ^ s) by (apply Z.pow_pos_nonneg; lia).
    assert (2 ^ (d1 - 1) * 2 ^ s = 2 ^ (d1 - 1 + s - d2) * 2 ^ d2).
    { rewrite <- !Z.pow_add_r by lia. f_equal. lia. }
    nia. }
  pose proof (Zdigits2_ge q (d1 - 1 + s - d2) ltac:(lia) Hq2).
  unfold fexp, prec. lia.
Qed.

(** A quotient is a float64. *)
Lemma div_valid (x y : float64) : valid (div x y) = true.
Proof.
  destruct x as [sx|sx| |sx mx ex], y as [sy|sy| |sy my ey]; try reflexivity.
  unfold div, SFdiv.
  pose proof (SFdiv_core_canonical mx my ex ey) as H.
  destruct (SFdiv_core_binary prec emax (Z.pos mx) ex (Z.pos my) ey) as [[q e'] l].
  destruct H as [Hq He]. now apply binary_round_aux_valid.
Qed.

(** The difference of a number and a float64 that is not NaN and not equal
    to it is not zero. *)
Lemma sub_nonzero_inf (x y : float64) :
  real x = true -> valid y = true -> is_nan y = false -> eqb x y = false ->
  nonzero (sub x y) = true.
Proof.
  intros Hx Hy Hnan Hne.
  destruct (is_finite y) eqn:Hfin.
  - apply sub_nonzero; [exact Hx| |exact Hne]. unfold real. now rewrite Hfin.
  - destruct y as [sy|sy| |sy my ey]; try discriminate.
    unfold real in Hx. destruct x as [sx|sx| |sx mx ex]; try discriminate; reflexivity.
Qed.

Lemma zscore_zero_stddev_ne_inf (value mean stddev : float64) :
  real value = true -> valid mean = true -> is_nan mean = false ->
  eqb stddev zero = true -> eqb value mean = false ->
  Abs (div (sub value mean) stddev) = S754_infinity false.
Proof.
  intros Hv Hm Hnan [s ->]%eqb_zero Hne.
  pose proof (sub_nonzero_inf _ _ Hv Hm Hnan Hne) as Hnz.
  destruct (sub value mean); try discriminate; reflexivity.
Qed.

End F64Facts.

Import F64Facts.

(** * The loops *)

Lemma of_Z_pos (n : Z) :
  1 <= n <= 2 ^ 53 -> exists m e, of_Z n = S754_finite false m e.
Proof.
  intros Hn. destruct (Z.eq_dec n (2 ^ 53)) as [->|Hne].
  - vm_compute. eauto.
  - destruct (of_Z_small n ltac:(lia)) as (m & e & H & _). eauto.
Qed.

Lemma counted_pos (n : nat) :
  (0 < n)%nat -> exists m e, counted n = S754_finite false m e.
Proof.
  intros Hn. apply of_Z_pos.
  assert (0 < 2 ^ 53) by reflexivity. lia.
Qed.

Lemma counted_small (n : nat) :
  Z.of_nat n < 2 ^ 53 -> counted n = of_Z (Z.of_nat n).
Proof. intros Hn. unfold counted. now rewrite Z.min_l by lia. Qed.

(** The first loop: the sum of the values and their number. *)
Lemma sum_count_loop (points : list Point) (s : float64) (n : Z) :
  0 <= n <= 2 ^ 53 ->
  fold_left (fun '(sum, count) point =>
               let value := DoubleValue point in
               (add sum value, add count one))
            points (s, of_Z n)
  = (fold_left add (values points) s,
     of_Z (Z.min (n + Z.of_nat (length points)) (2 ^ 53))).
Proof.
  revert s n. induction points as [|p points IH]; intros s n Hn.
  - cbn [fold_left values map length]. do 2 f_equal. lia.
  - cbn [fold_left values map length]. rewrite add_one_sat by exact Hn.
    assert (0 < 2 ^ 53) by reflexivity.
    rewrite IH by lia. fold (values points). do 2 f_equal. lia.
Qed.

(** The second loop: the sum of the squared deviations. *)
Lemma squares_loop (points : list Point) (m acc : float64) :
  fold_left (fun sumOfSquares point =>
               let value := DoubleValue point in
               let deviation := sub value m in
               add sumOfSquares (mul deviation deviation))
            points acc
  = fold_left add (map (fun x => mul (sub x m) (sub x m)) (values points)) acc.
Proof.
  revert acc. induction points as [|p points IH]; intros acc; [reflexivity|].
  cbn [fold_left values map]. apply IH.
Qed.

Lemma eqb_counted_zero (n : nat) :
  eqb (counted n) zero = match n with O => true | S _ => false end.
Proof.
  destruct n as [|n]; [reflexivity|].
  destruct (counted_pos (S n) ltac:(lia)) as (m & e & ->). reflexivity.
Qed.

Lemma GetBaseline_metric_spec (stats : gmap string MetricStats) (metric : TimeSeries) :
  GetBaseline_metric stats metric
  = match Points metric with
    | [] => stats
    | _ :: _ =>
        <[MetricType metric :=
            {| mean := window_mean (Points metric);
               stddev := window_stddev (Points metric);
               currentMean := zero; currentStdDev := zero |}]> stats
    end.
Proof.
  unfold GetBaseline_metric.
  change (zero, zero) with (zero, of_Z 0).
  rewrite sum_count_loop by (split; [lia|discriminate]).
  rewrite Z.add_0_l. fold (counted (length (Points metric))).
  rewrite eqb_counted_zero, squares_loop.
  destruct (Points metric) as [|p points] eqn:E; reflexivity.
Qed.

Lemma UpdateCurrentStats_metric_spec (stats : GoMap MetricStats) (metric : TimeSeries) :
  UpdateCurrentStats_metric stats metric
  = match Points metric with
    | [] => Returns stats
    | _ :: _ =>
        let stats0 := default zeroMetricStats (map_lookup stats (MetricType metric)) in
        map_store stats (MetricType metric)
          {| mean := mean stats0; stddev := stddev stats0;
             currentMean := window_mean (Points metric);
             currentStdDev := window_stddev (Points metric) |}
    end.
Proof.
  unfold UpdateCurrentStats_metric.
  change (zero, zero) with (zero, of_Z 0).
  rewrite sum_count_loop by (split; [lia|discriminate]).
  rewrite Z.add_0_l. fold (counted (length (Points metric))).
  rewrite eqb_counted_zero, squares_loop.
  destruct (Points metric) as [|p points] eqn:E; reflexivity.
Qed.

(** Below [2^53] points, the loops compute the mean and the population
    standard deviation. *)
Lemma window_mean_small (points : list Point) :
  Z.of_nat (length points) < 2 ^ 53 ->
  window_mean points = arithmetic_mean (values points).
Proof.
  intros Hn. unfold window_mean, arithmetic_mean, values.
  rewrite counted_small by exact Hn. now rewrite length_map.
Qed.

Lemma window_stddev_small (points : list Point) :
  Z.of_nat (length points) < 2 ^ 53 ->
  window_stddev points = population_stddev (values points).
Proof.
  intros Hn. unfold window_stddev, population_stddev.
  rewrite window_mean_small by exact Hn.
  unfold arithmetic_mean, values.
  rewrite counted_small by exact Hn. now rewrite !length_map.
Qed.

(** * The window that decides an entry *)

Lemma last_window_cons (k : string) (t : TimeSeries) (ms : list TimeSeries) :
  last_window k (t :: ms)
  = match last_window k ms with
    | Some w => Some w
    | None => if has_window k t then Some (Points t) else None
    end.
Proof.
  unfold last_window. cbn [List.filter].
  destruct (has_window k t); [|now destruct (last _)].
  rewrite last_cons. now destruct (last _).
Qed.

Lemma has_window_true (k : string) (t : TimeSeries) :
  has_window k t = true <-> MetricType t = k /\ Points t <> [].
Proof.
  unfold has_window. rewrite andb_true_iff, bool_decide_eq_true.
  destruct (Points t); split; intros [? ?]; split; congruence.
Qed.

Lemma has_window_false (k : string) (t : TimeSeries) :
  has_window k t = false <-> (MetricType t = k -> Points t = []).
Proof.
  unfold has_window. destruct (Points t) as [|p ps].
  - rewrite andb_false_r. split; auto.
  - rewrite andb_true_r, bool_decide_eq_false.
    split; [intros H E; contradiction|intros H E; specialize (H E); discriminate].
Qed.

Lemma last_window_no_samples (k : string) (ms : list TimeSeries) :
  no_samples k ms -> last_window k ms = None.
Proof.
  induction 1 as [|t ms Ht _ IH]; [reflexivity|].
  rewrite last_window_cons, IH. apply has_window_false in Ht. now rewrite Ht.
Qed.

Lemma last_window_last (k : string) (pre post : list TimeSeries) (ts : TimeSeries) :
  MetricType ts = k -> Points ts <> [] -> no_samples k post ->
  last_window k (pre ++ ts :: post) = Some (Points ts).
Proof.
  intros Hk Hp Hpost. induction pre as [|t pre IH].
  - cbn [app]. rewrite last_window_cons, last_window_no_samples by exact Hpost.
    assert (has_window k ts = true) as -> by (apply has_window_true; auto).
    reflexivity.
  - cbn [app]. now rewrite last_window_cons, IH.
Qed.

(** * The stats mapping after [GetBaseline] and [UpdateCurrentStats] *)

Lemma GetBaseline_lookup (ms : list TimeSeries) (m0 : gmap string MetricStats) (k : string) :
  fold_left GetBaseline_metric ms m0 !! k
  = match last_window k ms with
    | Some w => Some (baseline_entry w)
    | None => m0 !! k
    end.
Proof.
  revert m0. induction ms as [|t ms IH]; intros m0; [reflexivity|].
  cbn [fold_left]. rewrite IH, last_window_cons.
  destruct (last_window k ms) as [w|]; [reflexivity|].
  rewrite GetBaseline_metric_spec. unfold has_window.
  destruct (Points t) as [|p ps] eqn:E.
  - now rewrite andb_false_r.
  - rewrite andb_true_r, lookup_insert.
    case_bool_decide; case_decide; try contradiction; reflexivity.
Qed.

Lemma UpdateCurrentStats_loop_spec (ms : list TimeSeries) (m : gmap string MetricStats) :
  exists m',
    UpdateCurrentStats_loop (Map m) ms = Returns (Map m')
    /\ forall k, m' !! k
                 = match last_window k ms with
                   | Some w => Some (current_entry (m !! k) w)
                   | None => m !! k
                   end.
Proof.
  revert m. induction ms as [|t ms IH]; intros m.
  - exists m. split; reflexivity.
  - cbn [UpdateCurrentStats_loop]. rewrite UpdateCurrentStats_metric_spec.
    destruct (Points t) as [|p ps] eqn:E.
    + destruct (IH m) as (m' & Hrun & Hm'). exists m'. split; [exact Hrun|].
      intros k. rewrite Hm', last_window_cons. unfold has_window.
      rewrite E, andb_false_r. now destruct (last_window k ms).
    + cbn [map_store map_lookup].
      destruct (IH (<[MetricType t :=
                        {| mean := mean (default zeroMetricStats (m !! MetricType t));
                           stddev := stddev (default zeroMetricStats (m !! MetricType t));
                           currentMean := window_mean (p :: ps);
                           currentStdDev := window_stddev (p :: ps) |}]> m))
        as (m' & Hrun & Hm').
      exists m'. split; [exact Hrun|].
      intros k. rewrite Hm', last_window_cons. unfold has_window.
      rewrite E, andb_true_r, lookup_insert.
      case_bool_decide; case_decide; try contradiction; subst;
        now destruct (last_window _ ms).
Qed.

(** * The mapping and the flag across the three methods *)

Lemma UpdateCurrentStats_loop_nil (ms : list TimeSeries) (s : GoMap MetricStats) :
  UpdateCurrentStats_loop NilMap ms = Returns s -> s = NilMap.
Proof.
  induction ms as [|t ms IH]; cbn [UpdateCurrentStats_loop].
  - congruence.
  - rewrite UpdateCurrentStats_metric_spec.
    destruct (Points t); [exact IH|discriminate].
Qed.

Lemma last_window_elem (k : string) (ms : list TimeSeries) (w : list Point) :
  last_window k ms = Some w ->
  w <> [] /\ exists t, t ∈ ms /\ MetricType t = k /\ Points t = w.
Proof.
  induction ms as [|t ms IH]; [discriminate|].
  rewrite last_window_cons.
  destruct (last_window k ms) as [w'|].
  - intros [= ->]. destruct (IH eq_refl) as (Hw & t' & Hin & Hk & Hp).
    split; [exact Hw|]. exists t'. split; [now apply list_elem_of_further|auto].
  - destruct (has_window k t) eqn:E; [|discriminate].
    intros [= <-]. apply has_window_true in E as [Hk Hp].
    split; [exact Hp|]. exists t. split; [apply list_elem_of_here|auto].
Qed.

Section Detection.

Context {fmt : GoFmt}.

Lemma DetectAnomalies_point_fold (k : string) (st : MetricStats) (t : float64)
    (points : list Point) (acc : list Anomaly) (zs : gmap string float64) :
  fst (fold_left (DetectAnomalies_point k st t) points (acc, zs))
  = acc ++ map (anomaly_of k st)
               (List.filter (fun point => exceeds st t (DoubleValue point)) points).
Proof.
  revert acc zs. induction points as [|p points IH]; intros acc zs.
  - cbn. now rewrite app_nil_r.
  - cbn [fold_left List.filter]. unfold DetectAnomalies_point at 2.
    fold (zScore st (DoubleValue p)). fold (exceeds st t (DoubleValue p)).
    destruct (exceeds st t (DoubleValue p)).
    + rewrite IH. cbn [map]. now rewrite <- app_assoc.
    + apply IH.
Qed.

Lemma DetectAnomalies_metric_fold (stats : GoMap MetricStats) (t : float64)
    (ms : list TimeSeries) (acc : list Anomaly) (zs : gmap string float64) :
  fst (fold_left (DetectAnomalies_metric stats t) ms (acc, zs))
  = acc ++ anomalies_of stats ms t.
Proof.
  revert acc zs. induction ms as [|m ms IH]; intros acc zs.
  - cbn. now rewrite app_nil_r.
  - cbn [fold_left anomalies_of flat_map]. unfold DetectAnomalies_metric at 2.
    destruct (map_lookup stats (MetricType m)) as [st|].
    + destruct (fold_left _ (Points m) (acc, zs)) as [acc' zs'] eqn:E.
      rewrite IH. fold (anomalies_of stats ms t). rewrite app_assoc. f_equal.
      change acc' with (fst (acc', zs')). rewrite <- E.
      apply DetectAnomalies_point_fold.
    + rewrite IH. reflexivity.
Qed.

(** What [DetectAnomalies] returns on an initialised detector. *)
Lemma DetectAnomalies_returns (d : SimpleAnomalyDetector) (ms : list TimeSeries)
    (t : float64) :
  initialised d = true ->
  snd (DetectAnomalies d ms t) = (anomalies_of (metricsStats d) ms t, None).
Proof.
  intros Hi. unfold DetectAnomalies. rewrite Hi. cbn [negb].
  pose proof (DetectAnomalies_metric_fold (metricsStats d) t ms [] ∅) as H.
  destruct (fold_left _ ms ([], ∅)) as [an zs]. cbn [fst snd] in *.
  now rewrite H.
Qed.

Lemma DetectAnomalies_frame (d : SimpleAnomalyDetector) (ms : list TimeSeries)
    (t : float64) :
  metricsStats (fst (DetectAnomalies d ms t)) = metricsStats d
  /\ initialised (fst (DetectAnomalies d ms t)) = initialised d.
Proof.
  unfold DetectAnomalies. destruct (initialised d) eqn:E; cbn [negb].
  - destruct (fold_left _ ms ([], ∅)) as [an zs]. cbn. auto.
  - cbn. auto.
Qed.

Lemma elem_of_anomalies_of (stats : GoMap MetricStats) (ms : list TimeSeries)
    (t : float64) (a : Anomaly) :
  a ∈ anomalies_of stats ms t
  <-> exists metric st point,
        metric ∈ ms /\ map_lookup stats (MetricType metric) = Some st
        /\ point ∈ Points metric
        /\ exceeds st t (DoubleValue point) = true
        /\ a = anomaly_of (MetricType metric) st point.
Proof.
  unfold anomalies_of. rewrite list_elem_of_In, in_flat_map. split.
  - intros (metric & Hin & Ha).
    destruct (map_lookup stats (MetricType metric)) as [st|] eqn:E; [|destruct Ha].
    apply in_map_iff in Ha as (point & <- & Hp).
    apply filter_In in Hp as [Hp Hex].
    exists metric, st, point. rewrite <- !list_elem_of_In in *. auto.
  - intros (metric & st & point & Hin & E & Hp & Hex & ->).
    exists metric. rewrite <- list_elem_of_In. split; [exact Hin|].
    rewrite E. apply in_map, filter_In. rewrite <- list_elem_of_In. auto.
Qed.

End Detection.

(** * Properties of the three methods *)

(** C2, as the code has it. For a metric type with samples, [GetBaseline]
    stores the arithmetic mean and the population standard deviation
    (divisor: the number of values), both computed in float64, of the values
    of ONE series: the last series of that metric type with points in the
    batch. The samples of the earlier series of the same type do not
    count. *)
Theorem GetBaseline_mean_stddev (d : SimpleAnomalyDetector)
    (pre post : list TimeSeries) (ts : TimeSeries) :
  Points ts <> [] ->
  Z.of_nat (length (Points ts)) < 2 ^ 53 ->
  no_samples (MetricType ts) post ->
  map_lookup (metricsStats (GetBaseline d (pre ++ ts :: post))) (MetricType ts)
  = Some {| mean := arithmetic_mean (values (Points ts));
            stddev := population_stddev (values (Points ts));
            currentMean := zero; currentStdDev := zero |}.
Proof.
  intros Hne Hlen Hpost. cbn [GetBaseline metricsStats map_lookup].
  rewrite GetBaseline_lookup, (last_window_last _ pre post ts eq_refl Hne Hpost).
  unfold baseline_entry.
  now rewrite window_mean_small, window_stddev_small.
Qed.

Lemma GetBaseline_mean_stddev_witness :
  map_lookup (metricsStats (GetBaseline newDetector [series "cpu" [10; 20; 30]])) "cpu"
  = Some {| mean := arithmetic_mean [of_Z 10; of_Z 20; of_Z 30];
            stddev := population_stddev [of_Z 10; of_Z 20; of_Z 30];
            currentMean := zero; currentStdDev := zero |}.
Proof.
  apply (GetBaseline_mean_stddev newDetector [] [] (series "cpu" [10; 20; 30])).
  - discriminate.
  - reflexivity.
  - constructor.
Defined.

(** C2 as worded fails on a metric type that comes in two series, as the
    listing returns them for a metric with two label sets: of the samples
    1, 2, 3 and 10 of ["cpu"], whose mean is 4, [GetBaseline] keeps the mean
    10 and the standard deviation 0 of the last series alone. *)
Lemma GetBaseline_last_series_only :
  let batch := [series "cpu" [1; 2; 3]; series "cpu" [10]] in
  values (metric_samples "cpu" batch) = [of_Z 1; of_Z 2; of_Z 3; of_Z 10]
  /\ arithmetic_mean (values (metric_samples "cpu" batch)) = of_Z 4
  /\ exists st,
       map_lookup (metricsStats (GetBaseline newDetector batch)) "cpu" = Some st
       /\ mean st = of_Z 10
       /\ stddev st = zero
       /\ eqb (mean st) (arithmetic_mean (values (metric_samples "cpu" batch))) = false
       /\ eqb (stddev st) (population_stddev (values (metric_samples "cpu" batch)))
          = false.
Proof.
  cbv zeta. split; [reflexivity|]. split; [vm_compute; reflexivity|].
  eexists. split; [vm_compute; reflexivity|]. vm_compute. auto.
Qed.

(** The worked example of the specification: [10, 20, 30] has mean 20 and
    standard deviation 8.165 to three decimals. *)
Example baseline_10_20_30 :
  let st := baseline_entry (Points (series "cpu" [10; 20; 30])) in
  mean st = of_Z 20
  /\ ltb (div (of_Z 81645) (of_Z 10000)) (stddev st) = true
  /\ ltb (stddev st) (div (of_Z 81655) (of_Z 10000)) = true.
Proof. vm_compute. auto. Qed.

(** Until [GetBaseline] runs, the flag stays down. *)
Lemma run_calls_not_initialised `{fmt : GoFmt} (cs : list call)
    (d d' : SimpleAnomalyDetector) :
  forallb (fun c => negb (is_GetBaseline c)) cs = true ->
  initialised d = false -> run_calls d cs = Returns d' ->
  initialised d' = false.
Proof.
  revert d. induction cs as [|c cs IH]; intros d Hcs Hd Hrun.
  - cbn in Hrun. congruence.
  - cbn [forallb] in Hcs. apply andb_true_iff in Hcs as [Hc Hcs].
    cbn [run_calls] in Hrun.
    destruct (run_call d c) as [d1|msg] eqn:E; [|discriminate].
    refine (IH d1 Hcs _ Hrun).
    destruct c as [ms|ms|ms t]; cbn [run_call] in E.
    + discriminate.
    + unfold UpdateCurrentStats in E.
      destruct (UpdateCurrentStats_loop _ ms); [|discriminate].
      injection E as <-. exact Hd.
    + injection E as <-. now rewrite (proj2 (DetectAnomalies_frame d ms t)).
Qed.

(** With the flag down, [DetectAnomalies] fails and changes nothing. *)
Lemma DetectAnomalies_flag_down `{fmt : GoFmt} (d : SimpleAnomalyDetector)
    (ms : list TimeSeries) (t : float64) :
  initialised d = false ->
  DetectAnomalies d ms t = (d, ([], Some "baseline not initialised"%string)).
Proof. intros Hi. unfold DetectAnomalies. now rewrite Hi. Qed.

(** C3. On a detector on which [GetBaseline] has never run,
    [DetectAnomalies] returns the error and no anomaly, and leaves the
    detector as it was, whatever the batch and the threshold. *)
Theorem DetectAnomalies_not_initialised `{fmt : GoFmt} (cs : list call)
    (d : SimpleAnomalyDetector) (ms : list TimeSeries) (t : float64) :
  forallb (fun c => negb (is_GetBaseline c)) cs = true ->
  run_calls newDetector cs = Returns d ->
  DetectAnomalies d ms t = (d, ([], Some "baseline not initialised"%string)).
Proof.
  intros Hcs Hrun.
  apply DetectAnomalies_flag_down.
  exact (run_calls_not_initialised cs newDetector d Hcs eq_refl Hrun).
Qed.

Lemma DetectAnomalies_not_initialised_witness :
  @DetectAnomalies sample_fmt newDetector [series "cpu" [131]] (of_Z 3)
  = (newDetector, ([], Some "baseline not initialised"%string)).
Proof.
  apply (@DetectAnomalies_not_initialised sample_fmt
           [CallUpdateCurrentStats [series "cpu" []];
            CallDetectAnomalies [series "cpu" [1]] (of_Z 3)]).
  - reflexivity.
  - reflexivity.
Defined.

(** C5. [GetBaseline] creates no entry for a metric without samples, and
    sets the flag whatever the batch, even an empty one or one in which
    no metric has samples. *)
Theorem GetBaseline_skips_empty (d : SimpleAnomalyDetector) (ms : list TimeSeries) :
  initialised (GetBaseline d ms) = true
  /\ forall k, no_samples k ms ->
       map_lookup (metricsStats (GetBaseline d ms)) k = None.
Proof.
  split; [reflexivity|]. intros k Hk. cbn [GetBaseline metricsStats map_lookup].
  now rewrite GetBaseline_lookup, last_window_no_samples.
Qed.

Lemma GetBaseline_skips_empty_witness :
  initialised (GetBaseline newDetector [series "cpu" []; series "mem" [1; 2]]) = true
  /\ map_lookup (metricsStats (GetBaseline newDetector
                                 [series "cpu" []; series "mem" [1; 2]])) "cpu" = None.
Proof.
  destruct (GetBaseline_skips_empty newDetector [series "cpu" []; series "mem" [1; 2]])
    as [Hi Hk].
  split; [exact Hi|]. apply Hk.
  constructor; [intros _; reflexivity|].
  constructor; [intros H; discriminate H|constructor].
Defined.

(** C6. [UpdateCurrentStats] leaves the entry of a known metric as it is,
    all four fields, when the batch has no sample for it. *)
Theorem UpdateCurrentStats_no_samples (d : SimpleAnomalyDetector)
    (ms : list TimeSeries) (k : string) (st : MetricStats) :
  map_lookup (metricsStats d) k = Some st ->
  no_samples k ms ->
  exists d', UpdateCurrentStats d ms = Returns d'
             /\ map_lookup (metricsStats d') k = Some st.
Proof.
  intros Hst Hk. unfold UpdateCurrentStats.
  destruct (metricsStats d) as [|m] eqn:E; [discriminate|].
  destruct (UpdateCurrentStats_loop_spec ms m) as (m' & -> & Hm').
  eexists. split; [reflexivity|]. cbn [metricsStats map_lookup] in *.
  now rewrite Hm', last_window_no_samples.
Qed.

Lemma UpdateCurrentStats_no_samples_witness :
  exists d', UpdateCurrentStats (sample_detector 100 10) [series "cpu" []] = Returns d'
             /\ map_lookup (metricsStats d') "cpu"
                = Some {| mean := of_Z 100; stddev := of_Z 10;
                          currentMean := zero; currentStdDev := zero |}.
Proof.
  apply (UpdateCurrentStats_no_samples (sample_detector 100 10) [series "cpu" []] "cpu").
  - reflexivity.
  - constructor; [intros _; reflexivity|constructor].
Defined.



(** Before any [GetBaseline] the mapping is the nil map, and the store
    of [UpdateCurrentStats] panics. *)
Lemma UpdateCurrentStats_nil_map_panics :
  UpdateCurrentStats newDetector [series "cpu" [1]]
  = Panics "assignment to entry in nil map".
Proof. reflexivity. Qed.

(** * Windows of numbers *)

Lemma eqb_refl (x : float64) : is_nan x = false -> eqb x x = true.
Proof.
  destruct x as [s|[]| |s m e]; cbn; try congruence.
  intros _. apply eqb_finite_iff. auto.
Qed.

Lemma fold_add_not_nan (xs : list float64) (acc : float64) :
  is_nan acc = false -> Forall (fun x => is_finite x = true) xs ->
  is_nan (fold_left add xs acc) = false.
Proof.
  intros Hacc Hxs. revert acc Hacc.
  induction Hxs as [|x xs Hx _ IH]; intros acc Hacc; [exact Hacc|].
  cbn [fold_left]. apply IH. now apply add_not_nan.
Qed.

Lemma fold_add_nonneg (xs : list float64) (acc : float64) :
  geb acc zero = true -> Forall (fun x => geb x zero = true) xs ->
  geb (fold_left add xs acc) zero = true.
Proof.
  intros Hacc Hxs. revert acc Hacc.
  induction Hxs as [|x xs Hx _ IH]; intros acc Hacc; [exact Hacc|].
  cbn [fold_left]. apply IH. now apply add_nonneg.
Qed.

Lemma finite_window_values (w : list Point) :
  finite_window w -> Forall (fun x => is_finite x = true) (values w).
Proof. unfold finite_window, values. now rewrite Forall_map. Qed.

(** The mean of a window of numbers is not NaN (it may be an infinity,
    when the sum overflows). *)
Lemma window_mean_not_nan (w : list Point) :
  w <> [] -> finite_window w -> is_nan (window_mean w) = false.
Proof.
  intros Hw Hfin. unfold window_mean.
  destruct (counted_pos (length w)) as (m & e & ->).
  { destruct w; [contradiction|cbn; lia]. }
  apply div_pos_not_nan, fold_add_not_nan; [reflexivity|].
  now apply finite_window_values.
Qed.

(** The standard deviation of a window of numbers is [>= 0]. *)
Lemma window_stddev_nonneg (w : list Point) :
  w <> [] -> finite_window w -> geb (window_stddev w) zero = true.
Proof.
  intros Hw Hfin. unfold window_stddev.
  pose proof (window_mean_not_nan w Hw Hfin) as Hmean.
  destruct (counted_pos (length w)) as (m & e & ->).
  { destruct w; [contradiction|cbn; lia]. }
  apply Sqrt_nonneg, div_pos_nonneg, fold_add_nonneg; [reflexivity|].
  apply Forall_map. apply finite_window_values in Hfin.
  eapply Forall_impl; [exact Hfin|]. cbn. intros x Hx.
  apply mul_self_nonneg, sub_not_nan; assumption.
Qed.

Lemma last_window_satisfies (Q : list Point -> Prop) (k : string)
    (ms : list TimeSeries) (w : list Point) :
  windows_satisfy Q ms -> last_window k ms = Some w -> w <> [] /\ Q w.
Proof.
  intros HQ Hw. apply last_window_elem in Hw as (Hne & t & Hin & _ & <-).
  split; [exact Hne|]. unfold windows_satisfy in HQ.
  rewrite Forall_forall in HQ. now apply HQ.
Qed.

(** C8. [GetBaseline] followed by [UpdateCurrentStats] on the same batch
    leaves every entry with its current mean and standard deviation equal
    to its baseline ones: the very same float64, and equal for [==] too
    when the samples are numbers. *)
Theorem UpdateCurrentStats_after_GetBaseline (d : SimpleAnomalyDetector)
    (ms : list TimeSeries) :
  exists d', UpdateCurrentStats (GetBaseline d ms) ms = Returns d'
    /\ forall k st, map_lookup (metricsStats d') k = Some st ->
         (currentMean st = mean st /\ currentStdDev st = stddev st)
         /\ (finite_samples ms ->
             eqb (currentMean st) (mean st) = true
             /\ eqb (currentStdDev st) (stddev st) = true).
Proof.
  unfold UpdateCurrentStats. cbn [GetBaseline metricsStats].
  destruct (UpdateCurrentStats_loop_spec ms (fold_left GetBaseline_metric ms ∅))
    as (m' & -> & Hm').
  eexists. split; [reflexivity|]. intros k st. cbn [metricsStats map_lookup].
  rewrite Hm', GetBaseline_lookup.
  destruct (last_window k ms) as [w|] eqn:Hw; [|now rewrite lookup_empty].
  intros [= <-]. cbn. split; [auto|]. intros Hfin.
  destruct (last_window_satisfies _ k ms w Hfin Hw) as [Hne Hfw].
  split; apply eqb_refl.
  - now apply window_mean_not_nan.
  - now apply nonneg_not_nan, window_stddev_nonneg.
Qed.

Lemma UpdateCurrentStats_after_GetBaseline_witness :
  exists d', UpdateCurrentStats (GetBaseline newDetector [series "cpu" [10; 20; 30]])
                                [series "cpu" [10; 20; 30]] = Returns d'
    /\ exists st, map_lookup (metricsStats d') "cpu" = Some st
         /\ currentMean st = mean st /\ currentStdDev st = stddev st
         /\ eqb (currentMean st) (mean st) = true
         /\ eqb (currentStdDev st) (stddev st) = true.
Proof.
  destruct (UpdateCurrentStats_after_GetBaseline newDetector [series "cpu" [10; 20; 30]])
    as (d' & Hrun & Hd').
  exists d'. split; [exact Hrun|].
  vm_compute in Hrun. injection Hrun as <-.
  eexists. split; [reflexivity|].
  destruct (Hd' "cpu"%string _ eq_refl) as [[H1 H2] H3].
  destruct H3 as [H3 H4].
  { repeat constructor. }
  auto.
Defined.

Lemma DetectAnomalies_point_report `{fmt : GoFmt} (k : string) (st : MetricStats)
    (t : float64) (points : list Point) (acc : list Anomaly)
    (zs : gmap string float64) :
  snd (fold_left (DetectAnomalies_point k st t) points (acc, zs))
  = fold_left (zScores_point k st) points zs.
Proof.
  revert acc zs. induction points as [|p points IH]; intros acc zs; [reflexivity|].
  cbn [fold_left]. unfold DetectAnomalies_point at 2.
  destruct (gtb _ t); apply IH.
Qed.

Lemma DetectAnomalies_metric_report `{fmt : GoFmt} (stats : GoMap MetricStats)
    (t : float64) (ms : list TimeSeries) (acc : list Anomaly)
    (zs : gmap string float64) :
  snd (fold_left (DetectAnomalies_metric stats t) ms (acc, zs))
  = fold_left (zScores_metric stats) ms zs.
Proof.
  revert acc zs. induction ms as [|m ms IH]; intros acc zs; [reflexivity|].
  cbn [fold_left]. unfold DetectAnomalies_metric at 2, zScores_metric at 2.
  destruct (map_lookup stats (MetricType m)) as [st|]; [|apply IH].
  destruct (fold_left _ (Points m) (acc, zs)) as [acc' zs'] eqn:E.
  rewrite IH. f_equal.
  change zs' with (snd (acc', zs')). rewrite <- E.
  apply DetectAnomalies_point_report.
Qed.

(** C10. [DetectAnomalies] changes neither the stats mapping nor the
    flag.  The z-score report is the only field it replaces, and only when
    it succeeds: by a report built from the mapping and the batch alone,
    in which the report it replaces plays no part.  Nothing of the
    anomalies stays in the detector. *)
Theorem DetectAnomalies_only_replaces_zScores `{fmt : GoFmt}
    (d : SimpleAnomalyDetector) (ms : list TimeSeries) (t : float64) :
  metricsStats (fst (DetectAnomalies d ms t)) = metricsStats d
  /\ initialised (fst (DetectAnomalies d ms t)) = initialised d
  /\ zScores (fst (DetectAnomalies d ms t))
     = if initialised d then Map (zScores_of (metricsStats d) ms) else zScores d.
Proof.
  split; [apply DetectAnomalies_frame|]. split; [apply DetectAnomalies_frame|].
  unfold DetectAnomalies. destruct (initialised d); [|reflexivity]. cbn [negb].
  pose proof (DetectAnomalies_metric_report (metricsStats d) t ms [] ∅) as H.
  destruct (fold_left _ ms ([], ∅)) as [an zs]. cbn [fst snd zScores] in *.
  now rewrite H.
Qed.

(** * The invariant of the standard deviations *)

Lemma fold_add_nan (xs : list float64) : fold_left add xs S754_nan = S754_nan.
Proof. induction xs as [|x xs IH]; [reflexivity|exact IH]. Qed.

(** A window whose mean is NaN has the standard deviation NaN. *)
Lemma window_stddev_nan (w : list Point) :
  w <> [] -> is_nan (window_mean w) = true -> window_stddev w = S754_nan.
Proof.
  intros Hw Hnan. unfold window_stddev.
  destruct (window_mean w); try discriminate.
  destruct w as [|p w]; [contradiction|].
  cbn [values map float_sum fold_left].
  replace (add zero (mul (sub (DoubleValue p) S754_nan) (sub (DoubleValue p) S754_nan)))
    with S754_nan by (now destruct (DoubleValue p)).
  now rewrite fold_add_nan.
Qed.

Section Invariant.

Context {fmt : GoFmt}.
Variable R : MetricStats -> Prop.
Variable Q : list Point -> Prop.
Hypothesis R_baseline : forall w, w <> [] -> Q w -> R (baseline_entry w).
Hypothesis R_current :
  forall old w, w <> [] -> Q w -> (forall o, old = Some o -> R o) ->
                R (current_entry old w).

Lemma GetBaseline_entries (d : SimpleAnomalyDetector) (ms : list TimeSeries) :
  windows_satisfy Q ms -> entries_satisfy R (GetBaseline d ms).
Proof.
  intros HQ k st. cbn [GetBaseline metricsStats map_lookup].
  rewrite GetBaseline_lookup.
  destruct (last_window k ms) as [w|] eqn:Hw; [|now rewrite lookup_empty].
  intros [= <-]. destruct (last_window_satisfies Q k ms w HQ Hw) as [Hne Hw'].
  now apply R_baseline.
Qed.

Lemma UpdateCurrentStats_entries (d d' : SimpleAnomalyDetector)
    (ms : list TimeSeries) :
  windows_satisfy Q ms -> entries_satisfy R d ->
  UpdateCurrentStats d ms = Returns d' -> entries_satisfy R d'.
Proof.
  intros HQ Hd. unfold UpdateCurrentStats.
  destruct (metricsStats d) as [|m] eqn:Em.
  - destruct (UpdateCurrentStats_loop NilMap ms) as [s|] eqn:E; [|discriminate].
    apply UpdateCurrentStats_loop_nil in E as ->.
    intros [= <-] k st. discriminate.
  - destruct (UpdateCurrentStats_loop_spec ms m) as (m' & -> & Hm').
    intros [= <-] k st. cbn [metricsStats map_lookup]. rewrite Hm'.
    destruct (last_window k ms) as [w|] eqn:Hw.
    + intros [= <-]. destruct (last_window_satisfies Q k ms w HQ Hw) as [Hne Hw'].
      apply R_current; [exact Hne|exact Hw'|].
      intros o Ho. apply (Hd k o). now rewrite Em.
    + intros Hst. apply (Hd k st). now rewrite Em.
Qed.

Lemma run_call_entries (d d' : SimpleAnomalyDetector) (c : call) :
  windows_satisfy Q (call_metrics c) -> entries_satisfy R d ->
  run_call d c = Returns d' -> entries_satisfy R d'.
Proof.
  intros HQ Hd. destruct c as [ms|ms|ms t]; cbn [run_call call_metrics] in *.
  - intros [= <-]. now apply GetBaseline_entries.
  - now apply UpdateCurrentStats_entries.
  - intros [= <-] k st.
    rewrite (proj1 (DetectAnomalies_frame d ms t)). apply Hd.
Qed.

Lemma run_calls_entries (cs : list call) (d d' : SimpleAnomalyDetector) :
  Forall (fun c => windows_satisfy Q (call_metrics c)) cs -> entries_satisfy R d ->
  run_calls d cs = Returns d' -> entries_satisfy R d'.
Proof.
  intros Hcs. revert d. induction Hcs as [|c cs Hc _ IH]; intros d Hd.
  - intros [= <-]. exact Hd.
  - cbn [run_calls]. destruct (run_call d c) as [d1|] eqn:E; [|discriminate].
    apply IH. exact (run_call_entries d d1 c Hc Hd E).
Qed.

End Invariant.

Lemma windows_satisfy_True (ms : list TimeSeries) : windows_satisfy (fun _ => True) ms.
Proof. apply Forall_forall. auto. Qed.

Lemma calls_satisfy_True (cs : list call) :
  Forall (fun c => windows_satisfy (fun _ => True) (call_metrics c)) cs.
Proof. apply Forall_forall. intros c _. apply windows_satisfy_True. Qed.

(** The invariant of the standard deviations: both satisfy [P], as soon as
    zero and the standard deviation of every window do. *)
Lemma run_calls_stddevs `{fmt : GoFmt} (P : float64 -> Prop) (Q : list Point -> Prop)
    (cs : list call) (d : SimpleAnomalyDetector) :
  P zero -> (forall w, w <> [] -> Q w -> P (window_stddev w)) ->
  Forall (fun c => windows_satisfy Q (call_metrics c)) cs ->
  run_calls newDetector cs = Returns d ->
  entries_satisfy (fun st => P (stddev st) /\ P (currentStdDev st)) d.
Proof.
  intros P0 Pw Hcs Hrun.
  refine (run_calls_entries _ Q _ _ cs newDetector d Hcs _ Hrun).
  - intros w Hne Hw. cbn. auto.
  - intros old w Hne Hw Hold. cbn. split; [|auto].
    destruct old as [o|]; [apply (Hold o eq_refl)|exact P0].
  - intros k st. discriminate.
Qed.

(** The baseline means of a reachable detector are well formed, whatever
    the batches were. *)
Lemma run_calls_mean_well_formed `{fmt : GoFmt} (cs : list call)
    (d : SimpleAnomalyDetector) :
  run_calls newDetector cs = Returns d -> entries_satisfy mean_well_formed d.
Proof.
  intros Hrun.
  refine (run_calls_entries _ (fun _ => True) _ _ cs newDetector d
            (calls_satisfy_True cs) _ Hrun).
  - intros w Hne _. split; cbn [baseline_entry mean stddev].
    + apply div_valid.
    + intros Hsd. destruct (is_nan (window_mean w)) eqn:E; [|reflexivity].
      rewrite (window_stddev_nan w Hne E) in Hsd. discriminate.
  - intros old w _ _ Hold. destruct old as [o|]; [apply (Hold o eq_refl)|].
    split; [reflexivity|]. intros _. reflexivity.
  - intros k st. discriminate.
Qed.

(** On a reachable detector the mapping is allocated only once the flag
    is up. *)
Lemma run_calls_allocated `{fmt : GoFmt} (cs : list call)
    (d d' : SimpleAnomalyDetector) :
  allocated_initialised d -> run_calls d cs = Returns d' ->
  allocated_initialised d'.
Proof.
  revert d. induction cs as [|c cs IH]; intros d Hd.
  - intros [= <-]. exact Hd.
  - cbn [run_calls]. destruct (run_call d c) as [d1|] eqn:E; [|discriminate].
    apply IH. destruct c as [ms|ms|ms t]; cbn [run_call] in E.
    + injection E as <-. now right.
    + unfold UpdateCurrentStats in E.
      destruct (UpdateCurrentStats_loop (metricsStats d) ms) as [s|] eqn:El;
        [|discriminate].
      injection E as <-. destruct Hd as [Hnil|Hi]; [left|now right].
      cbn. rewrite Hnil in El. now apply UpdateCurrentStats_loop_nil in El.
    + injection E as <-. unfold allocated_initialised.
      destruct (DetectAnomalies_frame d ms t) as [-> ->]. exact Hd.
Qed.

(** C1. On a detector reached by any calls, with a zero baseline standard
    deviation for a metric: a sample of that metric that is a number and
    differs from the baseline mean is flagged, whatever the finite
    threshold; and no anomaly is reported for a value equal to the mean,
    whatever the threshold. *)
Theorem DetectAnomalies_zero_stddev `{fmt : GoFmt} (cs : list call)
    (d : SimpleAnomalyDetector) (ms : list TimeSeries) (t : float64)
    (k : string) (st : MetricStats) :
  run_calls newDetector cs = Returns d ->
  map_lookup (metricsStats d) k = Some st ->
  eqb (stddev st) zero = true ->
  (forall metric point,
      metric ∈ ms -> MetricType metric = k -> point ∈ Points metric ->
      real (DoubleValue point) = true ->
      eqb (DoubleValue point) (mean st) = false ->
      is_finite t = true ->
      anomaly_of k st point ∈ fst (snd (DetectAnomalies d ms t)))
  /\ (forall a,
        a ∈ fst (snd (DetectAnomalies d ms t)) -> MetricName a = k ->
        eqb (Value a) (mean st) = false).
Proof.
  intros Hrun Hst Hsd.
  assert (Hi : initialised d = true).
  { destruct (run_calls_allocated cs newDetector d (or_introl eq_refl) Hrun)
      as [Hnil|Hi]; [|exact Hi].
    rewrite Hnil in Hst. discriminate. }
  destruct (run_calls_mean_well_formed cs d Hrun k st Hst) as [Hvalid Hnan].
  specialize (Hnan Hsd).
  rewrite (DetectAnomalies_returns d ms t Hi). cbn [fst].
  split.
  - intros metric point Hin Hk Hp Hv Hne Ht.
    apply elem_of_anomalies_of. exists metric, st, point.
    rewrite Hk. repeat split; try assumption.
    unfold exceeds, zScore.
    rewrite (zscore_zero_stddev_ne_inf _ _ _ Hv Hvalid Hnan Hsd Hne).
    now apply gtb_inf_finite.
  - intros a Ha Hk.
    apply elem_of_anomalies_of in Ha as (metric & st' & point & _ & Hst' & _ & Hex & ->).
    cbn [anomaly_of MetricName Value] in *. rewrite Hk, Hst in Hst'.
    injection Hst' as <-.
    destruct (eqb (DoubleValue point) (mean st)) eqn:E; [|reflexivity].
    unfold exceeds, zScore in Hex.
    rewrite (zscore_zero_stddev_eq _ _ _ Hsd E), gtb_nan in Hex. discriminate.
Qed.

Lemma Sqrt_not_negative (x : float64) : ltb (Sqrt x) zero = false.
Proof.
  destruct x as [[]|[]| |[] m e]; try reflexivity.
  unfold Sqrt, SFsqrt.
  pose proof (SFsqrt_core_nonneg m e) as H.
  destruct (SFsqrt_core_binary prec emax (Z.pos m) e) as [[mz ez] lz].
  cbn [fst] in H.
  pose proof (binary_round_aux_signed false mz ez lz H) as Hs.
  destruct (binary_round_aux prec emax false mz ez lz) as [[]|[]| |[] m' e'];
    cbn in Hs; try discriminate; reflexivity.
Qed.

(** C9. After any sequence of calls of the three methods, starting from
    the new detector, no entry of the mapping has a negative [stddev] or
    [currentStdDev]; and when the batches hold numbers only, both are
    [>= 0] (so neither is NaN). *)
Theorem reachable_stddevs_nonneg `{fmt : GoFmt} (cs : list call)
    (d : SimpleAnomalyDetector) (k : string) (st : MetricStats) :
  run_calls newDetector cs = Returns d ->
  map_lookup (metricsStats d) k = Some st ->
  (ltb (stddev st) zero = false /\ ltb (currentStdDev st) zero = false)
  /\ (Forall (fun c => finite_samples (call_metrics c)) cs ->
      geb (stddev st) zero = true /\ geb (currentStdDev st) zero = true).
Proof.
  intros Hrun Hst. split.
  - refine (run_calls_stddevs (fun x => ltb x zero = false) (fun _ => True) cs d
              eq_refl _ (calls_satisfy_True cs) Hrun k st Hst).
    intros w _ _. apply Sqrt_not_negative.
  - intros Hcs.
    exact (run_calls_stddevs (fun x => geb x zero = true) finite_window cs d
             eq_refl window_stddev_nonneg Hcs Hrun k st Hst).
Qed.

Lemma eqb_not_gtb (z t : float64) : eqb z t = true -> gtb z t = false.
Proof.
  destruct z as [s|s| |s m e], t as [s'|s'| |s' m' e'].
  all: try (intros (-> & -> & ->)%eqb_finite_iff;
            pose proof (eqb_refl (S754_finite s' m' e') eq_refl) as H;
            unfold gtb, SFltb; unfold eqb, SFeqb in H;
            destruct (SFcompare _ _) as [[]|]; congruence).
  all: repeat match goal with b : bool |- _ => destruct b end; cbn; congruence.
Qed.

(** C4, as the code has it. On an initialised detector the anomalies are,
    in order, the samples of the metrics with an entry whose [|zScore|]
    is [>] the threshold in float64: an infinite z-score exceeds every
    finite threshold, a NaN z-score exceeds none, and neither does a
    [|zScore|] equal to the threshold. *)
Theorem DetectAnomalies_flags_exceeding `{fmt : GoFmt} (d : SimpleAnomalyDetector)
    (ms : list TimeSeries) (t : float64) :
  initialised d = true ->
  fst (snd (DetectAnomalies d ms t)) = anomalies_of (metricsStats d) ms t
  /\ (forall st v, is_inf (zScore st v) = true -> is_finite t = true ->
                   exceeds st t v = true)
  /\ (forall st v, is_nan (zScore st v) = true -> exceeds st t v = false)
  /\ (forall st v, eqb (Abs (zScore st v)) t = true -> exceeds st t v = false).
Proof.
  intros Hi. rewrite (DetectAnomalies_returns d ms t Hi). split; [reflexivity|].
  unfold exceeds. repeat split; intros st v.
  - destruct (zScore st v) as [s|s| |s m e]; try discriminate.
    intros _. destruct t as [s'|s'| |[] m' e']; cbn; congruence.
  - destruct (zScore st v) as [s|s| |s m e]; try discriminate.
    intros _. now destruct t as [s'|[]| |[] m' e'].
  - apply eqb_not_gtb.
Qed.

(** * Worked examples *)

Lemma DetectAnomalies_zero_stddev_witness :
  let d := GetBaseline newDetector [series "cpu" [5; 5]] in
  let st := {| mean := of_Z 5; stddev := zero;
               currentMean := zero; currentStdDev := zero |} in
  let out := fst (snd (@DetectAnomalies sample_fmt d [series "cpu" [5; 6]] (of_Z 3))) in
  @anomaly_of sample_fmt "cpu" st
     {| DoubleValue := of_Z 6; EndTime := {| seconds := 0; nanos := 0 |} |} ∈ out
  /\ (forall a, a ∈ out -> MetricName a = "cpu"%string ->
                eqb (Value a) (of_Z 5) = false).
Proof.
  intros d st out.
  destruct (@DetectAnomalies_zero_stddev sample_fmt
              [CallGetBaseline [series "cpu" [5; 5]]] d [series "cpu" [5; 6]]
              (of_Z 3) "cpu" st) as [Hflag Hnot]; try reflexivity.
  split; [|exact Hnot].
  apply (Hflag (series "cpu" [5; 6])); try reflexivity.
  - constructor.
  - constructor. constructor.
Defined.

Lemma reachable_stddevs_nonneg_witness :
  exists d st,
    @run_calls sample_fmt newDetector sample_calls = Returns d
    /\ map_lookup (metricsStats d) "mem" = Some st
    /\ (ltb (stddev st) zero = false /\ ltb (currentStdDev st) zero = false)
    /\ geb (stddev st) zero = true /\ geb (currentStdDev st) zero = true.
Proof.
  destruct (@run_calls sample_fmt newDetector sample_calls) as [d|msg] eqn:E;
    [|vm_compute in E; discriminate E].
  destruct (map_lookup (metricsStats d) "mem") as [st|] eqn:Est.
  2: { vm_compute in E. injection E as <-. vm_compute in Est. discriminate Est. }
  exists d, st. split; [reflexivity|]. split; [exact Est|].
  destruct (@reachable_stddevs_nonneg sample_fmt sample_calls d "mem" st E Est)
    as [Hneg Hge].
  split; [exact Hneg|]. apply Hge. repeat constructor.
Defined.

Lemma DetectAnomalies_flags_exceeding_witness :
  let d := sample_detector 100 10 in
  let ms := [series "cpu" [129; 130; 131]] in
  let t := of_Z 3 in
  fst (snd (@DetectAnomalies sample_fmt d ms t))
  = @anomalies_of sample_fmt (metricsStats d) ms t
  /\ (forall st v, is_inf (zScore st v) = true -> is_finite t = true ->
                   exceeds st t v = true)
  /\ (forall st v, is_nan (zScore st v) = true -> exceeds st t v = false)
  /\ (forall st v, eqb (Abs (zScore st v)) t = true -> exceeds st t v = false).
Proof.
  intros d ms t.
  apply (@DetectAnomalies_flags_exceeding sample_fmt d ms t). reflexivity.
Defined.

(** The example of the specification: baseline mean 100 and standard
    deviation 10, threshold 3. Of 129, 130 and 131 only 131 is flagged. *)
Example threshold_boundary :
  let st := {| mean := of_Z 100; stddev := of_Z 10;
               currentMean := zero; currentStdDev := zero |} in
  eqb (zScore st (of_Z 130)) (of_Z 3) = true
  /\ map Value (fst (snd (@DetectAnomalies sample_fmt (sample_detector 100 10)
                            [series "cpu" [129; 130; 131]] (of_Z 3))))
     = [of_Z 131].
Proof. vm_compute. auto. Qed.

(** A sample equal to the mean of a zero-variance baseline has the
    z-score NaN: not finite, and yet not flagged. *)
Lemma nan_zScore_not_flagged :
  let d := GetBaseline newDetector [series "cpu" [5; 5]] in
  let st := {| mean := of_Z 5; stddev := zero;
               currentMean := zero; currentStdDev := zero |} in
  map_lookup (metricsStats d) "cpu" = Some st
  /\ is_finite (of_Z 3) = true
  /\ exceeds_or_not_finite st (of_Z 3) (of_Z 5) = true
  /\ fst (snd (@DetectAnomalies sample_fmt d [series "cpu" [5]] (of_Z 3))) = [].
Proof. vm_compute. auto. Qed.

(** Outside the numbers: a baseline window holding an infinity has the
    standard deviation NaN, which is not [>= 0]. *)
Example infinite_sample_stddev :
  let st := baseline_entry [{| DoubleValue := S754_infinity false;
                               EndTime := {| seconds := 0; nanos := 0 |} |}] in
  stddev st = S754_nan /\ geb (stddev st) zero = false.
Proof. vm_compute. auto. Qed.

(** * The metrics source *)

Lemma wrap64_small (z : Z) : - 2 ^ 63 <= z < 2 ^ 63 -> wrap64 z = z.
Proof.
  unfold wrap64. change (2 ^ 63) with 9223372036854775808.
  change (2 ^ 64) with 18446744073709551616. intros H.
  rewrite Z.mod_small by lia. lia.
Qed.

Lemma wrap64_range (z : Z) : - 2 ^ 63 <= wrap64 z < 2 ^ 63.
Proof.
  unfold wrap64. change (2 ^ 63) with 9223372036854775808.
  change (2 ^ 64) with 18446744073709551616.
  pose proof (Z.mod_pos_bound (z + 9223372036854775808) 18446744073709551616
                ltac:(lia)). lia.
Qed.

Lemma historical_duration (days : Z) :
  0 <= days <= 106751 ->
  mul64 (mul64 (neg64 days) 24) Hour = - (days * 86400) * Second.
Proof.
  intros H. unfold mul64, neg64, Hour, Minute, Second.
  rewrite (wrap64_small (- days)) by (change (2 ^ 63) with 9223372036854775808; lia).
  rewrite (wrap64_small (- days * 24)) by (change (2 ^ 63) with 9223372036854775808; lia).
  rewrite wrap64_small by (change (2 ^ 63) with 9223372036854775808; lia). lia.
Qed.

Lemma recent_duration (minutes : Z) :
  0 <= minutes <= 153722867 ->
  mul64 (neg64 minutes) Minute = - (minutes * 60) * Second.
Proof.
  intros H. unfold mul64, neg64, Minute, Second.
  rewrite (wrap64_small (- minutes)) by (change (2 ^ 63) with 9223372036854775808; lia).
  rewrite wrap64_small by (change (2 ^ 63) with 9223372036854775808; lia). lia.
Qed.

Lemma Unix_Add_seconds (t : Instant) (k : Z) :
  Unix (Add t (- k * Second)) = Unix t - k.
Proof.
  unfold Unix, Add. rewrite Z.div_add by (unfold Second; lia). lia.
Qed.

Lemma fetchHistoricalMetrics_loop_request (client : MetricClient) (projectID : string)
    (filters : GoMap string) (startTime endTime : Instant) (metrics : list string)
    (allTimeSeries : list TimeSeries) (sent : list ListTimeSeriesRequest) :
  fetchHistoricalMetrics_loop client projectID filters startTime endTime metrics
    allTimeSeries sent
  = match metrics with
    | [] => ((allTimeSeries, None), sent)
    | metric :: metrics' =>
        let req := window_request projectID filters startTime endTime metric in
        match client req with
        | (_, Some err) =>
            (([], Some ("could not list time series: " +:+ err)%string), sent ++ [req])
        | (series, None) =>
            fetchHistoricalMetrics_loop client projectID filters startTime endTime
              metrics' (allTimeSeries ++ series) (sent ++ [req])
        end
    end.
Proof.
  destruct metrics as [|metric metrics']; [reflexivity|].
  cbn [fetchHistoricalMetrics_loop]. unfold window_request.
  destruct (map_lookup filters metric); reflexivity.
Qed.

(** The two loops are the same loop. *)
Lemma fetchRecentMetrics_loop_eq (client : MetricClient) (projectID : string)
    (filters : GoMap string) (startTime endTime : Instant) (metrics : list string)
    (allTimeSeries : list TimeSeries) (sent : list ListTimeSeriesRequest) :
  fetchRecentMetrics_loop client projectID filters startTime endTime metrics
    allTimeSeries sent
  = fetchHistoricalMetrics_loop client projectID filters startTime endTime metrics
      allTimeSeries sent.
Proof.
  revert allTimeSeries sent.
  induction metrics as [|metric metrics' IH]; intros allTimeSeries sent; [reflexivity|].
  cbn [fetchRecentMetrics_loop fetchHistoricalMetrics_loop].
  destruct (client _) as [series [err|]]; [reflexivity|apply IH].
Qed.

Lemma fetch_loop_lists (client : MetricClient) (projectID : string)
    (filters : GoMap string) (startTime endTime : Instant) (metrics : list string)
    (allTimeSeries : list TimeSeries) (sent : list ListTimeSeriesRequest) :
  let req := window_request projectID filters startTime endTime in
  Forall (lists client req) metrics ->
  fetchHistoricalMetrics_loop client projectID filters startTime endTime metrics
    allTimeSeries sent
  = ((allTimeSeries ++ flat_map (fun metric => fst (client (req metric))) metrics, None),
     sent ++ map req metrics).
Proof.
  intros req Hok. revert allTimeSeries sent.
  induction Hok as [|metric metrics' Hm _ IH]; intros allTimeSeries sent.
  - cbn. now rewrite !app_nil_r.
  - rewrite fetchHistoricalMetrics_loop_request. cbn zeta. fold req.
    unfold lists in Hm. destruct (client (req metric)) as [series err] eqn:E.
    cbn [snd] in Hm. subst err. rewrite IH. cbn [flat_map map fst].
    rewrite E. cbn [fst]. now rewrite <- !app_assoc.
Qed.

Lemma fetch_loop_fails (client : MetricClient) (projectID : string)
    (filters : GoMap string) (startTime endTime : Instant)
    (pre post : list string) (metric : string) (err : string)
    (allTimeSeries : list TimeSeries) (sent : list ListTimeSeriesRequest) :
  let req := window_request projectID filters startTime endTime in
  Forall (lists client req) pre ->
  snd (client (req metric)) = Some err ->
  fetchHistoricalMetrics_loop client projectID filters startTime endTime
    (pre ++ metric :: post) allTimeSeries sent
  = (([], Some ("could not list time series: " +:+ err)%string),
     sent ++ map req (pre ++ [metric])).
Proof.
  intros req Hok Herr. revert allTimeSeries sent.
  induction Hok as [|m pre' Hm _ IH]; intros allTimeSeries sent.
  - cbn [app]. rewrite fetchHistoricalMetrics_loop_request. cbn zeta. fold req.
    destruct (client (req metric)) as [series e]. cbn [snd] in Herr. subst e.
    reflexivity.
  - cbn [app]. rewrite fetchHistoricalMetrics_loop_request. cbn zeta. fold req.
    unfold lists in Hm. destruct (client (req m)) as [series e].
    cbn [snd] in Hm. subst e. rewrite IH. cbn [map app]. now rewrite <- app_assoc.
Qed.

Lemma fetch_loop_sent (client : MetricClient) (projectID : string)
    (filters : GoMap string) (startTime endTime : Instant) (metrics : list string)
    (allTimeSeries : list TimeSeries) (sent : list ListTimeSeriesRequest)
    (P : ListTimeSeriesRequest -> Prop) :
  Forall P sent ->
  (forall metric, P (window_request projectID filters startTime endTime metric)) ->
  Forall P (snd (fetchHistoricalMetrics_loop client projectID filters startTime endTime
                   metrics allTimeSeries sent)).
Proof.
  intros Hsent HP. revert allTimeSeries sent Hsent.
  induction metrics as [|metric metrics' IH]; intros allTimeSeries sent Hsent.
  - exact Hsent.
  - rewrite fetchHistoricalMetrics_loop_request. cbn zeta.
    assert (Forall P (sent ++ [window_request projectID filters startTime endTime metric]))
      by (apply Forall_app; split; [exact Hsent|constructor; [apply HP|constructor]]).
    destruct (client _) as [series [err|]]; [assumption|now apply IH].
Qed.

(** X1. When the backend lists every metric, both fetchers return the
    series of all the metrics, in the order of the metric names, with no
    error, after one request per metric. *)
Theorem fetch_all_listed (client : MetricClient) (now : Instant) (projectID : string)
    (metrics : list string) (filters : GoMap string) (days minutes : Z) :
  let hist := window_request projectID filters (historical_start now days) now in
  let recent := window_request projectID filters (recent_start now minutes) now in
  (Forall (lists client hist) metrics ->
   fetchHistoricalMetrics client now projectID metrics days filters
   = ((flat_map (fun metric => fst (client (hist metric))) metrics, None),
      map hist metrics))
  /\ (Forall (lists client recent) metrics ->
      fetchRecentMetrics client now projectID metrics minutes filters
      = ((flat_map (fun metric => fst (client (recent metric))) metrics, None),
         map recent metrics)).
Proof.
  intros hist recent. split; intros Hok.
  - unfold fetchHistoricalMetrics. fold (historical_start now days).
    now rewrite fetch_loop_lists.
  - unfold fetchRecentMetrics. fold (recent_start now minutes).
    now rewrite fetchRecentMetrics_loop_eq, fetch_loop_lists.
Qed.

Lemma fetch_all_listed_witness :
  fetchHistoricalMetrics sample_backend 1700000000500000000 "demo"
    ["cpu"; "mem"]%string 7 NilMap
  = (([series "cpu" [10; 20; 30]; series "mem" [7; 7; 8]], None),
     map (window_request "demo" NilMap
            (historical_start 1700000000500000000 7) 1700000000500000000)
         ["cpu"; "mem"]%string)
  /\ fst (fetchRecentMetrics sample_backend 1700000000500000000 "demo"
            ["cpu"; "mem"]%string 60 NilMap)
     = ([series "cpu" [10; 20; 30]; series "mem" [7; 7; 8]], None).
Proof.
  destruct (fetch_all_listed sample_backend 1700000000500000000 "demo"
              ["cpu"; "mem"]%string NilMap 7 60) as [Hh Hr].
  split.
  - rewrite Hh; [reflexivity|]. repeat constructor.
  - rewrite Hr; [reflexivity|]. repeat constructor.
Defined.

(** X2. When the listing of a metric fails, after those of the metrics
    before it succeeded, both fetchers return no series at all and the
    error of that listing, and send no request for the metrics after it. *)
Theorem fetch_first_failure (client : MetricClient) (now : Instant) (projectID : string)
    (pre post : list string) (metric err : string) (filters : GoMap string)
    (days minutes : Z) :
  let hist := window_request projectID filters (historical_start now days) now in
  let recent := window_request projectID filters (recent_start now minutes) now in
  (Forall (lists client hist) pre -> snd (client (hist metric)) = Some err ->
   fetchHistoricalMetrics client now projectID (pre ++ metric :: post) days filters
   = (([], Some ("could not list time series: " +:+ err)%string),
      map hist (pre ++ [metric])))
  /\ (Forall (lists client recent) pre -> snd (client (recent metric)) = Some err ->
      fetchRecentMetrics client now projectID (pre ++ metric :: post) minutes filters
      = (([], Some ("could not list time series: " +:+ err)%string),
         map recent (pre ++ [metric]))).
Proof.
  intros hist recent. split; intros Hok Herr.
  - unfold fetchHistoricalMetrics. fold (historical_start now days).
    now rewrite (fetch_loop_fails _ _ _ _ _ pre post metric err).
  - unfold fetchRecentMetrics. fold (recent_start now minutes).
    now rewrite fetchRecentMetrics_loop_eq, (fetch_loop_fails _ _ _ _ _ pre post metric err).
Qed.

Lemma fetch_first_failure_witness :
  fst (fetchHistoricalMetrics sample_backend 1700000000500000000 "demo"
         ["cpu"; "down"; "mem"]%string 7 NilMap)
  = ([], Some "could not list time series: unavailable"%string)
  /\ length (snd (fetchRecentMetrics sample_backend 1700000000500000000 "demo"
                    ["cpu"; "down"; "mem"]%string 60 NilMap)) = 2%nat.
Proof.
  destruct (fetch_first_failure sample_backend 1700000000500000000 "demo"
              ["cpu"]%string ["mem"]%string "down" "unavailable" NilMap 7 60)
    as [Hh Hr].
  split.
  - cbn [app] in Hh. rewrite Hh; [reflexivity| |reflexivity]. repeat constructor.
  - cbn [app] in Hr. rewrite Hr; [reflexivity| |reflexivity]. repeat constructor.
Defined.

(** X3. For a baseline duration from 0 to 106751 days, every request of
    the historical fetch asks for the window that ends at the second of the
    clock and starts that number of days, of 86400 seconds each, before. *)
Theorem historical_window (client : MetricClient) (now : Instant) (projectID : string)
    (metrics : list string) (filters : GoMap string) (days : Z) :
  0 <= days <= 106751 ->
  Forall (fun req => IntervalEnd req = Unix now
                     /\ IntervalStart req = Unix now - days * 86400)
         (snd (fetchHistoricalMetrics client now projectID metrics days filters)).
Proof.
  intros Hd. unfold fetchHistoricalMetrics.
  apply fetch_loop_sent; [constructor|]. intros metric.
  cbn [window_request IntervalEnd IntervalStart].
  rewrite historical_duration by exact Hd. now rewrite Unix_Add_seconds.
Qed.

Lemma historical_window_witness :
  Forall (fun req => IntervalEnd req = 1700000000
                     /\ IntervalStart req = 1700000000 - 7 * 86400)
         (snd (fetchHistoricalMetrics sample_backend 1700000000500000000 "demo"
                 ["cpu"; "mem"]%string 7 NilMap)).
Proof.
  apply (historical_window sample_backend 1700000000500000000 "demo"
           ["cpu"; "mem"]%string NilMap 7). lia.
Defined.

(** X4. For a recent duration from 0 to 153722867 minutes, every request
    of the recent fetch asks for the window that ends at the second of the
    clock and starts that number of minutes before. *)
Theorem recent_window (client : MetricClient) (now : Instant) (projectID : string)
    (metrics : list string) (filters : GoMap string) (minutes : Z) :
  0 <= minutes <= 153722867 ->
  Forall (fun req => IntervalEnd req = Unix now
                     /\ IntervalStart req = Unix now - minutes * 60)
         (snd (fetchRecentMetrics client now projectID metrics minutes filters)).
Proof.
  intros Hm. unfold fetchRecentMetrics. rewrite fetchRecentMetrics_loop_eq.
  apply fetch_loop_sent; [constructor|]. intros metric.
  cbn [window_request IntervalEnd IntervalStart].
  rewrite recent_duration by exact Hm. now rewrite Unix_Add_seconds.
Qed.

Lemma recent_window_witness :
  Forall (fun req => IntervalEnd req = 1700000000
                     /\ IntervalStart req = 1700000000 - 60 * 60)
         (snd (fetchRecentMetrics sample_backend 1700000000500000000 "demo"
                 ["cpu"; "mem"]%string 60 NilMap)).
Proof.
  apply (recent_window sample_backend 1700000000500000000 "demo"
           ["cpu"; "mem"]%string NilMap 60). lia.
Defined.

(** X5. A baseline duration from 106752 to 213503 days overflows the
    64-bit duration: every request of the historical fetch then asks for a
    window that starts after it ends. *)
Theorem historical_window_overflow (client : MetricClient) (now : Instant)
    (projectID : string) (metrics : list string) (filters : GoMap string) (days : Z) :
  106752 <= days <= 213503 ->
  Forall (fun req => IntervalEnd req < IntervalStart req)
         (snd (fetchHistoricalMetrics client now projectID metrics days filters)).
Proof.
  intros Hd. unfold fetchHistoricalMetrics.
  apply fetch_loop_sent; [constructor|]. intros metric.
  cbn [window_request IntervalEnd IntervalStart].
  unfold mul64, neg64, Hour, Minute.
  rewrite (wrap64_small (- days)) by (change (2 ^ 63) with 9223372036854775808; lia).
  rewrite (wrap64_small (- days * 24)) by (change (2 ^ 63) with 9223372036854775808; lia).
  assert (Hw : wrap64 (- days * 24 * (60 * (60 * Second)))
               = 2 ^ 64 - days * 86400 * Second).
  { unfold wrap64, Second. change (2 ^ 63) with 9223372036854775808.
    change (2 ^ 64) with 18446744073709551616.
    Z.div_mod_to_equations. lia. }
  rewrite Hw. unfold Unix, Add, Second. change (2 ^ 64) with 18446744073709551616.
  Z.div_mod_to_equations. lia.
Qed.

Lemma historical_window_overflow_witness :
  Forall (fun req => IntervalEnd req < IntervalStart req)
         (snd (fetchHistoricalMetrics sample_backend 1700000000500000000 "demo"
                 ["cpu"; "mem"]%string 106752 NilMap)).
Proof.
  apply (historical_window_overflow sample_backend 1700000000500000000 "demo"
           ["cpu"; "mem"]%string NilMap 106752). lia.
Defined.

(** X6. The two fetchers differ in the window only: the recent fetch over
    1440 times as many minutes is the historical fetch over that many days
    (up to 106751). *)
Theorem fetchRecentMetrics_as_historical (client : MetricClient) (now : Instant)
    (projectID : string) (metrics : list string) (filters : GoMap string) (days : Z) :
  0 <= days <= 106751 ->
  fetchRecentMetrics client now projectID metrics (days * 1440) filters
  = fetchHistoricalMetrics client now projectID metrics days filters.
Proof.
  intros Hd. unfold fetchRecentMetrics, fetchHistoricalMetrics.
  rewrite fetchRecentMetrics_loop_eq, historical_duration, recent_duration by lia.
  do 3 f_equal. lia.
Qed.

Lemma fetchRecentMetrics_as_historical_witness :
  fetchRecentMetrics sample_backend 1700000000500000000 "demo"
    ["cpu"; "mem"]%string (7 * 1440) NilMap
  = fetchHistoricalMetrics sample_backend 1700000000500000000 "demo"
      ["cpu"; "mem"]%string 7 NilMap.
Proof.
  apply (fetchRecentMetrics_as_historical sample_backend 1700000000500000000 "demo"
           ["cpu"; "mem"]%string NilMap 7). lia.
Defined.

(** * The polling cycle *)

Lemma has_points_dec (ms : list TimeSeries) : {has_points ms} + {no_points ms}.
Proof.
  induction ms as [|t ms IH].
  - right. constructor.
  - destruct (Points t) as [|p ps] eqn:E.
    + destruct IH as [H|H]; [left; now apply Exists_cons_tl|right; now constructor].
    + left. apply Exists_cons_hd. congruence.
Qed.

Lemma UpdateCurrentStats_loop_nil_no_points (ms : list TimeSeries) :
  no_points ms -> UpdateCurrentStats_loop NilMap ms = Returns NilMap.
Proof.
  induction 1 as [|t ms Ht _ IH]; [reflexivity|].
  cbn [UpdateCurrentStats_loop]. rewrite UpdateCurrentStats_metric_spec, Ht. exact IH.
Qed.

Lemma UpdateCurrentStats_loop_nil_has_points (ms : list TimeSeries) :
  has_points ms ->
  UpdateCurrentStats_loop NilMap ms = Panics "assignment to entry in nil map".
Proof.
  induction ms as [|t ms IH]; intros H; [inversion H|].
  cbn [UpdateCurrentStats_loop]. rewrite UpdateCurrentStats_metric_spec.
  destruct (Points t) as [|p ps] eqn:E; [|reflexivity].
  apply IH. inversion H as [? ? Hne|]; [congruence|assumption].
Qed.

Lemma no_points_not_has_points (ms : list TimeSeries) :
  no_points ms -> has_points ms -> False.
Proof.
  intros Hn Hh. unfold no_points, has_points in *.
  rewrite Forall_forall in Hn. apply Exists_exists in Hh as (t & Hin & Hne).
  apply Hne, Hn, Hin.
Qed.

Lemma UpdateCurrentStats_panics_nil (d : SimpleAnomalyDetector)
    (ms : list TimeSeries) (msg : string) :
  UpdateCurrentStats d ms = Panics msg ->
  metricsStats d = NilMap /\ has_points ms
  /\ msg = "assignment to entry in nil map"%string.
Proof.
  unfold UpdateCurrentStats. destruct (metricsStats d) as [|m].
  - destruct (has_points_dec ms) as [H|H].
    + rewrite (UpdateCurrentStats_loop_nil_has_points ms H). intros [= <-]. auto.
    + now rewrite (UpdateCurrentStats_loop_nil_no_points ms H).
  - now destruct (UpdateCurrentStats_loop_spec ms m) as (m' & -> & _).
Qed.

Lemma UpdateCurrentStats_nil_panics (d : SimpleAnomalyDetector) (ms : list TimeSeries) :
  metricsStats d = NilMap -> has_points ms ->
  UpdateCurrentStats d ms = Panics "assignment to entry in nil map".
Proof.
  intros Hd Hp. unfold UpdateCurrentStats.
  now rewrite Hd, (UpdateCurrentStats_loop_nil_has_points ms Hp).
Qed.

(** X15. [UpdateCurrentStats] panics exactly when the mapping is the nil
    map and some series of the batch has points; the panic is that of the
    store into a nil map. *)
Theorem UpdateCurrentStats_panics_iff (d : SimpleAnomalyDetector)
    (ms : list TimeSeries) (msg : string) :
  UpdateCurrentStats d ms = Panics msg
  <-> metricsStats d = NilMap /\ has_points ms
      /\ msg = "assignment to entry in nil map"%string.
Proof.
  split; [apply UpdateCurrentStats_panics_nil|].
  intros (Hd & Hp & ->). now apply UpdateCurrentStats_nil_panics.
Qed.

Section Cycle.

Context {fmt : GoFmt}.

Lemma DetectAnomalies_report (d : SimpleAnomalyDetector) (ms : list TimeSeries)
    (t : float64) :
  initialised d = true ->
  zScores (fst (DetectAnomalies d ms t)) = Map (zScores_of (metricsStats d) ms).
Proof.
  intros Hi. unfold DetectAnomalies. rewrite Hi. cbn [negb].
  pose proof (DetectAnomalies_metric_report (metricsStats d) t ms [] ∅) as H.
  destruct (fold_left _ ms ([], ∅)) as [an zs]. cbn [fst snd zScores] in *.
  now rewrite H.
Qed.

Lemma processMetrics_failed (w : World) (config : Config)
    (d : SimpleAnomalyDetector) (err : string) :
  snd (recent_fetch w config) = Some err ->
  processMetrics w config d = Returns (d, []).
Proof.
  unfold processMetrics, recent_fetch.
  destruct (fst (fetchRecentMetrics _ _ _ _ _ _)) as [batch e]. cbn [snd].
  now intros ->.
Qed.

Lemma processMetrics_fetched (w : World) (config : Config)
    (d : SimpleAnomalyDetector) (batch : list TimeSeries) :
  recent_fetch w config = (batch, None) ->
  processMetrics w config d
  = match UpdateCurrentStats d batch with
    | Panics msg => Panics msg
    | Returns d1 =>
        if initialised d1
        then Returns ({| metricsStats := metricsStats d1;
                         initialised := true;
                         zScores := Map (zScores_of (metricsStats d1) batch) |},
                      map anomaly_line
                          (anomalies_of (metricsStats d1) batch (ZScoreThreshold config)))
        else Returns (d1, [])
    end.
Proof.
  unfold processMetrics, recent_fetch. intros ->.
  destruct (UpdateCurrentStats d batch) as [d1|msg]; [|reflexivity].
  destruct (initialised d1) eqn:Hi.
  - pose proof (DetectAnomalies_returns d1 batch (ZScoreThreshold config) Hi) as Hr.
    pose proof (DetectAnomalies_frame d1 batch (ZScoreThreshold config)) as [Hm Hf].
    pose proof (DetectAnomalies_report d1 batch (ZScoreThreshold config) Hi) as Hz.
    destruct (DetectAnomalies d1 batch (ZScoreThreshold config)) as [d2 [an e]].
    cbn [fst snd] in *. injection Hr as -> ->.
    destruct d2 as [ms2 i2 z2]. cbn in *. subst. now rewrite Hi.
  - now rewrite (DetectAnomalies_flag_down d1 batch (ZScoreThreshold config) Hi).
Qed.


(** X7. When the backend fails to list one of the configured metrics, the
    cycle leaves the detector as it is and prints nothing, whatever the
    detector, even one that was never initialised. *)
Theorem processMetrics_backend_failure (w : World) (config : Config)
    (d : SimpleAnomalyDetector) (pre post : list string) (metric err : string) :
  let req := window_request (ProjectID config) (Filters config)
               (recent_start (now w) (RecentDuration config)) (now w) in
  Metrics config = pre ++ metric :: post ->
  Forall (lists (backend w) req) pre ->
  snd (backend w (req metric)) = Some err ->
  processMetrics w config d = Returns (d, []).
Proof.
  intros req Hm Hpre Herr.
  apply (processMetrics_failed w config d ("could not list time series: " +:+ err)).
  unfold recent_fetch, fetchRecentMetrics. rewrite Hm.
  fold (recent_start (now w) (RecentDuration config)).
  now rewrite fetchRecentMetrics_loop_eq,
    (fetch_loop_fails _ _ _ _ _ pre post metric err [] [] Hpre Herr).
Qed.

(** X8. A cycle panics exactly when its fetch succeeds with a batch in
    which some series has points while the mapping of the detector is the
    nil map: on such a detector the cycle never gets to the check of the
    flag in [DetectAnomalies]. *)
Theorem processMetrics_panics_iff (w : World) (config : Config)
    (d : SimpleAnomalyDetector) (msg : string) :
  processMetrics w config d = Panics msg
  <-> exists batch, recent_fetch w config = (batch, None)
        /\ metricsStats d = NilMap /\ has_points batch
        /\ msg = "assignment to entry in nil map"%string.
Proof.
  destruct (recent_fetch w config) as [batch [err|]] eqn:E.
  - rewrite (processMetrics_failed w config d err) by now rewrite E.
    split; [discriminate|]. intros (b & [=] & _).
  - rewrite (processMetrics_fetched w config d batch E).
    destruct (UpdateCurrentStats d batch) as [d1|msg'] eqn:Eu.
    + split.
      * destruct (initialised d1); discriminate.
      * intros (b & [= <-] & Hnil & Hp & ->).
        rewrite (UpdateCurrentStats_nil_panics d batch Hnil Hp) in Eu. discriminate.
    + apply UpdateCurrentStats_panics_nil in Eu as (Hnil & Hp & ->). split.
      * intros [= <-]. exists batch. auto.
      * intros (b & _ & _ & _ & ->). reflexivity.
Qed.

Lemma last_window_is_Some (k : string) (ms : list TimeSeries) (t : TimeSeries) :
  t ∈ ms -> MetricType t = k -> Points t <> [] -> is_Some (last_window k ms).
Proof.
  intros Hin Hk Hp. induction ms as [|t' ms IH]; [inversion Hin|].
  rewrite last_window_cons. apply elem_of_cons in Hin as [<-|Hin].
  - destruct (last_window k ms); [eauto|].
    assert (has_window k t = true) as -> by (apply has_window_true; auto). eauto.
  - destruct (IH Hin) as [w ->]. eauto.
Qed.

(** X9. In a cycle, a metric that has samples but no entry yet is not
    left out of the detection: [UpdateCurrentStats] first gives it a zero
    baseline, so every sample of it that is a number other than zero is
    printed as an anomaly, whatever the finite threshold. *)
Theorem processMetrics_flags_unknown_metric (w : World) (config : Config)
    (d : SimpleAnomalyDetector) (m : gmap string MetricStats)
    (batch : list TimeSeries) (series : TimeSeries) (point : Point) :
  metricsStats d = Map m -> initialised d = true ->
  m !! MetricType series = None ->
  recent_fetch w config = (batch, None) ->
  series ∈ batch -> point ∈ Points series ->
  real (DoubleValue point) = true -> eqb (DoubleValue point) zero = false ->
  is_finite (ZScoreThreshold config) = true ->
  exists d' lines a,
    processMetrics w config d = Returns (d', lines)
    /\ anomaly_line a ∈ lines
    /\ MetricName a = MetricType series /\ Value a = DoubleValue point
    /\ Timestamp a = EndTime point.
Proof.
  intros Hd Hi Hnone Hfetch Hin Hp Hv Hne Ht.
  rewrite (processMetrics_fetched w config d batch Hfetch).
  unfold UpdateCurrentStats. rewrite Hd.
  destruct (UpdateCurrentStats_loop_spec batch m) as (m' & -> & Hm').
  cbn [initialised metricsStats]. rewrite Hi.
  assert (Hpts : Points series <> []) by (intros E; rewrite E in Hp; inversion Hp).
  destruct (last_window_is_Some (MetricType series) batch series Hin eq_refl Hpts)
    as [win Hwin].
  pose proof (Hm' (MetricType series)) as Hst. rewrite Hwin, Hnone in Hst.
  eexists _, _, (anomaly_of (MetricType series) (current_entry None win) point).
  split; [reflexivity|]. split; [|auto].
  apply list_elem_of_fmap_2, elem_of_anomalies_of.
  exists series, (current_entry None win), point.
  repeat split; try assumption.
  unfold exceeds, zScore. cbn [current_entry default zeroMetricStats mean stddev].
  rewrite (zscore_zero_stddev_ne_inf _ zero zero Hv eq_refl eq_refl eq_refl Hne).
  now apply gtb_inf_finite.
Qed.

(** What a cycle keeps, on a detector with an allocated mapping: it
    returns, the mapping stays allocated, the flag stays, and every entry
    keeps its baseline. *)
Lemma processMetrics_allocated (w : World) (config : Config)
    (d : SimpleAnomalyDetector) (m : gmap string MetricStats) :
  metricsStats d = Map m ->
  exists d' lines m',
    processMetrics w config d = Returns (d', lines)
    /\ metricsStats d' = Map m' /\ initialised d' = initialised d
    /\ forall k st, m !! k = Some st ->
         exists st', m' !! k = Some st'
                     /\ mean st' = mean st /\ stddev st' = stddev st.
Proof.
  intros Hd. destruct (recent_fetch w config) as [batch [err|]] eqn:E.
  - rewrite (processMetrics_failed w config d err) by now rewrite E.
    exists d, [], m. repeat split; eauto.
  - rewrite (processMetrics_fetched w config d batch E).
    unfold UpdateCurrentStats. rewrite Hd.
    destruct (UpdateCurrentStats_loop_spec batch m) as (m' & -> & Hm').
    cbn [initialised metricsStats].
    assert (Hkeep : forall k st, m !! k = Some st ->
              exists st', m' !! k = Some st'
                          /\ mean st' = mean st /\ stddev st' = stddev st).
    { intros k st Hst. rewrite Hm', Hst.
      destruct (last_window k batch); eauto. }
    destruct (initialised d); eexists _, _, m'; repeat split; eauto.
Qed.

Lemma main_loop_allocated (ticks : list World) (config : Config)
    (d : SimpleAnomalyDetector) (m : gmap string MetricStats) (printed : list string) :
  metricsStats d = Map m ->
  exists d' out m',
    main_loop ticks config d printed = Polling d' out
    /\ metricsStats d' = Map m' /\ initialised d' = initialised d
    /\ forall k st, m !! k = Some st ->
         exists st', m' !! k = Some st'
                     /\ mean st' = mean st /\ stddev st' = stddev st.
Proof.
  revert d m printed. induction ticks as [|w ticks IH]; intros d m printed Hd.
  - exists d, printed, m. repeat split; eauto.
  - cbn [main_loop].
    destruct (processMetrics_allocated w config d m Hd)
      as (d1 & lines & m1 & -> & Hd1 & Hi1 & Hk1).
    destruct (IH d1 m1 (printed ++ lines) Hd1) as (d' & out & m' & -> & Hd' & Hi' & Hk').
    exists d', out, m'. repeat split; [assumption|congruence|].
    intros k st Hst. destruct (Hk1 k st Hst) as (st1 & Hst1 & <- & <-).
    exact (Hk' k st1 Hst1).
Qed.

End Cycle.

(** * The driver *)

Section Main.

Context {fmt : GoFmt}.

(** [main], once the configuration is loaded, the client created and the
    historical metrics fetched. *)
Lemma main_started (config : Config) (startup first : World) (ticks : list World)
    (hist : list TimeSeries) :
  historical_fetch startup config = (hist, None) ->
  main (inl config) None startup first ticks
  = match processMetrics first config (GetBaseline newDetector hist) with
    | Panics msg => Panicked msg
    | Returns (detector, lines) =>
        if mul64 (PollingTime config) Second <=? 0
        then Panicked "non-positive interval for NewTicker"
        else main_loop ticks config detector lines
    end.
Proof.
  unfold historical_fetch, effective_baseline, main. now intros ->.
Qed.

Lemma main_loop_app (t1 t2 : list World) (config : Config)
    (d : SimpleAnomalyDetector) (printed : list string) :
  main_loop (t1 ++ t2) config d printed
  = match main_loop t1 config d printed with
    | Polling d' out => main_loop t2 config d' out
    | other => other
    end.
Proof.
  revert d printed. induction t1 as [|w t1 IH]; intros d printed; [reflexivity|].
  cbn [app main_loop]. destruct (processMetrics w config d) as [[d1 lines]|msg];
    [apply IH|reflexivity].
Qed.

(** X10. The only panic of [main] is that of [time.NewTicker] on a
    polling interval that is not positive: no cycle of [main] ever panics,
    since the baseline is computed before the first cycle. *)
Theorem main_panics_only_on_ticker (load : Config + string) (newClient : error)
    (startup first : World) (ticks : list World) (msg : string) :
  main load newClient startup first ticks = Panicked msg ->
  msg = "non-positive interval for NewTicker"%string
  /\ exists config, load = inl config /\ mul64 (PollingTime config) Second <= 0.
Proof.
  destruct load as [config|err]; [|discriminate].
  destruct newClient as [err|]; [discriminate|].
  destruct (historical_fetch startup config) as [hist [err|]] eqn:E.
  - unfold historical_fetch, effective_baseline in E. unfold main. rewrite E. discriminate.
  - rewrite (main_started config startup first ticks hist E).
    destruct (processMetrics_allocated first config (GetBaseline newDetector hist) _ eq_refl)
      as (d1 & lines & m1 & -> & Hd1 & _ & _).
    destruct (mul64 (PollingTime config) Second <=? 0) eqn:Ep.
    + intros [= <-]. split; [reflexivity|]. exists config. split; [reflexivity|lia].
    + destruct (main_loop_allocated ticks config d1 m1 lines Hd1) as (d' & out & m' & -> & _).
      discriminate.
Qed.

(** Beyond the range of [int64], towards minus infinity, a product comes
    back raised by [2 ^ 64]. *)
Lemma wrap64_wraps (z : Z) : - 2 ^ 64 <= z < - 2 ^ 63 -> wrap64 z = z + 2 ^ 64.
Proof.
  unfold wrap64. change (2 ^ 63) with 9223372036854775808.
  change (2 ^ 64) with 18446744073709551616. intros H.
  Z.div_mod_to_equations. lia.
Qed.

(** X11. Once started, [main] runs the first cycle and then panics in
    [time.NewTicker] exactly when the [int64] product of the polling time
    and [time.Second] is zero or negative, and goes on polling when it is
    positive. So it polls for a polling time from 1 to 9223372036 seconds;
    it panics for one from -9223372036 to 0 (zero as when it is left out of
    the configuration); and for one from -18446744073 to -9223372037 the
    product wraps around to a positive interval and [main] polls. *)
Theorem main_polling_time (config : Config) (startup first : World)
    (ticks : list World) :
  snd (historical_fetch startup config) = None ->
  (1 <= PollingTime config <= 9223372036 ->
   exists d out, main (inl config) None startup first ticks = Polling d out)
  /\ (-9223372036 <= PollingTime config <= 0 ->
      main (inl config) None startup first ticks
      = Panicked "non-positive interval for NewTicker")
  /\ (-18446744073 <= PollingTime config <= -9223372037 ->
      exists d out, main (inl config) None startup first ticks = Polling d out)
  /\ (main (inl config) None startup first ticks
      = Panicked "non-positive interval for NewTicker"
      <-> mul64 (PollingTime config) Second <= 0)
  /\ ((exists d out, main (inl config) None startup first ticks = Polling d out)
      <-> 0 < mul64 (PollingTime config) Second).
Proof.
  intros Hh. destruct (historical_fetch startup config) as [hist err] eqn:E.
  cbn [snd] in Hh. subst err.
  rewrite (main_started config startup first ticks hist E).
  destruct (processMetrics_allocated first config (GetBaseline newDetector hist) _ eq_refl)
    as (d1 & lines & m1 & -> & Hd1 & _ & _).
  destruct (main_loop_allocated ticks config d1 m1 lines Hd1) as (d' & out & m' & -> & _).
  unfold mul64, Second. repeat split.
  - intros Hp.
    rewrite wrap64_small by (change (2 ^ 63) with 9223372036854775808; lia).
    destruct (Z.leb_spec (PollingTime config * 1000000000) 0); [lia|]. eauto.
  - intros Hp.
    rewrite wrap64_small by (change (2 ^ 63) with 9223372036854775808; lia).
    destruct (Z.leb_spec (PollingTime config * 1000000000) 0); [reflexivity|lia].
  - intros Hp.
    rewrite wrap64_wraps
      by (change (2 ^ 63) with 9223372036854775808;
          change (2 ^ 64) with 18446744073709551616; lia).
    change (2 ^ 64) with 18446744073709551616.
    destruct (Z.leb_spec (PollingTime config * 1000000000 + 18446744073709551616) 0);
      [lia|]. eauto.
  - destruct (Z.leb_spec (wrap64 (PollingTime config * 1000000000)) 0);
      [easy|discriminate].
  - intros Hp.
    destruct (Z.leb_spec (wrap64 (PollingTime config * 1000000000)) 0);
      [reflexivity|lia].
  - destruct (Z.leb_spec (wrap64 (PollingTime config * 1000000000)) 0);
      [intros (d0 & out0 & H0); discriminate H0|easy].
  - intros Hp.
    destruct (Z.leb_spec (wrap64 (PollingTime config * 1000000000)) 0); [lia|eauto].
Qed.

(** X12. While [main] polls, the flag is up and every entry [GetBaseline]
    made from the historical fetch has the mean and the standard deviation
    it was given at the start, whatever the cycles since. For a metric
    type, these are the arithmetic mean and the population standard
    deviation of the values of the last series of that type with points in
    the historical fetch (here [ts], of fewer than [2 ^ 53] points); the
    earlier series of the same type do not count. *)
Theorem main_keeps_baseline (config : Config) (newClient : error)
    (startup first : World) (ticks : list World)
    (d : SimpleAnomalyDetector) (out : list string)
    (pre post : list TimeSeries) (ts : TimeSeries) :
  main (inl config) newClient startup first ticks = Polling d out ->
  fst (historical_fetch startup config) = pre ++ ts :: post ->
  Points ts <> [] -> Z.of_nat (length (Points ts)) < 2 ^ 53 ->
  no_samples (MetricType ts) post ->
  initialised d = true
  /\ (exists st, map_lookup (metricsStats d) (MetricType ts) = Some st
        /\ mean st = arithmetic_mean (values (Points ts))
        /\ stddev st = population_stddev (values (Points ts)))
  /\ (forall k st0,
        map_lookup (metricsStats (GetBaseline newDetector (pre ++ ts :: post))) k
        = Some st0 ->
        exists st, map_lookup (metricsStats d) k = Some st
                   /\ mean st = mean st0 /\ stddev st = stddev st0).
Proof.
  intros Hmain Hhist Hne Hlen Hpost.
  destruct newClient as [err|]; [discriminate|].
  destruct (historical_fetch startup config) as [hist [err|]] eqn:E.
  { unfold historical_fetch, effective_baseline in E. unfold main in Hmain.
    rewrite E in Hmain. discriminate. }
  cbn [fst] in Hhist. subst hist.
  rewrite (main_started config startup first ticks _ E) in Hmain.
  destruct (processMetrics_allocated first config
              (GetBaseline newDetector (pre ++ ts :: post)) _ eq_refl)
    as (d1 & lines & m1 & Hp & Hd1 & Hi1 & Hk1).
  rewrite Hp in Hmain.
  destruct (mul64 (PollingTime config) Second <=? 0); [discriminate|].
  destruct (main_loop_allocated ticks config d1 m1 lines Hd1)
    as (d' & out' & m' & Hl & Hd' & Hi' & Hk').
  rewrite Hl in Hmain. injection Hmain as <- <-.
  assert (Hkeep : forall k st0,
            map_lookup (metricsStats (GetBaseline newDetector (pre ++ ts :: post))) k
            = Some st0 ->
            exists st, map_lookup (metricsStats d') k = Some st
                       /\ mean st = mean st0 /\ stddev st = stddev st0).
  { intros k st0 Hst0. cbn [GetBaseline metricsStats map_lookup] in Hst0.
    destruct (Hk1 _ _ Hst0) as (st1 & Hst1 & Hm1 & Hs1).
    destruct (Hk' _ _ Hst1) as (st' & Hst' & Hm' & Hs').
    exists st'. rewrite Hd'. cbn [map_lookup]. split; [exact Hst'|].
    now rewrite Hm', Hm1, Hs', Hs1. }
  split; [now rewrite Hi', Hi1|]. split; [|exact Hkeep].
  pose proof (GetBaseline_lookup (pre ++ ts :: post) ∅ (MetricType ts)) as Hb.
  rewrite (last_window_last _ pre post ts eq_refl Hne Hpost) in Hb.
  destruct (Hkeep _ _ Hb) as (st & Hst & Hm & Hs).
  exists st. split; [exact Hst|].
  rewrite Hm, Hs. cbn [baseline_entry mean stddev].
  now rewrite window_mean_small, window_stddev_small.
Qed.
(** X13. A tick whose fetch fails changes nothing in the run of [main]:
    the outcome is the one without that tick. *)
Theorem main_skips_failed_tick (config : Config) (newClient : error)
    (startup first w : World) (t1 t2 : list World) (err : string) :
  snd (recent_fetch w config) = Some err ->
  main (inl config) newClient startup first (t1 ++ w :: t2)
  = main (inl config) newClient startup first (t1 ++ t2).
Proof.
  intros Hw. unfold main. destruct newClient; [reflexivity|].
  destruct (fst (fetchHistoricalMetrics _ _ _ _ _ _)) as [hist [e|]]; [reflexivity|].
  destruct (processMetrics first config _) as [[d1 lines]|]; [|reflexivity].
  destruct (_ <=? 0); [reflexivity|].
  rewrite !main_loop_app.
  destruct (main_loop t1 config d1 lines) as [| |d' out]; try reflexivity.
  cbn [main_loop]. now rewrite (processMetrics_failed w config d' err Hw), app_nil_r.
Qed.

End Main.

Lemma processMetrics_backend_failure_witness :
  @processMetrics sample_fmt sample_world
    {| Metrics := ["cpu"; "down"; "mem"]%string; PollingTime := 60;
       ProjectID := "demo"; BaselineDuration := 0; RecentDuration := 60;
       Filters := NilMap; ZScoreThreshold := of_Z 3 |} newDetector
  = Returns (newDetector, []).
Proof.
  apply (@processMetrics_backend_failure sample_fmt sample_world _ newDetector
           ["cpu"]%string ["mem"]%string "down" "unavailable").
  - reflexivity.
  - repeat constructor.
  - reflexivity.
Defined.

Lemma processMetrics_flags_unknown_metric_witness :
  exists d' lines a,
    @processMetrics sample_fmt sample_world sample_config (sample_detector 100 10)
    = Returns (d', lines)
    /\ @anomaly_line sample_fmt a ∈ lines
    /\ MetricName a = "mem"%string /\ Value a = of_Z 8
    /\ Timestamp a = {| seconds := 0; nanos := 0 |}.
Proof.
  apply (@processMetrics_flags_unknown_metric sample_fmt sample_world sample_config
           (sample_detector 100 10) _
           [series "cpu" [10; 20; 30]; series "mem" [7; 7; 8]]
           (series "mem" [7; 7; 8])
           {| DoubleValue := of_Z 8; EndTime := {| seconds := 0; nanos := 0 |} |}
           eq_refl eq_refl).
  - reflexivity.
  - reflexivity.
  - constructor. constructor.
  - constructor. constructor. constructor.
  - reflexivity.
  - reflexivity.
  - reflexivity.
Defined.

Lemma main_panics_only_on_ticker_witness :
  "non-positive interval for NewTicker"%string = "non-positive interval for NewTicker"%string
  /\ exists config,
       @inl Config string sample_config_no_polling = inl config
       /\ mul64 (PollingTime config) Second <= 0.
Proof.
  apply (@main_panics_only_on_ticker sample_fmt (inl sample_config_no_polling) None
           sample_world sample_world []).
  reflexivity.
Defined.

Lemma main_polling_time_witness :
  (exists d out, @main sample_fmt (inl sample_config) None sample_world sample_world
                   [sample_world] = Polling d out)
  /\ @main sample_fmt (inl sample_config_no_polling) None sample_world sample_world
       [sample_world]
     = Panicked "non-positive interval for NewTicker"
  /\ (exists d out, @main sample_fmt (inl sample_config_wrapping) None sample_world
                      sample_world [sample_world] = Polling d out).
Proof.
  split; [|split].
  - apply (proj1 (@main_polling_time sample_fmt sample_config sample_world sample_world
                    [sample_world] eq_refl)). cbn. lia.
  - apply (proj1 (proj2 (@main_polling_time sample_fmt sample_config_no_polling
                           sample_world sample_world [sample_world] eq_refl))).
    cbn. lia.
  - apply (proj1 (proj2 (proj2 (@main_polling_time sample_fmt sample_config_wrapping
                                  sample_world sample_world [sample_world] eq_refl)))).
    cbn. lia.
Defined.

Lemma main_keeps_baseline_witness :
  exists d out,
    @main sample_fmt (inl sample_config) None sample_world sample_world
      [sample_world; sample_world] = Polling d out
    /\ initialised d = true
    /\ (exists st, map_lookup (metricsStats d) "cpu" = Some st
          /\ mean st = arithmetic_mean [of_Z 10; of_Z 20; of_Z 30]
          /\ stddev st = population_stddev [of_Z 10; of_Z 20; of_Z 30])
    /\ (forall k st0,
          map_lookup (metricsStats (GetBaseline newDetector
                        [series "cpu" [10; 20; 30]; series "mem" [7; 7; 8]])) k
          = Some st0 ->
          exists st, map_lookup (metricsStats d) k = Some st
                     /\ mean st = mean st0 /\ stddev st = stddev st0).
Proof.
  destruct (@main sample_fmt (inl sample_config) None sample_world sample_world
              [sample_world; sample_world]) as [| |d out] eqn:E;
    [vm_compute in E; discriminate E|vm_compute in E; discriminate E|].
  exists d, out. split; [reflexivity|].
  apply (@main_keeps_baseline sample_fmt sample_config None sample_world sample_world
           [sample_world; sample_world] d out []
           [series "mem" [7; 7; 8]] (series "cpu" [10; 20; 30]) E).
  - reflexivity.
  - discriminate.
  - reflexivity.
  - constructor; [intros H; discriminate H|constructor].
Defined.

Lemma main_skips_failed_tick_witness :
  @main sample_fmt (inl sample_config) None sample_world sample_world
    ([sample_world] ++ sample_world_down :: [sample_world])
  = @main sample_fmt (inl sample_config) None sample_world sample_world
      ([sample_world] ++ [sample_world]).
Proof.
  apply (@main_skips_failed_tick sample_fmt sample_config None sample_world sample_world
           sample_world_down [sample_world] [sample_world]
           "could not list time series: unavailable").
  reflexivity.
Defined.

(** * More on the three methods *)

Lemma gtb_nan_threshold (x t : float64) : is_nan t = true -> gtb x t = false.
Proof. destruct t; try discriminate. reflexivity. Qed.

Lemma gtb_pinf_threshold (x : float64) : gtb x (S754_infinity false) = false.
Proof. destruct x as [s|[]| |[] m e]; reflexivity. Qed.

Lemma gtb_Abs_negative (z t : float64) :
  ltb t zero = true -> is_nan z = false -> gtb (Abs z) t = true.
Proof.
  destruct t as [s|[]| |[] m e]; try discriminate;
    destruct z as [s'|s'| |s' m' e']; try discriminate; reflexivity.
Qed.

(** [<] follows from [<=] and [<]. *)
Lemma leb_ltb_trans (x y z : float64) :
  leb x y = true -> ltb y z = true -> ltb x z = true.
Proof.
  unfold leb, ltb, SFleb, SFltb.
  destruct x as [sx|sx| |sx mx ex], y as [sy|sy| |sy my ey], z as [sz|sz| |sz mz ez];
    cbn [SFcompare]; try discriminate;
    repeat match goal with b : bool |- _ => destruct b end;
    try discriminate; try reflexivity.
  all: fold (Pos.compare mx my); fold (Pos.compare my mz); fold (Pos.compare mx mz).
  all: destruct (Z.compare_spec ex ey), (Z.compare_spec ey ez), (Z.compare_spec ex ez);
    try lia; try discriminate; try reflexivity; subst.
  all: destruct (Pos.compare_spec mx my), (Pos.compare_spec my mz),
         (Pos.compare_spec mx mz); cbn; try lia; try discriminate; try reflexivity.
Qed.

Lemma last_window_is_Some_inv (k : string) (ms : list TimeSeries) :
  is_Some (last_window k ms) ->
  exists t, t ∈ ms /\ MetricType t = k /\ Points t <> [].
Proof.
  intros [w Hw]. apply last_window_elem in Hw as (Hne & t & Hin & Hk & <-). eauto.
Qed.

(** X14. After [GetBaseline] a metric has an entry exactly when some
    series of the batch of its type has points, whatever the detector held
    before; and every entry starts with both current statistics at zero. *)
Theorem GetBaseline_entries_iff (d : SimpleAnomalyDetector) (ms : list TimeSeries)
    (k : string) :
  (is_Some (map_lookup (metricsStats (GetBaseline d ms)) k)
   <-> exists t, t ∈ ms /\ MetricType t = k /\ Points t <> [])
  /\ (forall st, map_lookup (metricsStats (GetBaseline d ms)) k = Some st ->
        currentMean st = zero /\ currentStdDev st = zero).
Proof.
  cbn [GetBaseline metricsStats map_lookup]. rewrite GetBaseline_lookup.
  split; [split|].
  - destruct (last_window k ms) as [w|] eqn:E.
    + intros _. apply last_window_is_Some_inv. rewrite E. eauto.
    + rewrite lookup_empty. intros [? [=]].
  - intros (t & Hin & Hk & Hp).
    destruct (last_window_is_Some k ms t Hin Hk Hp) as [w ->]. eauto.
  - destruct (last_window k ms) as [w|]; [|now rewrite lookup_empty].
    intros st [= <-]. auto.
Qed.

Lemma GetBaseline_entries_iff_witness :
  is_Some (map_lookup (metricsStats (GetBaseline (sample_detector 100 10)
                                       [series "mem" [7; 7; 8]; series "cpu" []])) "mem")
  /\ currentMean (baseline_entry (Points (series "mem" [7; 7; 8]))) = zero.
Proof.
  destruct (GetBaseline_entries_iff (sample_detector 100 10)
              [series "mem" [7; 7; 8]; series "cpu" []] "mem") as [[_ Hdom] Hzero].
  split.
  - apply Hdom. exists (series "mem" [7; 7; 8]).
    split; [constructor|]. split; [reflexivity|discriminate].
  - apply (Hzero (baseline_entry (Points (series "mem" [7; 7; 8])))). reflexivity.
Defined.

(** X16. When [UpdateCurrentStats] returns, every entry is still there
    with the baseline mean and standard deviation it had, and the flag and
    the z-score report are as they were. *)
Theorem UpdateCurrentStats_keeps_baseline (d d' : SimpleAnomalyDetector)
    (ms : list TimeSeries) :
  UpdateCurrentStats d ms = Returns d' ->
  initialised d' = initialised d /\ zScores d' = zScores d
  /\ forall k st, map_lookup (metricsStats d) k = Some st ->
       exists st', map_lookup (metricsStats d') k = Some st'
                   /\ mean st' = mean st /\ stddev st' = stddev st.
Proof.
  unfold UpdateCurrentStats. destruct (metricsStats d) as [|m] eqn:Em.
  - destruct (UpdateCurrentStats_loop NilMap ms); [|discriminate].
    intros [= <-]. repeat split; try reflexivity. intros k st [=].
  - destruct (UpdateCurrentStats_loop_spec ms m) as (m' & -> & Hm').
    intros [= <-]. repeat split; try reflexivity.
    intros k st Hst. cbn [metricsStats map_lookup] in *. rewrite Hm', Hst.
    destruct (last_window k ms); eauto.
Qed.

Lemma UpdateCurrentStats_keeps_baseline_witness :
  exists d', UpdateCurrentStats (sample_detector 100 10) [series "cpu" [11; 12]] = Returns d'
    /\ initialised d' = true
    /\ exists st', map_lookup (metricsStats d') "cpu" = Some st'
         /\ mean st' = of_Z 100 /\ stddev st' = of_Z 10.
Proof.
  destruct (UpdateCurrentStats (sample_detector 100 10) [series "cpu" [11; 12]])
    as [d'|msg] eqn:E; [|vm_compute in E; discriminate E].
  exists d'. split; [reflexivity|].
  destruct (UpdateCurrentStats_keeps_baseline _ _ _ E) as (Hi & _ & Hk).
  split; [exact Hi|]. exact (Hk "cpu"%string _ eq_refl).
Defined.

(** X17. For a metric that has an entry, [UpdateCurrentStats] with samples
    for it replaces both current statistics by the mean and the population
    standard deviation of the window, whatever they were, and keeps the
    baseline. *)
Theorem UpdateCurrentStats_known_metric (d : SimpleAnomalyDetector)
    (pre post : list TimeSeries) (ts : TimeSeries) (st : MetricStats) :
  map_lookup (metricsStats d) (MetricType ts) = Some st ->
  Points ts <> [] ->
  Z.of_nat (length (Points ts)) < 2 ^ 53 ->
  no_samples (MetricType ts) post ->
  exists d', UpdateCurrentStats d (pre ++ ts :: post) = Returns d'
             /\ map_lookup (metricsStats d') (MetricType ts)
                = Some {| mean := mean st; stddev := stddev st;
                          currentMean := arithmetic_mean (values (Points ts));
                          currentStdDev := population_stddev (values (Points ts)) |}.
Proof.
  intros Hst Hne Hlen Hpost. unfold UpdateCurrentStats.
  destruct (metricsStats d) as [|m]; [discriminate|]. cbn [map_lookup] in Hst.
  destruct (UpdateCurrentStats_loop_spec (pre ++ ts :: post) m) as (m' & -> & Hm').
  eexists. split; [reflexivity|]. cbn [metricsStats map_lookup].
  rewrite Hm', (last_window_last _ pre post ts eq_refl Hne Hpost), Hst.
  unfold current_entry. cbn [default].
  now rewrite window_mean_small, window_stddev_small.
Qed.

Lemma UpdateCurrentStats_known_metric_witness :
  exists d', UpdateCurrentStats (sample_detector 100 10) [series "cpu" [10; 20; 30]]
             = Returns d'
             /\ map_lookup (metricsStats d') "cpu"
                = Some {| mean := of_Z 100; stddev := of_Z 10;
                          currentMean := arithmetic_mean [of_Z 10; of_Z 20; of_Z 30];
                          currentStdDev := population_stddev [of_Z 10; of_Z 20; of_Z 30] |}.
Proof.
  apply (UpdateCurrentStats_known_metric (sample_detector 100 10) [] []
           (series "cpu" [10; 20; 30])
           {| mean := of_Z 100; stddev := of_Z 10;
              currentMean := zero; currentStdDev := zero |}).
  - reflexivity.
  - discriminate.
  - reflexivity.
  - constructor.
Defined.

Section MoreDetection.

Context {fmt : GoFmt}.

Lemma DetectAnomalies_anomalies (d : SimpleAnomalyDetector) (ms : list TimeSeries)
    (t : float64) :
  fst (snd (DetectAnomalies d ms t))
  = if initialised d then anomalies_of (metricsStats d) ms t else [].
Proof.
  destruct (initialised d) eqn:Hi.
  - now rewrite (DetectAnomalies_returns d ms t Hi).
  - now rewrite (DetectAnomalies_flag_down d ms t Hi).
Qed.

Lemma length_anomalies_of (stats : GoMap MetricStats) (ms : list TimeSeries)
    (t : float64) :
  (length (anomalies_of stats ms t) <= length (flat_map Points ms))%nat.
Proof.
  induction ms as [|m ms IH]; [reflexivity|].
  cbn [anomalies_of flat_map]. fold (anomalies_of stats ms t).
  rewrite !length_app.
  destruct (map_lookup stats (MetricType m)) as [st|]; cbn [length]; [|lia].
  rewrite length_map.
  pose proof (filter_length_le
                (fun point => exceeds st t (DoubleValue point)) (Points m)). lia.
Qed.

(** X18. Every anomaly [DetectAnomalies] returns is that of a point of
    the batch whose metric has an entry and whose z-score against that
    entry exceeds the threshold: it carries the type of the metric, the
    value and the end time of the point.  There are at most as many
    anomalies as points in the batch. *)
Theorem DetectAnomalies_anomaly_of_point (d : SimpleAnomalyDetector)
    (ms : list TimeSeries) (t : float64) (a : Anomaly) :
  a ∈ fst (snd (DetectAnomalies d ms t)) ->
  (exists series st point,
      series ∈ ms /\ point ∈ Points series
      /\ map_lookup (metricsStats d) (MetricType series) = Some st
      /\ gtb (Abs (zScore st (DoubleValue point))) t = true
      /\ MetricName a = MetricType series /\ Value a = DoubleValue point
      /\ Timestamp a = EndTime point)
  /\ (length (fst (snd (DetectAnomalies d ms t))) <= length (flat_map Points ms))%nat.
Proof.
  rewrite DetectAnomalies_anomalies.
  destruct (initialised d); [|intros H; inversion H].
  intros Ha. split; [|apply length_anomalies_of].
  apply elem_of_anomalies_of in Ha as (series & st & point & Hin & Hst & Hp & Hex & ->).
  exists series, st, point. repeat split; assumption.
Qed.

(** X19. With a threshold that is NaN or plus infinity, [DetectAnomalies]
    returns no anomaly, whatever the batch. *)
Theorem DetectAnomalies_unreachable_threshold (d : SimpleAnomalyDetector)
    (ms : list TimeSeries) (t : float64) :
  is_nan t = true \/ t = S754_infinity false ->
  fst (snd (DetectAnomalies d ms t)) = [].
Proof.
  intros Ht. rewrite DetectAnomalies_anomalies.
  destruct (initialised d); [|reflexivity].
  assert (Hex : forall st v, exceeds st t v = false).
  { intros st v. unfold exceeds. destruct Ht as [Ht| ->];
      [now apply gtb_nan_threshold|apply gtb_pinf_threshold]. }
  induction ms as [|m ms IH]; [reflexivity|].
  cbn [anomalies_of flat_map]. fold (anomalies_of (metricsStats d) ms t).
  rewrite IH. destruct (map_lookup _ _) as [st|]; [|reflexivity].
  rewrite app_nil_r.
  induction (Points m) as [|p ps IHp]; [reflexivity|].
  cbn [List.filter]. now rewrite Hex.
Qed.

(** X20. With a negative threshold, an initialised detector flags every
    point of a metric with an entry, unless its z-score is NaN. *)
Theorem DetectAnomalies_negative_threshold (d : SimpleAnomalyDetector)
    (ms : list TimeSeries) (t : float64) (series : TimeSeries) (st : MetricStats)
    (point : Point) :
  initialised d = true -> ltb t zero = true ->
  series ∈ ms -> point ∈ Points series ->
  map_lookup (metricsStats d) (MetricType series) = Some st ->
  is_nan (zScore st (DoubleValue point)) = false ->
  anomaly_of (MetricType series) st point ∈ fst (snd (DetectAnomalies d ms t)).
Proof.
  intros Hi Ht Hin Hp Hst Hz. rewrite (DetectAnomalies_returns d ms t Hi). cbn [fst].
  apply elem_of_anomalies_of. exists series, st, point.
  repeat split; try assumption. unfold exceeds. now apply gtb_Abs_negative.
Qed.

(** X21. Raising the threshold never adds an anomaly: what is flagged at a
    threshold is flagged at every threshold below it. *)
Theorem DetectAnomalies_threshold_monotone (d : SimpleAnomalyDetector)
    (ms : list TimeSeries) (t1 t2 : float64) (a : Anomaly) :
  leb t1 t2 = true ->
  a ∈ fst (snd (DetectAnomalies d ms t2)) ->
  a ∈ fst (snd (DetectAnomalies d ms t1)).
Proof.
  intros Hle. rewrite !DetectAnomalies_anomalies.
  destruct (initialised d); [|auto].
  rewrite !elem_of_anomalies_of.
  intros (series & st & point & Hin & Hst & Hp & Hex & ->).
  exists series, st, point. repeat split; try assumption.
  unfold exceeds, gtb in *. fold (ltb t2 (Abs (zScore st (DoubleValue point)))) in Hex.
  exact (leb_ltb_trans _ _ _ Hle Hex).
Qed.

(** X23. A second [DetectAnomalies] on the same batch with the same
    threshold returns what the first did and leaves the detector as the
    first left it. *)
Theorem DetectAnomalies_twice (d : SimpleAnomalyDetector) (ms : list TimeSeries)
    (t : float64) :
  DetectAnomalies (fst (DetectAnomalies d ms t)) ms t = DetectAnomalies d ms t.
Proof.
  destruct (initialised d) eqn:Hi.
  - pose proof (DetectAnomalies_returns d ms t Hi) as Hr.
    pose proof (DetectAnomalies_frame d ms t) as [Hm Hf].
    pose proof (DetectAnomalies_report d ms t Hi) as Hz.
    destruct (DetectAnomalies d ms t) as [d1 out] eqn:E. cbn [fst snd] in *.
    rewrite Hi in Hf.
    pose proof (DetectAnomalies_returns d1 ms t Hf) as Hr1.
    pose proof (DetectAnomalies_frame d1 ms t) as [Hm1 Hf1].
    pose proof (DetectAnomalies_report d1 ms t Hf) as Hz1.
    destruct (DetectAnomalies d1 ms t) as [d2 out2]. cbn [fst snd] in *.
    subst out out2. rewrite Hm. f_equal.
    destruct d1 as [a1 b1 c1], d2 as [a2 b2 c2]. cbn in *. congruence.
  - now rewrite (DetectAnomalies_flag_down d ms t Hi), (DetectAnomalies_flag_down d ms t Hi).
Qed.

End MoreDetection.

(** * A baseline of one sample *)

Lemma binary_round_aux_shr (s : bool) (m m' : positive) (e' k : Z) :
  0 <= k -> Z.pos m = Z.pos m' * 2 ^ k ->
  bounded prec emax m' e' = true ->
  binary_round_aux prec emax s (Z.pos m) (e' - k) loc_Exact = S754_finite s m' e'.
Proof.
  intros Hk Hm Hb.
  destruct (Z.eq_dec k 0) as [->|Hk0].
  { assert (m = m') by (cbn in Hm; lia). subst m.
    rewrite Z.sub_0_r. now apply binary_round_aux_exact. }
  pose proof Hb as [Hc Hle]%andb_true_iff. unfold canonical_mantissa in Hc.
  apply Z.eqb_eq in Hc.
  pose proof (digits2_shift m' m k Hk Hm) as Hd.
  assert (Hs : shr_fexp prec emax (Z.pos m) (e' - k) loc_Exact
               = ({| shr_m := Z.pos m'; shr_r := false; shr_s := false |}, e')).
  { unfold shr_fexp. cbn [Zdigits2 shr_record_of_loc].
    replace (Z.pos (digits2_pos m) + (e' - k)) with (Z.pos (digits2_pos m') + e') by lia.
    rewrite Hc. replace (e' - (e' - k)) with k by lia.
    destruct k as [|kp|kp]; try lia. cbn [shr].
    rewrite iter_pos_nat. f_equal; [|lia].
    rewrite <- (positive_nat_Z kp) in Hm.
    rewrite (iter_xO_eq _ _ _ Hm). apply shr_1_exact. }
  unfold binary_round_aux. rewrite Hs.
  cbn [shr_m loc_of_shr_record round_nearest_even].
  assert (Hs2 : shr_fexp prec emax (Z.pos m') e' loc_Exact
                = ({| shr_m := Z.pos m'; shr_r := false; shr_s := false |}, e')).
  { unfold shr_fexp. cbn [Zdigits2]. rewrite Hc, Z.sub_diag. reflexivity. }
  rewrite Hs2. cbn [shr_m]. now rewrite Hle.
Qed.

(** Dividing a float64 number by one gives that number. *)
Lemma div_one (s : bool) (m : positive) (e : Z) :
  valid (S754_finite s m e) = true ->
  div (S754_finite s m e) one = S754_finite s m e.
Proof.
  intros Hv. pose proof (valid_canonical s m e Hv) as Hc.
  change one with (S754_finite false 4503599627370496 (-52)).
  unfold div, SFdiv, SFdiv_core_binary.
  change (Zdigits2 (Z.pos 4503599627370496)) with 53. cbn [Zdigits2].
  set (d1 := Z.pos (digits2_pos m)) in *.
  set (e' := Z.min (fexp prec emax (d1 + e - (53 + -52))) (e - -52)).
  assert (He' : e' = e \/ e' = e - 1).
  { unfold e', fexp in *. lia. }
  set (k := e - e').
  assert (Hk : 0 <= k <= 1) by (unfold k; lia).
  replace (e - -52 - e') with (52 + k) by (unfold k; lia).
  destruct (52 + k) as [|p|p] eqn:Ep; try lia.
  rewrite <- Ep, Z.shiftl_mul_pow2 by lia.
  assert (Hdiv : Z.div_eucl (Z.pos m * 2 ^ (52 + k)) 4503599627370496
                 = (Z.pos m * 2 ^ k, 0)).
  { pose proof (Z_div_mod (Z.pos m * 2 ^ (52 + k)) 4503599627370496 ltac:(lia)) as H.
    destruct (Z.div_eucl _ _) as [q r]. destruct H as [H1 H2].
    rewrite Z.pow_add_r in H1 by lia. change (2 ^ 52) with 4503599627370496 in H1.
    assert (0 < 2 ^ k) by (apply Z.pow_pos_nonneg; lia).
    f_equal; nia. }
  rewrite Hdiv. change (new_location 4503599627370496 0) with loc_Exact.
  rewrite xorb_false_r.
  assert (Hpos : 0 < Z.pos m * 2 ^ k) by (apply Z.mul_pos_pos; [lia|apply Z.pow_pos_nonneg; lia]).
  destruct (Z.pos m * 2 ^ k) as [|q|q] eqn:Eq; try lia.
  replace e' with (e - k) by (unfold k; lia).
  apply binary_round_aux_shr; [lia|lia|exact Hv].
Qed.

Lemma window_of_one (p : Point) :
  real (DoubleValue p) = true ->
  eqb (window_mean [p]) (DoubleValue p) = true /\ window_stddev [p] = zero.
Proof.
  unfold real. intros [Hfin Hval]%andb_true_iff.
  unfold window_stddev, window_mean. cbn [values map length float_sum fold_left].
  change (counted 1) with one.
  destruct (DoubleValue p) as [s|s| |s m e]; try discriminate.
  - destruct s; split; reflexivity.
  - cbn [add SFadd zero]. change (SFdiv prec emax) with div.
    rewrite (div_one s m e Hval). split; [now apply eqb_finite_iff|].
    unfold sub, SFsub. rewrite Z.sub_diag. reflexivity.
Qed.

(** X24. A baseline computed from a single sample that is a number has
    that sample as its mean and zero as its standard deviation. *)
Theorem GetBaseline_single_sample (d : SimpleAnomalyDetector)
    (pre post : list TimeSeries) (ts : TimeSeries) (p : Point) :
  Points ts = [p] -> real (DoubleValue p) = true ->
  no_samples (MetricType ts) post ->
  exists st, map_lookup (metricsStats (GetBaseline d (pre ++ ts :: post)))
               (MetricType ts) = Some st
             /\ eqb (mean st) (DoubleValue p) = true /\ stddev st = zero.
Proof.
  intros Hp Hv Hpost. cbn [GetBaseline metricsStats map_lookup].
  rewrite GetBaseline_lookup, (last_window_last _ pre post ts eq_refl); try assumption.
  - eexists. split; [reflexivity|]. rewrite Hp. cbn [baseline_entry mean stddev].
    now apply window_of_one.
  - now rewrite Hp.
Qed.

Lemma GetBaseline_single_sample_witness :
  exists st, map_lookup (metricsStats (GetBaseline newDetector [series "cpu" [42]])) "cpu"
             = Some st
             /\ eqb (mean st) (of_Z 42) = true /\ stddev st = zero.
Proof.
  apply (GetBaseline_single_sample newDetector [] [] (series "cpu" [42])
           {| DoubleValue := of_Z 42; EndTime := {| seconds := 0; nanos := 0 |} |}).
  - reflexivity.
  - reflexivity.
  - constructor.
Defined.

(** * The z-score report *)

Section Report.

Context {fmt : GoFmt}.

Lemma zScores_point_fold_keeps (k : string) (st : MetricStats) (points : list Point)
    (zs : gmap string float64) (key : string) :
  is_Some (zs !! key) -> is_Some (fold_left (zScores_point k st) points zs !! key).
Proof.
  revert zs. induction points as [|p points IH]; intros zs Hzs; [exact Hzs|].
  cbn [fold_left]. apply IH. unfold zScores_point. rewrite lookup_insert.
  case_decide; eauto.
Qed.

Lemma zScores_point_fold_has (k : string) (st : MetricStats) (points : list Point)
    (zs : gmap string float64) (point : Point) :
  point ∈ points ->
  is_Some (fold_left (zScores_point k st) points zs !! report_key k point).
Proof.
  revert zs. induction points as [|p points IH]; intros zs Hin; [inversion Hin|].
  cbn [fold_left]. apply elem_of_cons in Hin as [->|Hin]; [|now apply IH].
  apply zScores_point_fold_keeps. unfold zScores_point, report_key.
  rewrite lookup_insert_eq. eauto.
Qed.

Lemma zScores_metric_fold_keeps (stats : GoMap MetricStats) (ms : list TimeSeries)
    (zs : gmap string float64) (key : string) :
  is_Some (zs !! key) -> is_Some (fold_left (zScores_metric stats) ms zs !! key).
Proof.
  revert zs. induction ms as [|m ms IH]; intros zs Hzs; [exact Hzs|].
  cbn [fold_left]. apply IH. unfold zScores_metric.
  destruct (map_lookup stats (MetricType m)); [|exact Hzs].
  now apply zScores_point_fold_keeps.
Qed.

Lemma zScores_of_has (stats : GoMap MetricStats) (ms : list TimeSeries)
    (zs : gmap string float64) (series : TimeSeries) (st : MetricStats) (point : Point) :
  series ∈ ms -> map_lookup stats (MetricType series) = Some st ->
  point ∈ Points series ->
  is_Some (fold_left (zScores_metric stats) ms zs
             !! report_key (MetricType series) point).
Proof.
  revert zs. induction ms as [|m ms IH]; intros zs Hin Hst Hp; [inversion Hin|].
  cbn [fold_left]. apply elem_of_cons in Hin as [<-|Hin]; [|now apply IH].
  apply zScores_metric_fold_keeps. unfold zScores_metric. rewrite Hst.
  now apply zScores_point_fold_has.
Qed.

Lemma zScores_point_fold_scored (Q : string -> float64 -> Prop) (k : string)
    (st : MetricStats) (points : list Point) (zs : gmap string float64) :
  (forall key z, zs !! key = Some z -> Q key z) ->
  (forall point, point ∈ points ->
                 Q (report_key k point) (zScore st (DoubleValue point))) ->
  forall key z, fold_left (zScores_point k st) points zs !! key = Some z -> Q key z.
Proof.
  revert zs. induction points as [|p points IH]; intros zs Hzs Hpts; [exact Hzs|].
  cbn [fold_left]. apply IH.
  - intros key z. unfold zScores_point. rewrite lookup_insert.
    case_decide as E.
    + intros [= <-]. rewrite <- E. apply Hpts. constructor.
    + apply Hzs.
  - intros point Hin. apply Hpts. now constructor.
Qed.

Lemma zScores_metric_fold_scored (stats : GoMap MetricStats) (all ms : list TimeSeries)
    (zs : gmap string float64) :
  (forall series, series ∈ ms -> series ∈ all) ->
  (forall key z, zs !! key = Some z -> scored stats all key z) ->
  forall key z, fold_left (zScores_metric stats) ms zs !! key = Some z ->
                scored stats all key z.
Proof.
  revert zs. induction ms as [|m ms IH]; intros zs Hsub Hzs; [exact Hzs|].
  cbn [fold_left]. apply IH; [intros s Hs; apply Hsub; now constructor|].
  unfold zScores_metric. destruct (map_lookup stats (MetricType m)) as [st|] eqn:E;
    [|exact Hzs].
  apply zScores_point_fold_scored; [exact Hzs|].
  intros point Hp. exists m, st, point. repeat split; try assumption.
  apply Hsub. constructor.
Qed.

(** X22. After a successful [DetectAnomalies] the z-score report holds,
    for every point of a metric with an entry, an entry under the key of
    that point, flagged or not; and every entry of the report is the
    z-score of such a point under its key. *)
Theorem DetectAnomalies_report_entries (d : SimpleAnomalyDetector)
    (ms : list TimeSeries) (t : float64) :
  initialised d = true ->
  exists zs, zScores (fst (DetectAnomalies d ms t)) = Map zs
    /\ (forall series st point,
          series ∈ ms -> map_lookup (metricsStats d) (MetricType series) = Some st ->
          point ∈ Points series ->
          is_Some (zs !! report_key (MetricType series) point))
    /\ (forall key z, zs !! key = Some z -> scored (metricsStats d) ms key z).
Proof.
  intros Hi. rewrite (DetectAnomalies_report d ms t Hi). eexists. split; [reflexivity|].
  split.
  - intros series st point Hin Hst Hp. now apply (zScores_of_has _ _ _ series st).
  - apply zScores_metric_fold_scored; [auto|]. intros key z. now rewrite lookup_empty.
Qed.

End Report.

Lemma DetectAnomalies_report_entries_witness :
  exists zs, zScores (fst (@DetectAnomalies sample_fmt (sample_detector 100 10)
                             [series "cpu" [129; 131]] (of_Z 3))) = Map zs
    /\ is_Some (zs !! @report_key sample_fmt "cpu"
                       {| DoubleValue := of_Z 129;
                          EndTime := {| seconds := 0; nanos := 0 |} |}).
Proof.
  destruct (@DetectAnomalies_report_entries sample_fmt (sample_detector 100 10)
              [series "cpu" [129; 131]] (of_Z 3) eq_refl) as (zs & Hz & Hhas & _).
  exists zs. split; [exact Hz|].
  apply (Hhas (series "cpu" [129; 131])
           {| mean := of_Z 100; stddev := of_Z 10;
              currentMean := zero; currentStdDev := zero |}).
  - constructor.
  - reflexivity.
  - constructor.
Defined.

Lemma DetectAnomalies_anomaly_of_point_witness :
  exists a, a ∈ fst (snd (@DetectAnomalies sample_fmt (sample_detector 100 10)
                            [series "cpu" [129; 131]] (of_Z 3)))
    /\ MetricName a = "cpu"%string
    /\ Nat.le (length (fst (snd (@DetectAnomalies sample_fmt (sample_detector 100 10)
                                   [series "cpu" [129; 131]] (of_Z 3))))) 2.
Proof.
  set (st := {| mean := of_Z 100; stddev := of_Z 10;
                currentMean := zero; currentStdDev := zero |}).
  set (p := {| DoubleValue := of_Z 131; EndTime := {| seconds := 0; nanos := 0 |} |}).
  assert (Hin : @anomaly_of sample_fmt "cpu" st p
                ∈ fst (snd (@DetectAnomalies sample_fmt (sample_detector 100 10)
                              [series "cpu" [129; 131]] (of_Z 3))))
    by (vm_compute; constructor).
  exists (@anomaly_of sample_fmt "cpu" st p). split; [exact Hin|].
  destruct (@DetectAnomalies_anomaly_of_point sample_fmt _ _ _ _ Hin)
    as [(series & st' & point & _ & _ & _ & _ & Hn & _) Hlen].
  split; [reflexivity|exact Hlen].
Defined.

Lemma DetectAnomalies_unreachable_threshold_witness :
  fst (snd (@DetectAnomalies sample_fmt (sample_detector 100 10)
              [series "cpu" [129; 131; 1000]] S754_nan)) = []
  /\ fst (snd (@DetectAnomalies sample_fmt (sample_detector 100 10)
                 [series "cpu" [129; 131; 1000]] (S754_infinity false))) = [].
Proof.
  split.
  - apply (@DetectAnomalies_unreachable_threshold sample_fmt). left. reflexivity.
  - apply (@DetectAnomalies_unreachable_threshold sample_fmt). right. reflexivity.
Defined.

Lemma DetectAnomalies_negative_threshold_witness :
  @anomaly_of sample_fmt "cpu"
    {| mean := of_Z 100; stddev := of_Z 10; currentMean := zero; currentStdDev := zero |}
    {| DoubleValue := of_Z 100; EndTime := {| seconds := 0; nanos := 0 |} |}
  ∈ fst (snd (@DetectAnomalies sample_fmt (sample_detector 100 10)
                [series "cpu" [100]] (of_Z (-1)))).
Proof.
  apply (@DetectAnomalies_negative_threshold sample_fmt (sample_detector 100 10)
           [series "cpu" [100]] (of_Z (-1)) (series "cpu" [100])).
  - reflexivity.
  - reflexivity.
  - constructor.
  - constructor.
  - reflexivity.
  - reflexivity.
Defined.

Lemma DetectAnomalies_threshold_monotone_witness :
  @anomaly_of sample_fmt "cpu"
    {| mean := of_Z 100; stddev := of_Z 10; currentMean := zero; currentStdDev := zero |}
    {| DoubleValue := of_Z 131; EndTime := {| seconds := 0; nanos := 0 |} |}
  ∈ fst (snd (@DetectAnomalies sample_fmt (sample_detector 100 10)
                [series "cpu" [129; 131]] (of_Z 2))).
Proof.
  apply (@DetectAnomalies_threshold_monotone sample_fmt (sample_detector 100 10)
           [series "cpu" [129; 131]] (of_Z 2) (of_Z 3)).
  - reflexivity.
  - vm_compute. constructor.
Defined.
